(** * Tsunami alert dashboard (CRISiSLab 2024): model and verified properties

    A shallow embedding of [dashboard/dashboard.py] and
    [dashboard/arduino_data.py]: the scrolling graph buffers of
    [UpdatingGraphFigure], the calibration, water-height, alarm-latch,
    statistics and text-placement logic of [Dashboard], and the data
    loop of [DataTransmitter].

    Conventions.
    - A Python number is an exact rational ([Q]).  The source computes with
      binary64 floats; rounding, infinities and NaN are outside this model.
      The module [Binary64] re-evaluates the water-height formula on the
      kernel's binary64 floats for the one numerical scenario.
    - A Python call either returns, raises, or (in the model only) runs out
      of loop fuel: the type [Py.res].
    - A method that assigns to [self] is a computation in the monad [M]:
      it threads the [Dashboard] object, keeps the assignments made before
      an exception, and logs the effects that leave the object (threads
      started, pop-ups opened).
    - The data thread and the main thread share the dashboard without a
      lock.  A sequence of calls ([run]) runs each method to its end
      before the next begins; a switch of threads inside a method is
      modelled by the statement-by-statement bodies ([reset_alarm_with],
      [new_pressure_data_with], [calibrate_swh_between]), which agree
      with the methods when no switch occurs. *)

From Stdlib Require Import ZArith QArith Qround Lqa Lia PrimFloat.
From stdpp Require Import base list strings sorting.

Set Default Proof Using "Type".

(** ** Python built-ins used by the source *)

Module Py.

Inductive exn : Set :=
| IndexError
| ZeroDivisionError
| ValueError
| TypeError
| AttributeError.

(** Outcome of a call.  [OutOfFuel] is not a Python outcome: it marks a
    model loop whose fuel ran out, and the theorems show it never occurs. *)
Inductive res (A : Type) : Type :=
| Ok (a : A)
| Raise (e : exn)
| OutOfFuel.

Arguments Ok {A} a.
Arguments Raise {A} e.
Arguments OutOfFuel {A}.

Definition bind {A B : Type} (r : res A) (k : A -> res B) : res B :=
  match r with
  | Ok a => k a
  | Raise e => Raise e
  | OutOfFuel => OutOfFuel
  end.

(** [x < y] and [x == y] on numbers. *)
Definition ltb (x y : Q) : bool := negb (Qle_bool y x).
Definition eqb (x y : Q) : bool := Qeq_bool x y.

(** Position addressed by the subscript [i] in a sequence of length [n]:
    negative subscripts count from the end, anything else out of range
    is an [IndexError]. *)
Definition position (n : nat) (i : Z) : option nat :=
  if (0 <=? i)%Z then
    if (i <? Z.of_nat n)%Z then Some (Z.to_nat i) else None
  else
    if (- Z.of_nat n <=? i)%Z then Some (Z.to_nat (Z.of_nat n + i)) else None.

(** [l[i]] *)
Definition index {A : Type} (l : list A) (i : Z) : res A :=
  match position (length l) i with
  | Some j => match l !! j with
              | Some a => Ok a
              | None => Raise IndexError
              end
  | None => Raise IndexError
  end.

(** [l[i] = v] *)
Definition set_item {A : Type} (l : list A) (i : Z) (v : A) : res (list A) :=
  match position (length l) i with
  | Some j => Ok (<[j := v]> l)
  | None => Raise IndexError
  end.

(** [a / b] *)
Definition div (a b : Q) : res Q :=
  if eqb b 0 then Raise ZeroDivisionError else Ok (a / b)%Q.

(** [sum(l)], starting from the integer 0. *)
Definition sum (l : list Q) : Q := fold_left Qplus l 0%Q.

(** [len(l)] as a number. *)
Definition len {A : Type} (l : list A) : Q := inject_Z (Z.of_nat (length l)).

(** [max(l)] and [min(l)]: the first extremal item; [ValueError] on an
    empty sequence. *)
Definition max_from (cur : Q) (l : list Q) : Q :=
  fold_left (fun m x => if ltb m x then x else m) l cur.

Definition min_from (cur : Q) (l : list Q) : Q :=
  fold_left (fun m x => if ltb x m then x else m) l cur.

Definition max (l : list Q) : res Q :=
  match l with
  | [] => Raise ValueError
  | x :: l' => Ok (max_from x l')
  end.

Definition min (l : list Q) : res Q :=
  match l with
  | [] => Raise ValueError
  | x :: l' => Ok (min_from x l')
  end.

End Py.

Import Py.

(** ** [UpdatingGraphFigure] *)

(** A matplotlib [Axes]: only the axis limits are kept. *)
Record Axes : Type := mkAxes {
  xlim : Q * Q;
  ylim : Q * Q
}.

Definition new_axes : Axes := {| xlim := (0, 1)%Q; ylim := (0, 1)%Q |}.

Record UpdatingGraphFigure : Type := mkGraph {
  axes_list : list Axes;
  x_points : list (list Q);
  y_points : list (list Q);
  x_center : Q
}.

Definition set_x_points (g : UpdatingGraphFigure) (v : list (list Q)) : UpdatingGraphFigure :=
  {| axes_list := axes_list g; x_points := v; y_points := y_points g; x_center := x_center g |}.

Definition set_y_points (g : UpdatingGraphFigure) (v : list (list Q)) : UpdatingGraphFigure :=
  {| axes_list := axes_list g; x_points := x_points g; y_points := v; x_center := x_center g |}.

Definition set_axes_list (g : UpdatingGraphFigure) (v : list Axes) : UpdatingGraphFigure :=
  {| axes_list := v; x_points := x_points g; y_points := y_points g; x_center := x_center g |}.

(** [create_subplots]: [matplotlib.pyplot.subplots(graphs_y, graphs_x)]
    gives a flat array of axes when exactly one dimension is 1, and every
    subplot starts with empty coordinate lists.  A single [Axes] takes the
    branch that reads the attribute [self.axes], which is never assigned;
    a two-dimensional array yields rows, which have no [plot]. *)
Definition create_subplots (graphs_x graphs_y : nat) : res UpdatingGraphFigure :=
  let flat n :=
    Ok {| axes_list := replicate n new_axes;
          x_points := replicate n [];
          y_points := replicate n [];
          x_center := 0%Q |} in
  match graphs_x, graphs_y with
  | O, _ | _, O => Raise ValueError
  | 1%nat, 1%nat => Raise AttributeError
  | 1%nat, n | n, 1%nat => flat n
  | _, _ => Raise AttributeError
  end.

(** [get_subplot]: the subplot, or [None] when the index is out of range. *)
Definition get_subplot (self : UpdatingGraphFigure) (subplot_num : Z) : option Axes :=
  match index (axes_list self) subplot_num with
  | Ok a => Some a
  | _ => None
  end.

(** [add_data_point]: both coordinate lists are fetched inside the [try];
    an [IndexError] returns without a change; otherwise each list is
    appended to in place. *)
Definition add_data_point (self : UpdatingGraphFigure) (subplot_num : Z) (x y : Q)
  : UpdatingGraphFigure :=
  match index (x_points self) subplot_num, index (y_points self) subplot_num with
  | Ok x_data, Ok y_data =>
      match set_item (x_points self) subplot_num (x_data ++ [x]),
            set_item (y_points self) subplot_num (y_data ++ [y]) with
      | Ok xs', Ok ys' => set_y_points (set_x_points self xs') ys'
      | _, _ => self
      end
  | _, _ => self
  end.

(** [get_data_point]: [(None, None)] on an [IndexError]. *)
Definition get_data_point (self : UpdatingGraphFigure) (subplot_num point_index : Z)
  : option Q * option Q :=
  match bind (index (x_points self) subplot_num) (fun l => index l point_index),
        bind (index (y_points self) subplot_num) (fun l => index l point_index) with
  | Ok x_point, Ok y_point => (Some x_point, Some y_point)
  | _, _ => (None, None)
  end.

(** The [while True] loop of [get_data_within_last_x]: read the points at
    [-index]; stop on an [IndexError] or at the first x below [min_x];
    otherwise append to the two result lists and move one step back. *)
Fixpoint within_loop (fuel : nat) (subplot_x_points subplot_y_points : list Q) (min_x : Q)
    (index_ : Z) (x_within_boundaries y_within_boundaries : list Q)
  : res (list Q * list Q) :=
  match fuel with
  | O => OutOfFuel
  | S fuel' =>
      match index subplot_x_points (- index_), index subplot_y_points (- index_) with
      | Ok x_point, Ok y_point =>
          if ltb x_point min_x then Ok (x_within_boundaries, y_within_boundaries)
          else within_loop fuel' subplot_x_points subplot_y_points min_x (index_ + 1)
                 (x_within_boundaries ++ [x_point]) (y_within_boundaries ++ [y_point])
      | _, _ => Ok (x_within_boundaries, y_within_boundaries)
      end
  end.

(** [get_data_within_last_x]: [None] for a missing subplot, else the pair
    of result lists of the backward scan. *)
Definition get_data_within_last_x (self : UpdatingGraphFigure) (subplot_num : Z) (min_x : Q)
  : res (option (list Q * list Q)) :=
  match get_subplot self subplot_num with
  | None => Ok None
  | Some _ =>
      bind (index (x_points self) subplot_num) (fun subplot_x_points =>
      bind (index (y_points self) subplot_num) (fun subplot_y_points =>
      bind (within_loop (S (length subplot_x_points)) subplot_x_points subplot_y_points
              min_x 1 [] [])
           (fun r => Ok (Some r))))
  end.

(** [set_center] *)
Definition set_center (self : UpdatingGraphFigure) (c : Q) : UpdatingGraphFigure :=
  {| axes_list := axes_list self; x_points := x_points self;
     y_points := y_points self; x_center := c |}.

(** ** [Dashboard] *)

(** Text held by a Tk [StringVar]: a literal, or a template whose
    placeholder is filled with a number ([template.format(arg)]); the
    digits the formatting produces are not modelled. *)
Inductive text : Type :=
| Lit (s : string)
| Format (template : string) (arg : Q).

(** What [change_stat_display] leaves on one statistic: its text and the
    foreground colours of the number and of the label. *)
Record StatDisplay : Type := mkStat {
  var : text;
  number_foreground : string;
  label_foreground : string
}.

Record Statistics : Type := mkStatistics {
  max_pressure_stat : StatDisplay;
  air_pressure_stat : StatDisplay;
  swd_pressure_stat : StatDisplay;
  max_wave_height_stat : StatDisplay;
  current_wave_height_stat : StatDisplay;
  max_water_height_stat : StatDisplay;
  min_water_height_stat : StatDisplay
}.

(** The attributes of [Dashboard] that the logic reads or writes.  The
    two subplots [pressure_subplot] and [water_height_subplot] are the
    entries 0 and 1 of [graph.axes_list] (aliases, not copies).  Buttons,
    images, fonts and the reference lines are presentation and are left
    out. *)
Record Dashboard : Type := mkDashboard {
  graph : UpdatingGraphFigure;
  pressure_data : list Q * list Q;
  water_height_data : list Q * list Q;
  calibrated_air_pressure : option Q;
  standing_water_level : option Q;
  standing_water_air_pressure : option Q;
  alarm_threshold : option Q;
  data_period_var : Z;
  alarm_sent : bool;
  alarm_cooldown : bool;
  pressure_on_alarm_activate : option Q;
  wave_height_on_alarm_activate : option Q;
  status_var : text;
  alarm_threshold_var : text;
  alarm_status_label : string;
  statistics : Statistics
}.

Definition pressure_graph_default_ylim : Q * Q := (995, 1025)%Q.
Definition pressure_graph_ylim_buffer : Q := 5%Q.
Definition water_height_graph_default_ylim : Q * Q := (0, 15)%Q.
Definition water_height_graph_ylim_buffer : Q := 2.5%Q.

(** Effects that leave the object. *)
Inductive event : Type :=
| SendAlarmThread
| AlarmPopUp (date_and_time : string) (pressure wave_height : Q).

(** *** Assignments to attributes *)

Definition assign_graph (v : UpdatingGraphFigure) (d : Dashboard) : Dashboard :=
  mkDashboard v (pressure_data d) (water_height_data d) (calibrated_air_pressure d)
    (standing_water_level d) (standing_water_air_pressure d) (alarm_threshold d)
    (data_period_var d) (alarm_sent d) (alarm_cooldown d) (pressure_on_alarm_activate d)
    (wave_height_on_alarm_activate d) (status_var d) (alarm_threshold_var d)
    (alarm_status_label d) (statistics d).

Definition assign_pressure_data (v : list Q * list Q) (d : Dashboard) : Dashboard :=
  mkDashboard (graph d) v (water_height_data d) (calibrated_air_pressure d)
    (standing_water_level d) (standing_water_air_pressure d) (alarm_threshold d)
    (data_period_var d) (alarm_sent d) (alarm_cooldown d) (pressure_on_alarm_activate d)
    (wave_height_on_alarm_activate d) (status_var d) (alarm_threshold_var d)
    (alarm_status_label d) (statistics d).

Definition assign_calibrated_air_pressure (v : option Q) (d : Dashboard) : Dashboard :=
  mkDashboard (graph d) (pressure_data d) (water_height_data d) v
    (standing_water_level d) (standing_water_air_pressure d) (alarm_threshold d)
    (data_period_var d) (alarm_sent d) (alarm_cooldown d) (pressure_on_alarm_activate d)
    (wave_height_on_alarm_activate d) (status_var d) (alarm_threshold_var d)
    (alarm_status_label d) (statistics d).

Definition assign_standing_water_level (v : option Q) (d : Dashboard) : Dashboard :=
  mkDashboard (graph d) (pressure_data d) (water_height_data d) (calibrated_air_pressure d)
    v (standing_water_air_pressure d) (alarm_threshold d)
    (data_period_var d) (alarm_sent d) (alarm_cooldown d) (pressure_on_alarm_activate d)
    (wave_height_on_alarm_activate d) (status_var d) (alarm_threshold_var d)
    (alarm_status_label d) (statistics d).

Definition assign_standing_water_air_pressure (v : option Q) (d : Dashboard) : Dashboard :=
  mkDashboard (graph d) (pressure_data d) (water_height_data d) (calibrated_air_pressure d)
    (standing_water_level d) v (alarm_threshold d)
    (data_period_var d) (alarm_sent d) (alarm_cooldown d) (pressure_on_alarm_activate d)
    (wave_height_on_alarm_activate d) (status_var d) (alarm_threshold_var d)
    (alarm_status_label d) (statistics d).

Definition assign_alarm_threshold (v : option Q) (d : Dashboard) : Dashboard :=
  mkDashboard (graph d) (pressure_data d) (water_height_data d) (calibrated_air_pressure d)
    (standing_water_level d) (standing_water_air_pressure d) v
    (data_period_var d) (alarm_sent d) (alarm_cooldown d) (pressure_on_alarm_activate d)
    (wave_height_on_alarm_activate d) (status_var d) (alarm_threshold_var d)
    (alarm_status_label d) (statistics d).

Definition assign_data_period_var (v : Z) (d : Dashboard) : Dashboard :=
  mkDashboard (graph d) (pressure_data d) (water_height_data d) (calibrated_air_pressure d)
    (standing_water_level d) (standing_water_air_pressure d) (alarm_threshold d)
    v (alarm_sent d) (alarm_cooldown d) (pressure_on_alarm_activate d)
    (wave_height_on_alarm_activate d) (status_var d) (alarm_threshold_var d)
    (alarm_status_label d) (statistics d).

Definition assign_alarm_sent (v : bool) (d : Dashboard) : Dashboard :=
  mkDashboard (graph d) (pressure_data d) (water_height_data d) (calibrated_air_pressure d)
    (standing_water_level d) (standing_water_air_pressure d) (alarm_threshold d)
    (data_period_var d) v (alarm_cooldown d) (pressure_on_alarm_activate d)
    (wave_height_on_alarm_activate d) (status_var d) (alarm_threshold_var d)
    (alarm_status_label d) (statistics d).

Definition assign_alarm_cooldown (v : bool) (d : Dashboard) : Dashboard :=
  mkDashboard (graph d) (pressure_data d) (water_height_data d) (calibrated_air_pressure d)
    (standing_water_level d) (standing_water_air_pressure d) (alarm_threshold d)
    (data_period_var d) (alarm_sent d) v (pressure_on_alarm_activate d)
    (wave_height_on_alarm_activate d) (status_var d) (alarm_threshold_var d)
    (alarm_status_label d) (statistics d).

Definition assign_pressure_on_alarm_activate (v : option Q) (d : Dashboard) : Dashboard :=
  mkDashboard (graph d) (pressure_data d) (water_height_data d) (calibrated_air_pressure d)
    (standing_water_level d) (standing_water_air_pressure d) (alarm_threshold d)
    (data_period_var d) (alarm_sent d) (alarm_cooldown d) v
    (wave_height_on_alarm_activate d) (status_var d) (alarm_threshold_var d)
    (alarm_status_label d) (statistics d).

Definition assign_wave_height_on_alarm_activate (v : option Q) (d : Dashboard) : Dashboard :=
  mkDashboard (graph d) (pressure_data d) (water_height_data d) (calibrated_air_pressure d)
    (standing_water_level d) (standing_water_air_pressure d) (alarm_threshold d)
    (data_period_var d) (alarm_sent d) (alarm_cooldown d) (pressure_on_alarm_activate d)
    v (status_var d) (alarm_threshold_var d)
    (alarm_status_label d) (statistics d).

Definition assign_status_var (v : text) (d : Dashboard) : Dashboard :=
  mkDashboard (graph d) (pressure_data d) (water_height_data d) (calibrated_air_pressure d)
    (standing_water_level d) (standing_water_air_pressure d) (alarm_threshold d)
    (data_period_var d) (alarm_sent d) (alarm_cooldown d) (pressure_on_alarm_activate d)
    (wave_height_on_alarm_activate d) v (alarm_threshold_var d)
    (alarm_status_label d) (statistics d).

Definition assign_alarm_threshold_var (v : text) (d : Dashboard) : Dashboard :=
  mkDashboard (graph d) (pressure_data d) (water_height_data d) (calibrated_air_pressure d)
    (standing_water_level d) (standing_water_air_pressure d) (alarm_threshold d)
    (data_period_var d) (alarm_sent d) (alarm_cooldown d) (pressure_on_alarm_activate d)
    (wave_height_on_alarm_activate d) (status_var d) v
    (alarm_status_label d) (statistics d).

Definition assign_alarm_status_label (v : string) (d : Dashboard) : Dashboard :=
  mkDashboard (graph d) (pressure_data d) (water_height_data d) (calibrated_air_pressure d)
    (standing_water_level d) (standing_water_air_pressure d) (alarm_threshold d)
    (data_period_var d) (alarm_sent d) (alarm_cooldown d) (pressure_on_alarm_activate d)
    (wave_height_on_alarm_activate d) (status_var d) (alarm_threshold_var d)
    v (statistics d).

Definition assign_statistics (v : Statistics) (d : Dashboard) : Dashboard :=
  mkDashboard (graph d) (pressure_data d) (water_height_data d) (calibrated_air_pressure d)
    (standing_water_level d) (standing_water_air_pressure d) (alarm_threshold d)
    (data_period_var d) (alarm_sent d) (alarm_cooldown d) (pressure_on_alarm_activate d)
    (wave_height_on_alarm_activate d) (status_var d) (alarm_threshold_var d)
    (alarm_status_label d) v.

(** *** The method monad *)

(** A method body: from the object before the call to its outcome, the
    object after it (also when it raises) and the effects it caused. *)
Definition M (A : Type) : Type := Dashboard -> res A * Dashboard * list event.

#[export] Instance res_ret : MRet res := fun A a => Ok a.
#[export] Instance res_bind : MBind res := fun A B k r => Py.bind r k.

#[export] Instance M_ret : MRet M := fun A a d => (Ok a, d, []).

#[export] Instance M_bind : MBind M := fun A B k m d =>
  match m d with
  | (Ok a, d', ev) => let '(r, d'', ev') := k a d' in (r, d'', ev ++ ev')
  | (Raise e, d', ev) => (Raise e, d', ev)
  | (OutOfFuel, d', ev) => (OutOfFuel, d', ev)
  end.

(** [self] *)
Definition self_ : M Dashboard := fun d => (Ok d, d, []).

(** [self.attr = v], through one of the [assign_] functions. *)
Definition assign (f : Dashboard -> Dashboard) : M unit := fun d => (Ok tt, f d, []).

(** [self.graph.method(...)] for a method that updates the figure. *)
Definition on_graph (f : UpdatingGraphFigure -> UpdatingGraphFigure) : M unit :=
  assign (fun d => assign_graph (f (graph d)) d).

(** The outcome of a call that does not touch the object. *)
Definition call {A : Type} (r : res A) : M A := fun d => (r, d, []).

Definition raise {A : Type} (e : exn) : M A := call (Raise e).

Definition emit (ev : event) : M unit := fun d => (Ok tt, d, [ev]).

Definition exn_eqb (a b : exn) : bool :=
  match a, b with
  | IndexError, IndexError
  | ZeroDivisionError, ZeroDivisionError
  | ValueError, ValueError
  | TypeError, TypeError
  | AttributeError, AttributeError => true
  | _, _ => false
  end.

(** [try: body  except e: handler]: the handler runs on the object as the
    body left it when it raised. *)
Definition try_except {A : Type} (body : M A) (e : exn) (handler : M A) : M A := fun d =>
  match body d with
  | (Raise e', d', ev) =>
      if exn_eqb e e' then let '(r, d'', ev') := handler d' in (r, d'', ev ++ ev')
      else (Raise e', d', ev)
  | other => other
  end.

(** Unpacking [a, b = value] when [value] may be [None]. *)
Definition unpack {A : Type} (v : option A) : M A :=
  match v with
  | Some p => mret p
  | None => raise TypeError
  end.

(** *** Methods *)

(** A statistic as [create_widgets] leaves it, before its first update. *)
Definition blank_stat : StatDisplay :=
  {| var := Lit "N/A"; number_foreground := "#202733"; label_foreground := "#202733" |}.

(** [change_alarm_status]: one of three labels; any other argument leaves
    the label as it is. *)
Definition change_alarm_status (alarm_status : string) : M unit :=
  if String.eqb alarm_status "not ready" then assign (assign_alarm_status_label "Alarm: Not Ready")
  else if String.eqb alarm_status "ready" then assign (assign_alarm_status_label "Alarm: Ready")
  else if String.eqb alarm_status "activated" then
    assign (assign_alarm_status_label "Alarm: ACTIVATED")
  else mret tt.

(** [alarm_pop_up]: the information string formats both readings with
    [{:.2f}], which raises [TypeError] on [None]. *)
Definition alarm_pop_up (date_and_time : string) (pressure wave_height : option Q) : M unit :=
  match pressure, wave_height with
  | Some p, Some w => emit (AlarmPopUp date_and_time p w)
  | _, _ => raise TypeError
  end.

(** [window_activate_alarm]; [dt_string] is the formatted current time. *)
Definition window_activate_alarm (dt_string : string) : M unit :=
  assign (assign_status_var
            (Lit (dt_string ++ " > TSUNAMI ALARM ACTIVATED: Wave height threshold breached")));;
  change_alarm_status "activated";;
  self ← self_;
  alarm_pop_up dt_string (pressure_on_alarm_activate self) (wave_height_on_alarm_activate self).

(** [reset_alarm] *)
Definition reset_alarm : M unit :=
  assign (assign_status_var (Lit "Alarm system reset and set to Ready."));;
  change_alarm_status "ready";;
  assign (assign_alarm_sent false);;
  assign (assign_alarm_cooldown false);;
  assign (assign_pressure_on_alarm_activate None);;
  assign (assign_wave_height_on_alarm_activate None).

(** The constants of [calculate_water_height]: density of water in
    kg/m^3 and gravity in m/s^2. *)
Definition WATER_DENSITY : Q := 997%Q.
Definition GRAVITY_FORCE : Q := 9.81%Q.

(** [calculate_water_height]: h in metres from P = P0 + pgh, zero when
    negative, else converted to centimetres.  Subtracting [None] raises
    [TypeError]. *)
Definition calculate_water_height (self : Dashboard) (pressure : Q) : res Q :=
  match calibrated_air_pressure self with
  | None => Raise TypeError
  | Some air_pressure =>
      water_height ← Py.div ((pressure - air_pressure) * 100)%Q (WATER_DENSITY * GRAVITY_FORCE)%Q;
      if ltb water_height 0 then mret 0%Q
      else mret (water_height * 100)%Q
  end.

(** [new_pressure_data]; [time_since_init] is [time.time() - self.init_time]
    as read at the call. *)
Definition new_pressure_data (time_since_init pressure : Q) : M unit :=
  self ← self_;
  assign (assign_pressure_data (fst (pressure_data self) ++ [time_since_init],
                                snd (pressure_data self) ++ [pressure]));;
  on_graph (fun g => add_data_point g 0 time_since_init pressure);;
  self ← self_;
  match calibrated_air_pressure self with
  | None => mret tt
  | Some _ =>
      water_height ← call (calculate_water_height self pressure);
      on_graph (fun g => add_data_point g 1 time_since_init water_height);;
      self ← self_;
      match standing_water_level self, alarm_threshold self with
      | Some standing, Some threshold =>
          let wave_height := (water_height - standing)%Q in
          if ltb threshold wave_height && Bool.eqb (alarm_sent self) false then
            assign (assign_pressure_on_alarm_activate (Some pressure));;
            assign (assign_wave_height_on_alarm_activate (Some wave_height));;
            assign (assign_alarm_sent true);;
            emit SendAlarmThread
          else mret tt
      | _, _ => mret tt
      end
  end.

(** [get_number_color] *)
Definition get_number_color (number max : Q) : res string :=
  if eqb max 0 then mret "#E4FDE1"
  else
    ratio ← Py.div number max;
    if ltb 1 ratio then mret "#FB363A"
    else if ltb 0.75 ratio then mret "#F97E36"
    else if ltb 0.5 ratio then mret "#E8E055"
    else mret "#41D3BD".

(** [change_stat_display] *)
Definition change_stat_display (stat : option Q) (number_color label_color : string)
  : StatDisplay :=
  match stat with
  | Some v => {| var := Format "{:.2f}" v;
                 number_foreground := number_color;
                 label_foreground := label_color |}
  | None => {| var := Lit "N/A";
               number_foreground := "#202733";
               label_foreground := "#202733" |}
  end.

(** [subplot.set_ylim(lo, hi)] on the subplot [k] of the figure; a
    missing subplot is [None], which has no such method. *)
Definition set_ylim (k : Z) (lo hi : Q) : M unit :=
  self ← self_;
  match index (axes_list (graph self)) k with
  | Ok a =>
      axes ← call (set_item (axes_list (graph self)) k {| xlim := xlim a; ylim := (lo, hi) |});
      assign (assign_graph (set_axes_list (graph self) axes))
  | _ => raise AttributeError
  end.


(** The two groups of [change_stat_display] calls of [update_statistics]. *)
Definition show_pressure_stats (max_pressure air_pressure swd_pressure : option Q)
    (s : Statistics) : Statistics :=
  {| max_pressure_stat := change_stat_display max_pressure "#E4FDE1" "#E4FDE1";
     air_pressure_stat := change_stat_display air_pressure "#E4FDE1" "#E4FDE1";
     swd_pressure_stat := change_stat_display swd_pressure "#E4FDE1" "#E4FDE1";
     max_wave_height_stat := max_wave_height_stat s;
     current_wave_height_stat := current_wave_height_stat s;
     max_water_height_stat := max_water_height_stat s;
     min_water_height_stat := min_water_height_stat s |}.

Definition show_height_stats (max_wave_height current_wave_height
    max_water_height min_water_height : option Q)
    (max_wave_height_color current_wave_height_color : string)
    (s : Statistics) : Statistics :=
  {| max_pressure_stat := max_pressure_stat s;
     air_pressure_stat := air_pressure_stat s;
     swd_pressure_stat := swd_pressure_stat s;
     max_wave_height_stat :=
       change_stat_display max_wave_height max_wave_height_color "#E4FDE1";
     current_wave_height_stat :=
       change_stat_display current_wave_height current_wave_height_color "#E4FDE1";
     max_water_height_stat := change_stat_display max_water_height "#E4FDE1" "#E4FDE1";
     min_water_height_stat := change_stat_display min_water_height "#E4FDE1" "#E4FDE1" |}.

(** [update_statistics]; [time_since_init] is the clock read at its start.
    [water_height_ys[0]] is the first item of the window. *)
Definition update_statistics (time_since_init : Q) : M unit :=
  self ← self_;
  let min_x := (time_since_init - inject_Z (data_period_var self))%Q in
  r ← call (get_data_within_last_x (graph self) 0 min_x);
  '(pressure_xs, pressure_ys) ← unpack r;
  r ← call (get_data_within_last_x (graph self) 1 min_x);
  '(water_height_xs, water_height_ys) ← unpack r;
  max_pressure ←
    match pressure_ys with
    | [] => mret None
    | _ =>
        max_pressure ← call (Py.max pressure_ys);
        min_pressure ← call (Py.min pressure_ys);
        let ylim_min := fst pressure_graph_default_ylim in
        let ylim_max := snd pressure_graph_default_ylim in
        let ylim_min :=
          if ltb (min_pressure - pressure_graph_ylim_buffer)%Q ylim_min
          then (min_pressure - pressure_graph_ylim_buffer)%Q else ylim_min in
        let ylim_max :=
          if ltb ylim_max (max_pressure + pressure_graph_ylim_buffer)%Q
          then (max_pressure + pressure_graph_ylim_buffer)%Q else ylim_max in
        set_ylim 0 ylim_min ylim_max;;
        mret (Some max_pressure)
    end;
  self ← self_;
  assign (assign_statistics
            (show_pressure_stats max_pressure (calibrated_air_pressure self)
               (standing_water_air_pressure self) (statistics self)));;
  '(max_wave_height, current_wave_height, max_water_height, min_water_height,
    max_wave_height_color, current_wave_height_color) ←
    match water_height_ys with
    | [] => mret (None, None, None, None, "#E4FDE1", "#E4FDE1")
    | first :: _ =>
        min_water_height ← call (Py.min water_height_ys);
        max_water_height ← call (Py.max water_height_ys);
        '(max_wave_height, current_wave_height, max_color, current_color) ←
          match standing_water_level self with
          | None => mret (None, None, "#E4FDE1", "#E4FDE1")
          | Some standing =>
              let max_wave_height := (max_water_height - standing)%Q in
              let current_wave_height := (first - standing)%Q in
              let max_wave_height :=
                if ltb max_wave_height 0 then 0%Q else max_wave_height in
              let current_wave_height :=
                if ltb current_wave_height 0 then 0%Q else current_wave_height in
              match alarm_threshold self with
              | None =>
                  mret (Some max_wave_height, Some current_wave_height, "#E4FDE1", "#E4FDE1")
              | Some threshold =>
                  max_color ← call (get_number_color max_wave_height threshold);
                  current_color ← call (get_number_color current_wave_height threshold);
                  mret (Some max_wave_height, Some current_wave_height,
                        max_color, current_color)
              end
          end;
        let ylim_min := fst water_height_graph_default_ylim in
        let ylim_max := snd water_height_graph_default_ylim in
        let ylim_max :=
          if ltb ylim_max (max_water_height + water_height_graph_ylim_buffer)%Q
          then (max_water_height + water_height_graph_ylim_buffer)%Q else ylim_max in
        set_ylim 1 ylim_min ylim_max;;
        mret (max_wave_height, current_wave_height, Some max_water_height,
              Some min_water_height, max_color, current_color)
    end;
  self ← self_;
  assign (assign_statistics
            (show_height_stats max_wave_height current_wave_height max_water_height
               min_water_height max_wave_height_color current_wave_height_color
               (statistics self))).

(** Number of points held for a subplot: the bound on the backward
    loops over its points. *)
Definition points_count (g : UpdatingGraphFigure) (subplot_num : Z) : nat :=
  match index (x_points g) subplot_num with
  | Ok l => length l
  | _ => O
  end.

(** The [while True] loop of [calibrate_air_pressure]: walk the pressure
    points backwards while they are at most [length] seconds old. *)
Fixpoint calibrate_loop (fuel : nat) (g : UpdatingGraphFigure) (time_since_init length_ : Q)
    (index_ : Z) (pressure_data_points : list Q) : res (list Q) :=
  match fuel with
  | O => OutOfFuel
  | S fuel' =>
      match get_data_point g 0 (- index_) with
      | (Some time_recorded, Some pressure_recorded) =>
          if Qle_bool (time_since_init - time_recorded) length_ then
            calibrate_loop fuel' g time_since_init length_ (index_ + 1)
              (pressure_data_points ++ [pressure_recorded])
          else Ok pressure_data_points
      | _ => Ok pressure_data_points
      end
  end.

(** [calibrate_air_pressure] *)
Definition calibrate_air_pressure (time_since_init length_ : Q) : M unit :=
  self ← self_;
  pressure_data_points ←
    call (calibrate_loop (S (points_count (graph self) 0)) (graph self)
            time_since_init length_ 1 []);
  calibrated ←
    try_except
      (mean ← call (Py.div (Py.sum pressure_data_points) (Py.len pressure_data_points));
       assign (assign_calibrated_air_pressure (Some mean));;
       mret true)
      ZeroDivisionError
      (assign (assign_status_var (Lit "Could not calibrate air pressure, lack of data"));;
       mret false);
  if calibrated : bool then
    self ← self_;
    v ← unpack (calibrated_air_pressure self);
    assign (assign_status_var (Format "Air pressure calibrated to be {:.2f} hPa" v))
  else mret tt.

(** [calibrate_swh]: the two assignments share one [try]. *)
Definition calibrate_swh (time_since_init length_ : Q) : M unit :=
  self ← self_;
  r ← call (get_data_within_last_x (graph self) 0 (time_since_init - length_)%Q);
  '(x_points_, pressure_data_points) ← unpack r;
  r ← call (get_data_within_last_x (graph self) 1 (time_since_init - length_)%Q);
  '(x_points_, water_height_data_points) ← unpack r;
  calibrated ←
    try_except
      (level ← call (Py.div (Py.sum water_height_data_points)
                       (Py.len water_height_data_points));
       assign (assign_standing_water_level (Some level));;
       p ← call (Py.div (Py.sum pressure_data_points) (Py.len pressure_data_points));
       assign (assign_standing_water_air_pressure (Some p));;
       mret true)
      ZeroDivisionError
      (assign (assign_status_var
                 (Lit "Could not calibrate standing water height, lack of data"));;
       mret false);
  if calibrated : bool then
    self ← self_;
    v ← unpack (standing_water_level self);
    assign (assign_status_var (Format "Standing water height calibrated to be {:.2f} cm" v))
  else mret tt.

(** [update_subplots]: every subplot gets the scrolling x window. *)
Definition update_subplots (self : UpdatingGraphFigure) (data_period : Q)
  : UpdatingGraphFigure :=
  let x_lim_left := (x_center self - data_period)%Q in
  let x_lim_right := (x_center self + data_period / 2)%Q in
  set_axes_list self
    (map (fun a => {| xlim := (x_lim_left, x_lim_right); ylim := ylim a |}) (axes_list self)).

(** The alarm test of one [mainloop] iteration. *)
Definition mainloop_alarm_check (dt_string : string) : M unit :=
  self ← self_;
  if Bool.eqb (alarm_cooldown self) false && Bool.eqb (alarm_sent self) true then
    assign (assign_alarm_cooldown true);;
    window_activate_alarm dt_string
  else mret tt.

(** One iteration of [mainloop]: [center_time] and [stats_time] are the
    two clock reads, [dt_string] the formatted date.  Text placement,
    canvas drawing and the date label are presentation and left out. *)
Definition mainloop_iteration (center_time stats_time : Q) (dt_string : string) : M unit :=
  self ← self_;
  on_graph (fun g => set_center g center_time);;
  on_graph (fun g => update_subplots g (inject_Z (data_period_var self)));;
  update_statistics stats_time;;
  mainloop_alarm_check dt_string.

(** [data_period_change]: the slider value snapped to a multiple of 5,
    [round(float(int(period) / 5)) * 5].  A fifth of an integer is never
    halfway between two integers, so the rounding is to the nearest one. *)
Definition data_period_change (period : Z) : M unit :=
  assign (assign_data_period_var ((period + 2) / 5 * 5)%Z).

Section UserInput.

(** The built-in [float] applied to the text of the threshold entry: a
    number, or [ValueError].  The parser is the interpreter's, not the
    repository's, so it is a parameter; the texts it reads as infinities
    or NaN have no counterpart among the rationals. *)
Variable float_ : text -> res Q.

(** [set_alarm_threshold] *)
Definition set_alarm_threshold : M unit :=
  self ← self_;
  match standing_water_level self with
  | None =>
      assign (assign_status_var
        (Lit "You must calibrate standing wave height first before entering the alarm threshold."));;
      assign (assign_alarm_threshold_var (Lit ""))
  | Some _ =>
      parsed ←
        try_except
          (v ← call (float_ (alarm_threshold_var self)); mret (Some v))
          ValueError
          (assign (assign_status_var (Lit "Alarm threshold must be a float number"));;
           assign (assign_alarm_threshold_var (Lit ""));;
           mret None);
      match parsed with
      | None => mret tt
      | Some alarm_threshold_ =>
          if ltb alarm_threshold_ 0 then
            assign (assign_status_var (Lit "Alarm threshold must be greater than 0"));;
            assign (assign_alarm_threshold_var (Lit ""))
          else
            assign (assign_alarm_threshold (Some alarm_threshold_));;
            assign (assign_alarm_threshold_var (Format "{:.2f}" alarm_threshold_));;
            assign (assign_status_var (Format "Alarm threshold set to {:.2f}" alarm_threshold_));;
            change_alarm_status "ready"
      end
  end.

(** What can call into the dashboard: the data thread, the buttons (the
    entry text is typed before "Set" is pressed), the timers armed by the
    calibration buttons, and the main loop. *)
Inductive action : Type :=
| NewPressureData (time_since_init pressure : Q)
| ResetAlarm
| CalibrateAirPressure (time_since_init length_ : Q)
| CalibrateSwh (time_since_init length_ : Q)
| SetAlarmThreshold (entry : text)
| DataPeriodChange (period : Z)
| MainloopIteration (center_time stats_time : Q) (dt_string : string).

Definition perform (a : action) : M unit :=
  match a with
  | NewPressureData t p => new_pressure_data t p
  | ResetAlarm => reset_alarm
  | CalibrateAirPressure t l => calibrate_air_pressure t l
  | CalibrateSwh t l => calibrate_swh t l
  | SetAlarmThreshold entry =>
      assign (assign_alarm_threshold_var entry);; set_alarm_threshold
  | DataPeriodChange period => data_period_change period
  | MainloopIteration c s dt => mainloop_iteration c s dt
  end.

(** The object and the effects after a sequence of calls; a call that
    raises leaves the object as it was at the exception. *)
Fixpoint run (acts : list action) (d : Dashboard) : Dashboard * list event :=
  match acts with
  | [] => (d, [])
  | a :: rest =>
      let '(_, d', ev) := perform a d in
      let '(d'', ev') := run rest d' in
      (d'', ev ++ ev')
  end.

End UserInput.

(** ** The water-height formula on binary64 floats

    The same expression as [calculate_water_height], evaluated with the
    rounding the interpreter applies. *)

Module Binary64.

Set Warnings "-inexact-float".

Definition calculate_water_height (calibrated_air_pressure pressure : float) : float :=
  let water_height :=
    (((pressure - calibrated_air_pressure) * 100) / (997 * 9.81))%float in
  if (water_height <? 0)%float then 0%float else (water_height * 100)%float.

Definition scenario_baseline : float := 1013.25%float.
Definition scenario_pressure : float := 1023.25%float.
Definition lower_10_224 : float := 10.224%float.
Definition upper_10_225 : float := 10.225%float.

Set Warnings "+inexact-float".

End Binary64.

(** ** Vocabulary of the statements *)

(** Appending a sequence of samples [(time, value)] to one subplot. *)
Definition add_all (g : UpdatingGraphFigure) (subplot_num : Z) (samples : list (Q * Q))
  : UpdatingGraphFigure :=
  fold_left (fun g s => add_data_point g subplot_num s.1 s.2) samples g.

(** The figure of the dashboard as [create_subplots 1 2] builds it. *)
Definition fresh_graph : UpdatingGraphFigure :=
  {| axes_list := [new_axes; new_axes];
     x_points := [[]; []];
     y_points := [[]; []];
     x_center := 0%Q |}.

(** A sample is in the window of cutoff [t]. *)
Definition in_window (t : Q) (s : Q * Q) : bool := Qle_bool t s.1.

(** The backward scan on the reversed coordinate lists: the leading run
    of points that are not below [min_x]. *)
Fixpoint take_recent (min_x : Q) (rxs rys : list Q) : list Q * list Q :=
  match rxs, rys with
  | x :: rxs', y :: rys' =>
      if ltb x min_x then ([], [])
      else let '(a, b) := take_recent min_x rxs' rys' in (x :: a, y :: b)
  | _, _ => ([], [])
  end.

(** Feeding a sequence of readings [(time, pressure)] from the data thread. *)
Fixpoint feed (readings : list (Q * Q)) : M unit :=
  match readings with
  | [] => mret tt
  | r :: rest => new_pressure_data r.1 r.2;; feed rest
  end.

(** The water height the formula gives for a baseline and a pressure. *)
Definition height_cm (air_pressure pressure : Q) : Q :=
  let water_height := ((pressure - air_pressure) * 100 / (WATER_DENSITY * GRAVITY_FORCE))%Q in
  if ltb water_height 0 then 0%Q else (water_height * 100)%Q.

(** A reading breaches: its wave height exceeds the threshold. *)
Definition breaches (air_pressure standing threshold : Q) (r : Q * Q) : bool :=
  ltb threshold (height_cm air_pressure r.2 - standing)%Q.

(** The alarm can fire: calibrated, threshold set, latch open and no
    activation pending on the main loop. *)
Definition alarm_ready (d : Dashboard) (air_pressure standing threshold : Q) : Prop :=
  calibrated_air_pressure d = Some air_pressure /\
  standing_water_level d = Some standing /\
  alarm_threshold d = Some threshold /\
  alarm_sent d = false /\
  alarm_cooldown d = false.

(** The latch invariant: a set latch comes with both snapshot readings. *)
Definition latch_has_snapshot (d : Dashboard) : Prop :=
  alarm_sent d = true ->
  is_Some (pressure_on_alarm_activate d) /\ is_Some (wave_height_on_alarm_activate d).

(** Number of alarm threads among the effects. *)
Definition is_send_alarm (e : event) : bool :=
  match e with
  | SendAlarmThread => true
  | AlarmPopUp _ _ _ => false
  end.

Definition alarms_sent (evs : list event) : nat :=
  length (List.filter is_send_alarm evs).

(** Clamping at zero, as [update_statistics] does for the wave heights. *)
Definition clamp0 (v : Q) : Q := if ltb v 0 then 0%Q else v.

(** The two subplots as [create_widgets] leaves them: matplotlib's x
    limits, the default y limits. *)
Definition pressure_subplot : Axes :=
  {| xlim := (0, 1)%Q; ylim := pressure_graph_default_ylim |}.

Definition water_height_subplot : Axes :=
  {| xlim := (0, 1)%Q; ylim := water_height_graph_default_ylim |}.

(** The dashboard as [Dashboard_init] builds it. *)
Definition initial_dashboard : Dashboard :=
  {| graph := set_axes_list fresh_graph [pressure_subplot; water_height_subplot];
     pressure_data := ([], []);
     water_height_data := ([], []);
     calibrated_air_pressure := None;
     standing_water_level := None;
     standing_water_air_pressure := None;
     alarm_threshold := None;
     data_period_var := 15%Z;
     alarm_sent := false;
     alarm_cooldown := false;
     pressure_on_alarm_activate := None;
     wave_height_on_alarm_activate := None;
     status_var := Lit "Connect to Arduino to start collecting data.";
     alarm_threshold_var := Lit "";
     alarm_status_label := "Alarm: Not Ready";
     statistics := mkStatistics blank_stat blank_stat blank_stat blank_stat
                     blank_stat blank_stat blank_stat |}.

(** The dashboard of the numerical scenario: baseline 1013.25 hPa. *)
Definition scenario_dashboard : Dashboard :=
  assign_calibrated_air_pressure (Some 1013.25%Q) initial_dashboard.

(** A dashboard calibrated to 1013.25 hPa and 5 cm of standing water,
    with a threshold of 20 cm. *)
Definition armed_dashboard : Dashboard :=
  assign_alarm_threshold (Some 20%Q)
    (assign_standing_water_level (Some 5%Q) scenario_dashboard).

(** The colours [get_number_color] can return. *)
Definition number_colors : list string :=
  ["#E4FDE1"; "#FB363A"; "#F97E36"; "#E8E055"; "#41D3BD"].

(** Unfolds the monad operations in a method applied to an object. *)
Ltac unfold_method :=
  unfold mbind, M_bind, mret, M_ret, self_, on_graph, assign, call, emit, raise.

Ltac run_method := unfold_method; cbn.

(** Proves a concrete [Sorted Qle] or [HdRel Qle] goal. *)
Ltac sorted_Q := repeat (constructor; try (unfold Qle; cbn; lia)).

(** A method keeps the observation [f] of the object, whatever its
    outcome. *)
Definition preserves {A X : Type} (f : Dashboard -> X) (m : M A) : Prop :=
  forall d, f (m d).1.2 = f d.

(** The latch and its snapshot; the three calibration values with the
    threshold; the coordinate lists of the figure. *)
Definition alarm_fields (d : Dashboard) : bool * option Q * option Q :=
  (alarm_sent d, pressure_on_alarm_activate d, wave_height_on_alarm_activate d).

Definition calibration_fields (d : Dashboard) : option Q * option Q * option Q * option Q :=
  (calibrated_air_pressure d, standing_water_level d, standing_water_air_pressure d,
   alarm_threshold d).

Definition point_fields (d : Dashboard) : list (list Q) * list (list Q) * nat :=
  (x_points (graph d), y_points (graph d), length (axes_list (graph d))).

(** The window of [calibrate_air_pressure] is empty: there is no
    pressure point, or the most recent one is older than [length_]. *)
Definition air_window_empty (d : Dashboard) (time_since_init length_ : Q) : Prop :=
  match get_data_point (graph d) 0 (-1) with
  | (Some time_recorded, Some _) => (length_ < time_since_init - time_recorded)%Q
  | _ => True
  end.

(** The figure of a running dashboard: two subplots, as many x as y
    values on each, and the water-height times a suffix of the pressure
    times (a height is recorded with every reading once the air pressure
    is calibrated, and with none before). *)
Definition coherent (d : Dashboard) : Prop :=
  exists xs0 ys0 xs1 ys1,
    x_points (graph d) = [xs0; xs1] /\
    y_points (graph d) = [ys0; ys1] /\
    length (axes_list (graph d)) = 2%nat /\
    length xs0 = length ys0 /\
    length xs1 = length ys1 /\
    xs1 `suffix_of` xs0 /\
    (calibrated_air_pressure d = None -> xs1 = []).

(** The air-pressure baseline is never withdrawn. *)
Definition baseline_kept (before after : option Q) : Prop :=
  before = None \/ is_Some after.

(** What [coherent] depends on. *)
Definition figure_fields (d : Dashboard)
  : list (list Q) * list (list Q) * nat * option Q :=
  (point_fields d, calibrated_air_pressure d).

(** A short session: a reading, an air-pressure calibration over it,
    and a second reading (recorded with its water height); no threshold
    text is ever typed. *)
Definition no_entry : text -> res Q := fun _ => Raise ValueError.

Definition short_session : Dashboard :=
  (run no_entry
     [NewPressureData 1 1000; CalibrateAirPressure 2 5; NewPressureData 3 1001]
     initial_dashboard).1.

(** A method returns from the object [d], and its result, final object
    and effects satisfy [Q]. *)
Definition returns {A : Type} (m : M A) (Q : A -> Dashboard -> list event -> Prop)
    (d : Dashboard) : Prop :=
  match m d with
  | (Ok a, d', ev) => Q a d' ev
  | _ => False
  end.

(** The short session with a standing water level of 20 cm, above the
    one water height recorded. *)
Definition calm_session : Dashboard :=
  assign_standing_water_level (Some 20%Q) short_session.

(** A threshold entry that reads as the number [v]. *)
Definition entry_value (v : Q) : text -> res Q := fun _ => Ok v.

Definition zero_entry : text -> res Q := entry_value 0%Q.

(** A session that ends latched: air pressure and standing water level
    calibrated on still water, threshold 20 cm, then a reading 50 hPa
    above the baseline. *)
Definition alarm_session : list action :=
  [NewPressureData 1 1000; CalibrateAirPressure 2 5; NewPressureData 3 1000;
   CalibrateSwh 4 5; SetAlarmThreshold (Lit "20"); NewPressureData 5 1050].

(** A buffer whose last timestamp is 5. *)
Definition one_sample_graph : UpdatingGraphFigure := add_all fresh_graph 0 [(5, 1)%Q].

(** The order on timestamps is transitive. *)
#[local] Instance Qle_transitive : Transitive Qle := Qle_trans.

(** ** Further vocabulary and models *)

(** The built-in [round] on a number: to the nearest integer, a tie to
    the even one. *)
Definition py_round (x : Q) : Z :=
  let f := Qfloor x in
  let r := (x - inject_Z f)%Q in
  if ltb r (1 # 2) then f
  else if ltb (1 # 2) r then (f + 1)%Z
  else if Z.even f then f else (f + 1)%Z.

(** The expression of [data_period_change] as the source writes it:
    [round(float(int(period) / 5)) * 5]. *)
Definition snapped_period (period : Z) : Z :=
  (py_round (inject_Z period / 5) * 5)%Z.

(** A method causes no effect outside the object. *)
Definition silent {A : Type} (m : M A) : Prop := forall d, (m d).2 = [].

(** The readings the data thread delivered in a sequence of calls, as
    a list of times and a list of pressures. *)
Fixpoint readings_of (acts : list action) : list Q * list Q :=
  match acts with
  | [] => ([], [])
  | NewPressureData t p :: rest =>
      (t :: (readings_of rest).1, p :: (readings_of rest).2)
  | _ :: rest => readings_of rest
  end.

(** The number of presses of the reset button in a sequence of calls. *)
Fixpoint resets (acts : list action) : nat :=
  match acts with
  | [] => O
  | ResetAlarm :: rest => S (resets rest)
  | _ :: rest => resets rest
  end.

(** Number of pop-ups among the effects. *)
Definition is_pop_up (e : event) : bool :=
  match e with
  | AlarmPopUp _ _ _ => true
  | SendAlarmThread => false
  end.

Definition pop_ups (evs : list event) : nat := length (List.filter is_pop_up evs).

(** What the data thread and the buttons keep of the records: both data
    attributes of the dashboard. *)
Definition data_fields (d : Dashboard) : (list Q * list Q) * (list Q * list Q) :=
  (pressure_data d, water_height_data d).

(** The latch and the cooldown flag. *)
Definition flag_fields (d : Dashboard) : bool * bool := (alarm_sent d, alarm_cooldown d).

(** The standing water level and the threshold. *)
Definition level_fields (d : Dashboard) : option Q * option Q :=
  (standing_water_level d, alarm_threshold d).

(** The parser answers with a number or with [ValueError], as [float]
    does on a string. *)
Definition reads_numbers (float_ : text -> res Q) : Prop :=
  forall t, (exists v, float_ t = Ok v) \/ float_ t = Raise ValueError.

(** A session of two readings, at times 1 and 2. *)
Definition two_readings : Dashboard :=
  (run no_entry [NewPressureData 1 1000; NewPressureData 2 1002] initial_dashboard).1.

(** The short session continued by a third reading: two water heights
    are on record. *)
Definition longer_session : Dashboard :=
  (run no_entry
     [NewPressureData 1 1000; CalibrateAirPressure 2 5; NewPressureData 3 1001;
      NewPressureData 4 1003]
     initial_dashboard).1.

(** The session that ends latched, as a dashboard. *)
Definition latched_dashboard : Dashboard :=
  (run (entry_value 20) alarm_session initial_dashboard).1.

(** No recorded water height is negative, nor is a calibrated standing
    water level or a threshold, and a threshold comes with a standing
    water level. *)
Definition levels_sound (d : Dashboard) : Prop :=
  (forall ys1, index (y_points (graph d)) 1 = Ok ys1 -> Forall (Qle 0) ys1) /\
  (forall s, standing_water_level d = Some s -> (0 <= s)%Q) /\
  (forall th, alarm_threshold d = Some th ->
     (0 <= th)%Q /\ is_Some (standing_water_level d)).

(** ** The text on the graphs *)

(** A matplotlib [Text]: what it shows and where, in the data
    coordinates of its subplot. *)
Record Text : Type := mkText {
  text_content : text;
  text_x : Q;
  text_y : Q
}.

(** The three text artists of [create_widgets].  They are attributes of
    the dashboard that only [update_graph_text] writes and no method
    reads, kept here in a record of their own. *)
Record GraphText : Type := mkGraphText {
  current_pressure_text : Text;
  current_water_height_text : Text;
  alarm_threshold_text : Text
}.

Definition created_graph_text : GraphText :=
  {| current_pressure_text := mkText (Lit "No pressure reading") 0 1000;
     current_water_height_text := mkText (Lit "No water height reading") 0 1000;
     alarm_threshold_text := mkText (Lit "ALARM THRESHOLD: 20.00 cm") 0 1000 |}.

(** The positional values [update_graph_text] computes from the limits
    of a subplot; [sum] starts from 0. *)
Definition middle (lim : Q * Q) : Q := (Py.sum [lim.1; lim.2] / 2)%Q.

Definition size (lim : Q * Q) : Q := (lim.2 - lim.1)%Q.

(** The branch of [update_graph_text] for a subplot with a last point:
    [set_text], [set_x] and [set_y] on its text.  Formatting [None]
    raises [TypeError], before anything is set. *)
Definition label_last_point (template : string) (a : Axes) (last_y : option Q) (t : Text)
  : res Text :=
  match last_y with
  | None => Raise TypeError
  | Some last_y =>
      Ok {| text_content := Format template last_y;
            text_x := (middle (xlim a) + size (xlim a) / 6 + size (xlim a) / 48)%Q;
            text_y := if ltb (size (ylim a) / 12) (last_y - (ylim a).1)%Q then last_y
                      else ((ylim a).1 + size (ylim a) / 12)%Q |}
  end.

(** [update_graph_text], the part for the pressure graph.  Without a
    last point the text is moved to the middle y value, on both axes. *)
Definition update_pressure_text (self : Dashboard) (texts : GraphText) : res GraphText :=
  match index (axes_list (graph self)) 0 with
  | Ok a =>
      match get_data_point (graph self) 0 (-1) with
      | (None, None) =>
          Ok {| current_pressure_text :=
                  {| text_content := text_content (current_pressure_text texts);
                     text_x := middle (ylim a);
                     text_y := middle (ylim a) |};
                current_water_height_text := current_water_height_text texts;
                alarm_threshold_text := alarm_threshold_text texts |}
      | (_, last_y) =>
          t ← label_last_point "{:.2f} hPa" a last_y (current_pressure_text texts);
          Ok {| current_pressure_text := t;
                current_water_height_text := current_water_height_text texts;
                alarm_threshold_text := alarm_threshold_text texts |}
      end
  | _ => Raise AttributeError
  end.

(** [update_graph_text], the part for the water-height graph.  Without a
    last point it is the pressure text that is moved, to the middle of
    the water-height graph. *)
Definition update_water_height_text (self : Dashboard) (texts : GraphText) : res GraphText :=
  match index (axes_list (graph self)) 1 with
  | Ok a =>
      match get_data_point (graph self) 1 (-1) with
      | (None, None) =>
          Ok {| current_pressure_text :=
                  {| text_content := text_content (current_pressure_text texts);
                     text_x := middle (xlim a);
                     text_y := middle (ylim a) |};
                current_water_height_text := current_water_height_text texts;
                alarm_threshold_text := alarm_threshold_text texts |}
      | (_, last_y) =>
          t ← label_last_point "{:.2f} cm" a last_y (current_water_height_text texts);
          Ok {| current_pressure_text := current_pressure_text texts;
                current_water_height_text := t;
                alarm_threshold_text := alarm_threshold_text texts |}
      end
  | _ => Raise AttributeError
  end.

(** [update_graph_text], the part for the threshold: adding [None] to
    the threshold raises [TypeError], before anything is set. *)
Definition update_threshold_text (self : Dashboard) (texts : GraphText) : res GraphText :=
  match alarm_threshold self with
  | None => Ok texts
  | Some threshold =>
      match index (axes_list (graph self)) 1, standing_water_level self with
      | Ok a, Some standing =>
          Ok {| current_pressure_text := current_pressure_text texts;
                current_water_height_text := current_water_height_text texts;
                alarm_threshold_text :=
                  {| text_content := Format "ALARM THRESHOLD: {:.2f} cm" (threshold + standing);
                     text_x := ((xlim a).2 - size (xlim a) / 64)%Q;
                     text_y := (threshold + standing + size (ylim a) / 48)%Q |} |}
      | Ok _, None => Raise TypeError
      | _, _ => Raise AttributeError
      end
  end.

(** [update_graph_text]: the three parts in order; a part that raises
    leaves the texts as the parts before it set them. *)
Definition update_graph_text (self : Dashboard) (texts : GraphText) : res unit * GraphText :=
  match update_pressure_text self texts with
  | Ok texts1 =>
      match update_water_height_text self texts1 with
      | Ok texts2 =>
          match update_threshold_text self texts2 with
          | Ok texts3 => (Ok tt, texts3)
          | Raise e => (Raise e, texts2)
          | OutOfFuel => (OutOfFuel, texts2)
          end
      | Raise e => (Raise e, texts1)
      | OutOfFuel => (OutOfFuel, texts1)
      end
  | Raise e => (Raise e, texts)
  | OutOfFuel => (OutOfFuel, texts)
  end.

(** ** [DataTransmitter] *)

(** What the environment answers when the serial port is opened, and
    when a line is read from it: [readline().decode().strip()] raises
    or gives the text of the line. *)
Inductive open_result : Type :=
| Opened
| SerialException.

Inductive read_result : Type :=
| ReadRaises
| ReadLine (data : string).

Module Transmitter.

(** The open port, if any, and whether a dashboard is attached. *)
Record DataTransmitter : Type := mkDataTransmitter {
  serial_COM : option (string * Z);
  dashboard : bool
}.

(** [DataTransmitter.__init__] *)
Definition init (dashboard : bool) : DataTransmitter :=
  {| serial_COM := None; dashboard := dashboard |}.

(** [connect_serial]: a port that cannot be opened leaves no port. *)
Definition connect_serial (self : DataTransmitter) (port : string) (baud_rate : Z)
    (opened : open_result) : bool * DataTransmitter :=
  match opened with
  | Opened => (true, {| serial_COM := Some (port, baud_rate); dashboard := dashboard self |})
  | SerialException => (false, {| serial_COM := None; dashboard := dashboard self |})
  end.

(** [set_dashboard] *)
Definition set_dashboard (self : DataTransmitter) (attached : bool) : DataTransmitter :=
  {| serial_COM := serial_COM self; dashboard := attached |}.

(** [is_serial_connected] *)
Definition is_serial_connected (self : DataTransmitter) : bool :=
  match serial_COM self with
  | Some _ => true
  | None => false
  end.

(** [send_alarm]: what is written to the port. *)
Definition send_alarm (self : DataTransmitter) : list string :=
  match serial_COM self with
  | None => []
  | Some _ => ["ALARM"%string]
  end.

Section Reading.

Variable float_ : text -> res Q.

(** [get_pressure_data]: any exception of the read gives [None], as
    does reading without a port; an empty line gives [None]; of the
    exceptions of [float] only [ValueError] is caught. *)
Definition get_pressure_data (self : DataTransmitter) (read : read_result) : res (option Q) :=
  match serial_COM self, read with
  | None, _ | _, ReadRaises => Ok None
  | Some _, ReadLine data =>
      if String.eqb data "" then Ok None
      else
        match float_ (Lit data) with
        | Ok data_float => Ok (Some data_float)
        | Raise ValueError => Ok None
        | Raise e => Raise e
        | OutOfFuel => OutOfFuel
        end
  end.

(** One pass of the [while True] loop of [data_loop], after the sleep:
    [now] is the clock [new_pressure_data] reads. *)
Definition data_loop_iteration (self : DataTransmitter) (now : Q) (read : read_result)
  : M unit :=
  if negb (dashboard self) then mret tt
  else if negb (is_serial_connected self) then mret tt
  else
    pressure ← call (get_pressure_data self read);
    match pressure with
    | Some pressure => new_pressure_data now pressure
    | None => mret tt
    end.

(** The first passes of [data_loop], one for each clock value and read. *)
Fixpoint data_loop (self : DataTransmitter) (passes : list (Q * read_result)) : M unit :=
  match passes with
  | [] => mret tt
  | (now, read) :: rest => data_loop_iteration self now read;; data_loop self rest
  end.

End Reading.

End Transmitter.

(** [Dashboard.connect_serial]: the transmitter is asked for port COM5;
    enabling the calibration button is presentation and left out. *)
Definition connect_serial (opened : open_result) (data_transmitter : Transmitter.DataTransmitter)
  : M Transmitter.DataTransmitter :=
  let '(success, data_transmitter) :=
    Transmitter.connect_serial data_transmitter "COM5" 115200 opened in
  (if success : bool then assign (assign_status_var (Lit "Arduino connected!"))
   else assign (assign_status_var (Lit "Failed to connect to Arduino")));;
  mret data_transmitter.

(** The readings a connected transmitter with a dashboard passes on:
    the lines that are not empty and read as numbers. *)
Definition passed_on (float_ : text -> res Q) (self : Transmitter.DataTransmitter)
    (passes : list (Q * read_result)) : list (Q * Q) :=
  if Transmitter.dashboard self && Transmitter.is_serial_connected self then
    omap (fun pass : Q * read_result =>
            match pass.2 with
            | ReadRaises => None
            | ReadLine data =>
                if String.eqb data "" then None
                else match float_ (Lit data) with
                     | Ok v => Some (pass.1, v)
                     | _ => None
                     end
            end) passes
  else [].

(** A parser that knows two numbers. *)
Definition sample_float : text -> res Q := fun t =>
  match t with
  | Lit s =>
      if String.eqb s "1000" then Ok 1000%Q
      else if String.eqb s "0" then Ok 0%Q
      else Raise ValueError
  | Format _ _ => Raise ValueError
  end.

(** A connected transmitter with a dashboard. *)
Definition sample_transmitter : Transmitter.DataTransmitter :=
  (Transmitter.connect_serial (Transmitter.set_dashboard (Transmitter.init false) true)
     "COM5" 115200 Opened).2.

(** ** Thread switches

    [main.py] runs [data_loop], and so [new_pressure_data], on a thread
    of its own, beside the main loop and the button handlers, and the
    dashboard has no lock.  A method is given here once more with a
    [hook] after each of its statements: [hook i] is what the other
    thread does when the interpreter switches threads after statement
    [i].  The other thread's method is run whole at that point, and what
    it raises is reported as the outcome of the run.  A test of an [if]
    is taken together with the statement that follows it; after a hook
    the attributes are read again. *)

(** No thread switch. *)
Definition no_switch : nat -> M unit := fun _ => mret tt.


(** [reset_alarm], statement by statement. *)
Definition reset_alarm_with (hook : nat -> M unit) : M unit :=
  assign (assign_status_var (Lit "Alarm system reset and set to Ready."));;
  hook 1%nat;;
  change_alarm_status "ready";;
  hook 2%nat;;
  assign (assign_alarm_sent false);;
  hook 3%nat;;
  assign (assign_alarm_cooldown false);;
  hook 4%nat;;
  assign (assign_pressure_on_alarm_activate None);;
  hook 5%nat;;
  assign (assign_wave_height_on_alarm_activate None).

(** [new_pressure_data], statement by statement: the two appends to
    [pressure_data], the point on subplot 0, the water height, the point
    on subplot 1, the wave height, and the three assignments of the
    firing branch before the alarm thread is started.  Subtracting
    [None] and comparing with [None] raise [TypeError]. *)
Definition new_pressure_data_with (hook : nat -> M unit) (time_since_init pressure : Q)
  : M unit :=
  assign (fun self =>
            assign_pressure_data (fst (pressure_data self) ++ [time_since_init],
                                  snd (pressure_data self)) self);;
  hook 1%nat;;
  assign (fun self =>
            assign_pressure_data (fst (pressure_data self),
                                  snd (pressure_data self) ++ [pressure]) self);;
  hook 2%nat;;
  on_graph (fun g => add_data_point g 0 time_since_init pressure);;
  hook 3%nat;;
  self ← self_;
  match calibrated_air_pressure self with
  | None => mret tt
  | Some _ =>
      water_height ← call (calculate_water_height self pressure);
      hook 4%nat;;
      on_graph (fun g => add_data_point g 1 time_since_init water_height);;
      hook 5%nat;;
      self ← self_;
      match standing_water_level self, alarm_threshold self with
      | Some standing, Some _ =>
          let wave_height := (water_height - standing)%Q in
          hook 6%nat;;
          self ← self_;
          threshold ← unpack (alarm_threshold self);
          if ltb threshold wave_height && Bool.eqb (alarm_sent self) false then
            assign (assign_pressure_on_alarm_activate (Some pressure));;
            hook 7%nat;;
            assign (assign_wave_height_on_alarm_activate (Some wave_height));;
            hook 8%nat;;
            assign (assign_alarm_sent true);;
            hook 9%nat;;
            emit SendAlarmThread
          else mret tt
      | _, _ => mret tt
      end
  end.

(** [calibrate_swh] with a thread switch to [other] between its two
    window queries. *)
Definition calibrate_swh_between (other : M unit) (time_since_init length_ : Q) : M unit :=
  self ← self_;
  r ← call (get_data_within_last_x (graph self) 0 (time_since_init - length_)%Q);
  '(x_points_, pressure_data_points) ← unpack r;
  other;;
  self ← self_;
  r ← call (get_data_within_last_x (graph self) 1 (time_since_init - length_)%Q);
  '(x_points_, water_height_data_points) ← unpack r;
  calibrated ←
    try_except
      (level ← call (Py.div (Py.sum water_height_data_points)
                       (Py.len water_height_data_points));
       assign (assign_standing_water_level (Some level));;
       p ← call (Py.div (Py.sum pressure_data_points) (Py.len pressure_data_points));
       assign (assign_standing_water_air_pressure (Some p));;
       mret true)
      ZeroDivisionError
      (assign (assign_status_var
                 (Lit "Could not calibrate standing water height, lack of data"));;
       mret false);
  if calibrated : bool then
    self ← self_;
    v ← unpack (standing_water_level self);
    assign (assign_status_var (Format "Standing water height calibrated to be {:.2f} cm" v))
  else mret tt.

(** A session with both calibrations made, the standing water level on
    a reading of 1001 hPa at time 3; no threshold is set. *)
Definition calibrated_session : Dashboard :=
  (run no_entry
     [NewPressureData 1 1000; CalibrateAirPressure 2 5; NewPressureData 3 1001;
      CalibrateSwh 4 5]
     initial_dashboard).1.


(** * Properties *)

(** ** Built-ins *)

Section PyFacts.

Local Open Scope Q_scope.

Lemma ltb_lt (x y : Q) : ltb x y = true <-> x < y.
Proof.
  unfold ltb. rewrite negb_true_iff, <- not_true_iff_false, Qle_bool_iff.
  split; [apply Qnot_le_lt | apply Qlt_not_le].
Qed.

Lemma ltb_ge (x y : Q) : ltb x y = false <-> y <= x.
Proof.
  unfold ltb. rewrite negb_false_iff, Qle_bool_iff. reflexivity.
Qed.

(** The subscript [-(n+1)] reads position [n] of the reversed list. *)
Lemma index_from_end {A : Type} (l : list A) (n : nat) :
  index l (- (Z.of_nat n + 1)) =
  match reverse l !! n with
  | Some a => Ok a
  | None => Raise IndexError
  end.
Proof.
  unfold index, position.
  destruct (Z.leb_spec 0 (- (Z.of_nat n + 1))) as [Hneg | _]; [lia |].
  destruct (Z.leb_spec (- Z.of_nat (length l)) (- (Z.of_nat n + 1))) as [Hin | Hout].
  - assert (Hlt : (n < length l)%nat) by lia.
    rewrite (reverse_lookup l n Hlt).
    replace (Z.to_nat (Z.of_nat (length l) + - (Z.of_nat n + 1)))
      with (length l - S n)%nat by lia.
    reflexivity.
  - assert (Hnone : reverse l !! n = None).
    { apply lookup_ge_None. rewrite length_reverse. lia. }
    rewrite Hnone. reflexivity.
Qed.

(** A non-negative subscript in range reads that position. *)
Lemma index_nonneg {A : Type} (l : list A) (i : nat) (a : A) :
  l !! i = Some a -> index l (Z.of_nat i) = Ok a.
Proof.
  intros Hi. unfold index, position.
  pose proof (lookup_lt_Some _ _ _ Hi) as Hlt.
  destruct (Z.leb_spec 0 (Z.of_nat i)); [| lia].
  destruct (Z.ltb_spec (Z.of_nat i) (Z.of_nat (length l))); [| lia].
  rewrite Nat2Z.id, Hi. reflexivity.
Qed.

(** [index] succeeds exactly at the position [position] computes. *)
Lemma index_Ok_position {A : Type} (l : list A) (i : Z) (a : A) :
  index l i = Ok a <->
  exists j, position (length l) i = Some j /\ l !! j = Some a.
Proof.
  unfold index. split.
  - destruct (position (length l) i) as [j |]; [| discriminate].
    destruct (l !! j) as [b |] eqn:Hj; [| discriminate].
    intros [= ->]. eauto.
  - intros (j & -> & ->). reflexivity.
Qed.

Lemma position_lt (n : nat) (i : Z) (j : nat) :
  position n i = Some j -> (j < n)%nat.
Proof.
  unfold position.
  destruct (Z.leb_spec 0 i).
  - destruct (Z.ltb_spec i (Z.of_nat n)); [| discriminate]. intros [= <-]. lia.
  - destruct (Z.leb_spec (- Z.of_nat n) i); [| discriminate]. intros [= <-]. lia.
Qed.

End PyFacts.

(** ** The windowed query *)

Section Window.

Local Open Scope Q_scope.

(** The loop computes [take_recent] on the reversed lists, from any
    position, given fuel for the points that remain. *)
Lemma within_loop_take_recent (fuel : nat) (xs ys : list Q) (min_x : Q) :
  forall (n : nat) (accx accy : list Q),
    (n <= length xs)%nat -> (length xs < fuel + n)%nat ->
    within_loop fuel xs ys min_x (Z.of_nat n + 1) accx accy =
    Ok (accx ++ (take_recent min_x (drop n (reverse xs)) (drop n (reverse ys))).1,
        accy ++ (take_recent min_x (drop n (reverse xs)) (drop n (reverse ys))).2).
Proof.
  induction fuel as [| fuel IH]; intros n accx accy Hn Hfuel; [lia |].
  cbn [within_loop]. rewrite !index_from_end.
  destruct (reverse xs !! n) as [x |] eqn:Hx.
  - rewrite (drop_S _ _ _ Hx).
    destruct (reverse ys !! n) as [y |] eqn:Hy.
    + rewrite (drop_S _ _ _ Hy). cbn [take_recent].
      destruct (ltb x min_x); [cbn; by rewrite !app_nil_r |].
      apply lookup_lt_Some in Hx. rewrite length_reverse in Hx.
      replace (Z.of_nat n + 1 + 1)%Z with (Z.of_nat (S n) + 1)%Z by lia.
      rewrite IH by lia.
      destruct (take_recent min_x (drop (S n) (reverse xs)) (drop (S n) (reverse ys)))
        as [a b].
      cbn. by rewrite <- !app_assoc.
    + apply lookup_ge_None in Hy. rewrite (drop_ge (reverse ys)) by done.
      cbn. by rewrite !app_nil_r.
  - apply lookup_ge_None in Hx. rewrite (drop_ge (reverse xs)) by done.
    cbn. by rewrite !app_nil_r.
Qed.

Lemma filter_none {A : Type} (f : A -> bool) (l : list A) :
  (forall x, In x l -> f x = false) -> List.filter f l = [].
Proof.
  induction l as [| a l IH]; intros Hall; [done |].
  cbn. rewrite (Hall a) by (by left). apply IH. intros x Hx. apply Hall. by right.
Qed.

(** On timestamps in append order the leading run of the reversed lists
    is the reversed filter. *)
Lemma take_recent_sorted (t : Q) (samples : list (Q * Q)) :
  StronglySorted Qle samples.*1 ->
  take_recent t (reverse samples.*1) (reverse samples.*2) =
  ((reverse (List.filter (in_window t) samples)).*1,
   (reverse (List.filter (in_window t) samples)).*2).
Proof.
  induction samples as [| s samples IH] using rev_ind; intros Hs; [done |].
  rewrite !fmap_app in *. cbn [fmap list_fmap] in *.
  rewrite !reverse_snoc. cbn [take_recent].
  rewrite List.filter_app. cbn [List.filter]. unfold in_window at 2 4.
  apply StronglySorted_app in Hs as (Hle & Hl & _).
  destruct (ltb s.1 t) eqn:Hlt.
  - apply ltb_lt in Hlt.
    assert (Hno : Qle_bool t s.1 = false).
    { apply not_true_iff_false. rewrite Qle_bool_iff. lra. }
    rewrite Hno, app_nil_r.
    assert (Hnil : List.filter (in_window t) samples = []).
    { apply filter_none. intros x Hx. apply not_true_iff_false.
      unfold in_window. rewrite Qle_bool_iff.
      assert (x.1 <= s.1).
      { apply Hle; [| apply list_elem_of_singleton; done].
        apply list_elem_of_fmap. exists x. split; [done |]. by apply list_elem_of_In. }
      lra. }
    by rewrite Hnil.
  - apply ltb_ge in Hlt.
    assert (Hyes : Qle_bool t s.1 = true) by by apply Qle_bool_iff.
    rewrite Hyes, IH by done.
    by rewrite reverse_snoc.
Qed.

End Window.

(** ** Appending to the buffers *)

Section Append.

Local Open Scope Q_scope.

Lemma set_item_index {A : Type} (l : list A) (i : Z) (a v : A) :
  index l i = Ok a ->
  exists l', set_item l i v = Ok l' /\ index l' i = Ok v /\ length l' = length l.
Proof.
  intros (j & Hpos & Hj)%index_Ok_position.
  exists (<[j := v]> l). unfold set_item, index.
  rewrite length_insert, Hpos.
  rewrite list_lookup_insert_eq by eauto using lookup_lt_Some.
  done.
Qed.

(** What one append does to a subplot that exists. *)
Lemma add_data_point_at (g : UpdatingGraphFigure) (k : Z) (x y : Q) (xs ys : list Q) :
  index (x_points g) k = Ok xs ->
  index (y_points g) k = Ok ys ->
  index (x_points (add_data_point g k x y)) k = Ok (xs ++ [x]) /\
  index (y_points (add_data_point g k x y)) k = Ok (ys ++ [y]) /\
  axes_list (add_data_point g k x y) = axes_list g.
Proof.
  intros Hx Hy. unfold add_data_point. rewrite Hx, Hy.
  destruct (set_item_index _ _ _ (xs ++ [x]) Hx) as (xs' & -> & Hx' & _).
  destruct (set_item_index _ _ _ (ys ++ [y]) Hy) as (ys' & -> & Hy' & _).
  done.
Qed.

(** What a sequence of appends does to a subplot that exists. *)
Lemma add_all_at (samples : list (Q * Q)) :
  forall (g : UpdatingGraphFigure) (k : Z) (xs ys : list Q),
    index (x_points g) k = Ok xs ->
    index (y_points g) k = Ok ys ->
    index (x_points (add_all g k samples)) k = Ok (xs ++ samples.*1) /\
    index (y_points (add_all g k samples)) k = Ok (ys ++ samples.*2) /\
    axes_list (add_all g k samples) = axes_list g.
Proof.
  induction samples as [| s samples IH]; intros g k xs ys Hx Hy.
  - cbn. by rewrite !app_nil_r.
  - destruct (add_data_point_at g k s.1 s.2 xs ys Hx Hy) as (Hx' & Hy' & Hax).
    destruct (IH _ k _ _ Hx' Hy') as (Hx'' & Hy'' & Hax').
    change (add_all g k (s :: samples))
      with (add_all (add_data_point g k s.1 s.2) k samples).
    rewrite Hx'', Hy'', Hax', !fmap_cons, <- !app_assoc. done.
Qed.

(** The query on a subplot that holds samples in append order. *)
Lemma get_data_within_last_x_sorted (g : UpdatingGraphFigure) (k : Z) (t : Q)
    (samples : list (Q * Q)) :
  is_Some (get_subplot g k) ->
  index (x_points g) k = Ok samples.*1 ->
  index (y_points g) k = Ok samples.*2 ->
  Sorted Qle samples.*1 ->
  get_data_within_last_x g k t =
  Ok (Some ((reverse (List.filter (in_window t) samples)).*1,
            (reverse (List.filter (in_window t) samples)).*2)).
Proof.
  intros [a Ha] Hx Hy Hs. unfold get_data_within_last_x.
  rewrite Ha, Hx, Hy. cbn [bind].
  change 1%Z with (Z.of_nat 0 + 1)%Z.
  rewrite within_loop_take_recent by lia.
  rewrite !drop_0, take_recent_sorted by (by apply (Sorted_StronglySorted _)).
  done.
Qed.

Lemma fresh_graph_created : create_subplots 1 2 = Ok fresh_graph.
Proof. reflexivity. Qed.

Lemma fresh_graph_subplot (k : Z) :
  (-2 <= k < 2)%Z ->
  is_Some (get_subplot fresh_graph k) /\
  index (x_points fresh_graph) k = Ok [] /\
  index (y_points fresh_graph) k = Ok [].
Proof.
  intros Hk.
  assert (Hcases : k = (-2)%Z \/ k = (-1)%Z \/ k = 0%Z \/ k = 1%Z) by lia.
  destruct Hcases as [-> | [-> | [-> | ->]]]; cbn; eauto.
Qed.

End Append.

(** ** Claims about the buffers *)

Section BufferClaims.

Local Open Scope Q_scope.

(** C1, as amended: after any sequence of appends with non-decreasing
    timestamps to a subplot of the dashboard's figure, the windowed query
    with cutoff [t] returns exactly the samples with timestamp [>= t],
    most recent first (the reverse of the append order), as a pair of
    coordinate lists; a cutoff above every timestamp gives two empty
    lists. *)
Theorem get_data_within_last_x_recent_first (samples : list (Q * Q)) (k : Z) (t : Q) :
  (-2 <= k < 2)%Z ->
  Sorted Qle samples.*1 ->
  let window := List.filter (in_window t) samples in
  get_data_within_last_x (add_all fresh_graph k samples) k t =
    Ok (Some ((reverse window).*1, (reverse window).*2)) /\
  (forall s, In s window <-> In s samples /\ t <= s.1) /\
  ((forall s, In s samples -> s.1 < t) ->
   get_data_within_last_x (add_all fresh_graph k samples) k t = Ok (Some ([], []))).
Proof.
  intros Hk Hs window.
  destruct (fresh_graph_subplot k Hk) as (Hsub & Hx & Hy).
  destruct (add_all_at samples fresh_graph k [] [] Hx Hy) as (Hx' & Hy' & Hax).
  assert (Hq : get_data_within_last_x (add_all fresh_graph k samples) k t =
               Ok (Some ((reverse window).*1, (reverse window).*2))).
  { apply get_data_within_last_x_sorted; try done.
    unfold get_subplot in *. by rewrite Hax. }
  split; [exact Hq |]. split.
  - intros s. unfold window. rewrite filter_In. unfold in_window.
    by rewrite Qle_bool_iff.
  - intros Hbelow. rewrite Hq. unfold window.
    rewrite filter_none; [done |].
    intros s Hin. apply not_true_iff_false. unfold in_window.
    rewrite Qle_bool_iff. specialize (Hbelow s Hin). lra.
Qed.

Lemma get_data_within_last_x_recent_first_witness :
  (-2 <= 0 < 2)%Z /\
  Sorted Qle [(1, 10); (2, 20); (3, 30)].*1 /\
  get_data_within_last_x (add_all fresh_graph 0 [(1, 10); (2, 20); (3, 30)]) 0 2 =
    Ok (Some ([3; 2], [30; 20])).
Proof.
  assert (Hk : (-2 <= 0 < 2)%Z) by lia.
  assert (Hs : Sorted Qle [(1, 10); (2, 20); (3, 30)].*1) by sorted_Q.
  split; [exact Hk |]. split; [exact Hs |].
  exact (proj1 (get_data_within_last_x_recent_first [(1, 10); (2, 20); (3, 30)] 0 2 Hk Hs)).
Defined.

(** C1 as stated fails: two samples appended in time order come back
    newest first, not in append order. *)
Lemma get_data_within_last_x_not_chronological :
  Sorted Qle [(1, 10); (2, 20)].*1 /\
  get_data_within_last_x (add_all fresh_graph 0 [(1, 10); (2, 20)]) 0 0 =
    Ok (Some ([2; 1], [20; 10])) /\
  get_data_within_last_x (add_all fresh_graph 0 [(1, 10); (2, 20)]) 0 0 <>
    Ok (Some ([(1, 10); (2, 20)].*1, [(1, 10); (2, 20)].*2)).
Proof.
  split; [sorted_Q |]. split; [reflexivity |]. vm_compute. discriminate.
Qed.

(** C3, as amended: [add_data_point] has no ordering check and no error
    result.  On a subplot that exists it appends the point at the end of
    both coordinate lists whatever the timestamp, also one below the
    last appended timestamp, and keeps the subplots; on a subplot that
    does not exist it returns the figure unchanged. *)
Theorem add_data_point_always_appends (g : UpdatingGraphFigure) (k : Z) (x y : Q) :
  (forall xs ys,
     index (x_points g) k = Ok xs ->
     index (y_points g) k = Ok ys ->
     index (x_points (add_data_point g k x y)) k = Ok (xs ++ [x]) /\
     index (y_points (add_data_point g k x y)) k = Ok (ys ++ [y]) /\
     axes_list (add_data_point g k x y) = axes_list g) /\
  ((forall xs, index (x_points g) k <> Ok xs) -> add_data_point g k x y = g) /\
  ((forall ys, index (y_points g) k <> Ok ys) -> add_data_point g k x y = g).
Proof.
  split; [intros xs ys; apply add_data_point_at |].
  unfold add_data_point.
  split; intros Hno.
  - destruct (index (x_points g) k) as [xs | |]; [by destruct (Hno xs) | done | done].
  - destruct (index (x_points g) k) as [xs | |]; [| done | done].
    destruct (index (y_points g) k) as [ys | |]; [by destruct (Hno ys) | done | done].
Qed.

Lemma add_data_point_always_appends_witness :
  index (x_points one_sample_graph) 0 = Ok [5] /\
  index (y_points one_sample_graph) 0 = Ok [1] /\
  index (x_points (add_data_point one_sample_graph 0 3 2)) 0 = Ok ([5] ++ [3]) /\
  index (y_points (add_data_point one_sample_graph 0 3 2)) 0 = Ok ([1] ++ [2]) /\
  axes_list (add_data_point one_sample_graph 0 3 2) = axes_list one_sample_graph.
Proof.
  split; [reflexivity |]. split; [reflexivity |].
  exact (proj1 (add_data_point_always_appends one_sample_graph 0 3 2)
           [5] [1] eq_refl eq_refl).
Defined.

(** C3 as stated fails: with last timestamp 5, appending timestamp 3
    is accepted and the buffer grows. *)
Lemma add_data_point_accepts_older_timestamp :
  3 < 5 /\
  index (x_points (add_all fresh_graph 0 [(5, 1)])) 0 = Ok [5] /\
  index (x_points (add_data_point (add_all fresh_graph 0 [(5, 1)]) 0 3 2)) 0 = Ok [5; 3] /\
  index (y_points (add_data_point (add_all fresh_graph 0 [(5, 1)]) 0 3 2)) 0 = Ok [1; 2] /\
  add_data_point (add_all fresh_graph 0 [(5, 1)]) 0 3 2 <> add_all fresh_graph 0 [(5, 1)].
Proof.
  split; [lra |]. repeat split; try reflexivity. vm_compute. discriminate.
Qed.

End BufferClaims.

(** ** The water-height formula *)

Section WaterHeight.

Local Open Scope Q_scope.

Lemma density_gravity_positive : 0 < / (WATER_DENSITY * GRAVITY_FORCE).
Proof. reflexivity. Qed.

(** The divisor is not zero: the division never raises. *)
Lemma div_density_gravity (a : Q) :
  Py.div a (WATER_DENSITY * GRAVITY_FORCE) = Ok (a / (WATER_DENSITY * GRAVITY_FORCE)).
Proof. reflexivity. Qed.

(** With a calibrated baseline the method returns [height_cm]. *)
Lemma calculate_water_height_calibrated (self : Dashboard) (air_pressure pressure : Q) :
  calibrated_air_pressure self = Some air_pressure ->
  calculate_water_height self pressure = Ok (height_cm air_pressure pressure).
Proof.
  intros Hcal. unfold calculate_water_height, height_cm. rewrite Hcal.
  rewrite div_density_gravity. cbn [mbind res_bind Py.bind].
  by destruct (ltb _ 0).
Qed.

Lemma height_cm_nonneg (air_pressure pressure : Q) : 0 <= height_cm air_pressure pressure.
Proof.
  unfold height_cm. cbv zeta.
  set (w := (pressure - air_pressure) * 100 / (WATER_DENSITY * GRAVITY_FORCE)).
  destruct (ltb w 0) eqn:Hneg; [lra |].
  apply ltb_ge in Hneg. lra.
Qed.

Lemma metres_monotone (air_pressure p1 p2 : Q) :
  p1 <= p2 ->
  (p1 - air_pressure) * 100 / (WATER_DENSITY * GRAVITY_FORCE) <=
  (p2 - air_pressure) * 100 / (WATER_DENSITY * GRAVITY_FORCE).
Proof.
  intros Hle. unfold Qdiv.
  apply Qmult_le_compat_r; [lra |].
  apply Qlt_le_weak, density_gravity_positive.
Qed.

Lemma height_cm_monotone (air_pressure p1 p2 : Q) :
  p1 <= p2 -> height_cm air_pressure p1 <= height_cm air_pressure p2.
Proof.
  intros Hle. pose proof (metres_monotone air_pressure p1 p2 Hle) as Hm.
  unfold height_cm. cbv zeta.
  set (w1 := (p1 - air_pressure) * 100 / (WATER_DENSITY * GRAVITY_FORCE)) in *.
  set (w2 := (p2 - air_pressure) * 100 / (WATER_DENSITY * GRAVITY_FORCE)) in *.
  destruct (ltb w1 0) eqn:H1; destruct (ltb w2 0) eqn:H2;
    rewrite ?ltb_lt, ?ltb_ge in *; lra.
Qed.

Lemma height_cm_zero (air_pressure pressure : Q) :
  pressure <= air_pressure -> height_cm air_pressure pressure == 0.
Proof.
  intros Hle.
  pose proof (metres_monotone air_pressure pressure air_pressure Hle) as Hm.
  assert (Hz : (air_pressure - air_pressure) * 100 / (WATER_DENSITY * GRAVITY_FORCE) == 0).
  { unfold Qdiv. ring. }
  unfold height_cm. cbv zeta.
  set (w := (pressure - air_pressure) * 100 / (WATER_DENSITY * GRAVITY_FORCE)) in *.
  set (z := (air_pressure - air_pressure) * 100 / (WATER_DENSITY * GRAVITY_FORCE)) in *.
  destruct (ltb w 0) eqn:Hneg; [reflexivity |].
  apply ltb_ge in Hneg. lra.
Qed.

(** C5: for a fixed calibrated baseline, [calculate_water_height] returns
    a height for every pressure, the height is non-decreasing in the
    pressure, it is never negative, and it is 0 for every pressure that
    is at most the baseline. *)
Theorem calculate_water_height_monotone_clamped (self : Dashboard) (air_pressure : Q) :
  calibrated_air_pressure self = Some air_pressure ->
  (forall p1 p2, p1 <= p2 ->
     exists h1 h2,
       calculate_water_height self p1 = Ok h1 /\
       calculate_water_height self p2 = Ok h2 /\
       h1 <= h2) /\
  (forall p, exists h, calculate_water_height self p = Ok h /\ 0 <= h) /\
  (forall p, p <= air_pressure ->
     exists h, calculate_water_height self p = Ok h /\ h == 0).
Proof.
  intros Hcal. repeat split.
  - intros p1 p2 Hle. exists (height_cm air_pressure p1), (height_cm air_pressure p2).
    rewrite !(calculate_water_height_calibrated _ _ _ Hcal).
    auto using height_cm_monotone.
  - intros p. exists (height_cm air_pressure p).
    rewrite (calculate_water_height_calibrated _ _ _ Hcal).
    auto using height_cm_nonneg.
  - intros p Hle. exists (height_cm air_pressure p).
    rewrite (calculate_water_height_calibrated _ _ _ Hcal).
    auto using height_cm_zero.
Qed.

Lemma calculate_water_height_monotone_clamped_witness :
  calibrated_air_pressure scenario_dashboard = Some 1013.25 /\
  (forall p, p <= 1013.25 ->
     exists h, calculate_water_height scenario_dashboard p = Ok h /\ h == 0).
Proof.
  split; [reflexivity |].
  exact (proj2 (proj2
    (calculate_water_height_monotone_clamped scenario_dashboard 1013.25 eq_refl))).
Defined.

(** C7, as amended: with baseline 1013.25 hPa the method returns 0 for
    the pressure 1013.25 and, for 1023.25, the value of
    10*100/(997*9.81) metres in centimetres, 10.2243..., which is 10.22
    to two decimals (between 10.224 and 10.225); the binary64 evaluation
    of the same expression lies in the same interval. *)
Theorem calculate_water_height_scenario (self : Dashboard) :
  calibrated_air_pressure self = Some 1013.25 ->
  (exists h0, calculate_water_height self 1013.25 = Ok h0 /\ h0 == 0) /\
  (exists h, calculate_water_height self 1023.25 = Ok h /\
     h == 10 * 100 / (997 * 9.81) * 100 /\
     10.224 < h /\ h < 10.225) /\
  PrimFloat.eqb
    (Binary64.calculate_water_height Binary64.scenario_baseline Binary64.scenario_baseline)
    0%float = true /\
  PrimFloat.ltb Binary64.lower_10_224
    (Binary64.calculate_water_height Binary64.scenario_baseline Binary64.scenario_pressure)
    = true /\
  PrimFloat.ltb
    (Binary64.calculate_water_height Binary64.scenario_baseline Binary64.scenario_pressure)
    Binary64.upper_10_225 = true.
Proof.
  intros Hcal. split; [| split; [| repeat split; vm_compute; reflexivity]].
  - exists (height_cm 1013.25 1013.25).
    rewrite (calculate_water_height_calibrated _ _ _ Hcal).
    split; [reflexivity | apply height_cm_zero; lra].
  - exists (height_cm 1013.25 1023.25).
    rewrite (calculate_water_height_calibrated _ _ _ Hcal).
    split; [reflexivity |]. repeat split.
Qed.

Lemma calculate_water_height_scenario_witness :
  calibrated_air_pressure scenario_dashboard = Some 1013.25 /\
  (exists h, calculate_water_height scenario_dashboard 1023.25 = Ok h /\
     h == 10 * 100 / (997 * 9.81) * 100 /\
     10.224 < h /\ h < 10.225).
Proof.
  split; [reflexivity |].
  exact (proj1 (proj2 (calculate_water_height_scenario scenario_dashboard eq_refl))).
Defined.

(** C7 as stated fails: the height returned for 1023.25 is not 10.23 to
    the two decimals the claim gives; it is below 10.225. *)
Lemma calculate_water_height_scenario_not_10_23 :
  calculate_water_height scenario_dashboard 1023.25 = Ok (height_cm 1013.25 1023.25) /\
  ~ (10.225 <= height_cm 1013.25 1023.25 /\ height_cm 1013.25 1023.25 < 10.235) /\
  PrimFloat.ltb
    (Binary64.calculate_water_height Binary64.scenario_baseline Binary64.scenario_pressure)
    Binary64.upper_10_225 = true.
Proof.
  split; [reflexivity |]. split; [| vm_compute; reflexivity].
  intros [Hlow _]. revert Hlow. vm_compute. intros H. by apply H.
Qed.

(** ** The statistic colour *)

(** The colour function always returns one of its colours. *)
Lemma get_number_color_returns (number max : Q) :
  exists c, get_number_color number max = Ok c /\ In c number_colors.
Proof.
  unfold get_number_color, Py.div, eqb.
  destruct (Qeq_bool max 0); [exists "#E4FDE1"%string; cbn; auto |].
  cbn [mbind res_bind Py.bind].
  destruct (ltb 1 (number / max));
    [| destruct (ltb 0.75 (number / max));
       [| destruct (ltb 0.5 (number / max))]];
    eexists; (split; [reflexivity | cbn; auto 6]).
Qed.

(** C9: [get_number_color] returns one of its five colours for every
    number and every threshold and never raises; a threshold equal to 0
    gives the default colour without the ratio being computed, and for
    any other threshold the division returns. *)
Theorem get_number_color_total (number max : Q) :
  (exists c, get_number_color number max = Ok c /\ In c number_colors) /\
  (max == 0 -> get_number_color number max = Ok "#E4FDE1"%string) /\
  (~ max == 0 -> Py.div number max = Ok (number / max)).
Proof.
  split; [apply get_number_color_returns |].
  unfold get_number_color, Py.div, eqb.
  destruct (Qeq_bool max 0) eqn:Hz.
  - split; [done |]. intros Hne. by apply Qeq_bool_eq in Hz.
  - split; [| done]. intros Heq. apply Qeq_bool_neq in Hz. by destruct Hz.
Qed.

Lemma get_number_color_total_witness :
  0 == 0 /\ get_number_color 3 0 = Ok "#E4FDE1"%string.
Proof.
  split; [reflexivity |].
  exact (proj1 (proj2 (get_number_color_total 3 0)) (Qeq_refl 0)).
Defined.

End WaterHeight.

(** ** Reasoning about methods *)

Section Methods.

Context {X : Type} (f : Dashboard -> X).

Lemma preserves_ret {A : Type} (a : A) : preserves f (mret a).
Proof. by intros d. Qed.

Lemma preserves_self : preserves f self_.
Proof. by intros d. Qed.

Lemma preserves_call {A : Type} (r : res A) : preserves f (call r).
Proof. by intros d. Qed.

Lemma preserves_raise {A : Type} (e : exn) : preserves f (raise (A:=A) e).
Proof. by intros d. Qed.

Lemma preserves_emit (e : event) : preserves f (emit e).
Proof. by intros d. Qed.

Lemma preserves_assign (g : Dashboard -> Dashboard) :
  (forall d, f (g d) = f d) -> preserves f (assign g).
Proof. intros Hg d. apply Hg. Qed.

Lemma preserves_bind {A B : Type} (m : M A) (k : A -> M B) :
  preserves f m -> (forall a, preserves f (k a)) -> preserves f (m ≫= k).
Proof.
  intros Hm Hk d. unfold mbind, M_bind. specialize (Hm d).
  destruct (m d) as [[[a | e |] d'] ev]; cbn in *; try done.
  specialize (Hk a d'). destruct (k a d') as [[r d''] ev']. cbn in *. congruence.
Qed.

Lemma preserves_try_except {A : Type} (body handler : M A) (e : exn) :
  preserves f body -> preserves f handler -> preserves f (try_except body e handler).
Proof.
  intros Hb Hh d. unfold try_except. specialize (Hb d).
  destruct (body d) as [[[a | e' |] d'] ev]; cbn in *; try done.
  destruct (exn_eqb e e'); [| done].
  specialize (Hh d'). destruct (handler d') as [[r d''] ev']. cbn in *. congruence.
Qed.

End Methods.

(** One step of a [preserves] proof: follow the structure of the body. *)
Ltac preserves_step :=
  match goal with
  | |- preserves _ (mbind _ _) => apply preserves_bind; [| intros]
  | |- preserves _ (mret _) => apply preserves_ret
  | |- preserves _ self_ => apply preserves_self
  | |- preserves _ (assign _) => apply preserves_assign; intros; reflexivity
  | |- preserves _ (on_graph _) => apply preserves_assign; intros; reflexivity
  | |- preserves _ (call _) => apply preserves_call
  | |- preserves _ (raise _) => apply preserves_raise
  | |- preserves _ (emit _) => apply preserves_emit
  | |- preserves _ (try_except _ _ _) => apply preserves_try_except
  | |- preserves _ (unpack ?v) => destruct v; cbn [unpack]
  | |- preserves _ (match ?x with _ => _ end) => destruct x
  end.

Ltac preserves_auto := repeat preserves_step.

Create HintDb frames.

Section MethodFrames.

Variable float_ : text -> res Q.

(** Every method but [new_pressure_data] and [reset_alarm] leaves the
    latch and its snapshot alone. *)
Lemma change_alarm_status_alarm_fields (s : string) :
  preserves alarm_fields (change_alarm_status s).
Proof. unfold change_alarm_status. preserves_auto. Qed.

Lemma set_ylim_alarm_fields (k : Z) (lo hi : Q) : preserves alarm_fields (set_ylim k lo hi).
Proof. unfold set_ylim. preserves_auto. Qed.

Lemma update_statistics_alarm_fields (t : Q) : preserves alarm_fields (update_statistics t).
Proof.
  unfold update_statistics.
  preserves_auto; auto using set_ylim_alarm_fields.
Qed.

Lemma window_activate_alarm_alarm_fields (dt : string) :
  preserves alarm_fields (window_activate_alarm dt).
Proof.
  unfold window_activate_alarm, alarm_pop_up.
  preserves_auto; auto using change_alarm_status_alarm_fields.
Qed.

Lemma mainloop_alarm_check_alarm_fields (dt : string) :
  preserves alarm_fields (mainloop_alarm_check dt).
Proof.
  unfold mainloop_alarm_check.
  preserves_auto; auto using window_activate_alarm_alarm_fields.
Qed.

Lemma mainloop_iteration_alarm_fields (c t : Q) (dt : string) :
  preserves alarm_fields (mainloop_iteration c t dt).
Proof.
  unfold mainloop_iteration.
  preserves_auto;
    auto using update_statistics_alarm_fields, mainloop_alarm_check_alarm_fields.
Qed.

Lemma calibrate_air_pressure_alarm_fields (t l : Q) :
  preserves alarm_fields (calibrate_air_pressure t l).
Proof. unfold calibrate_air_pressure. preserves_auto. Qed.

Lemma calibrate_swh_alarm_fields (t l : Q) :
  preserves alarm_fields (calibrate_swh t l).
Proof. unfold calibrate_swh. preserves_auto. Qed.

Lemma set_alarm_threshold_alarm_fields :
  preserves alarm_fields (set_alarm_threshold float_).
Proof.
  unfold set_alarm_threshold.
  preserves_auto; auto using change_alarm_status_alarm_fields.
Qed.

Lemma data_period_change_alarm_fields (period : Z) :
  preserves alarm_fields (data_period_change period).
Proof. unfold data_period_change. preserves_auto. Qed.

End MethodFrames.

#[export] Hint Resolve change_alarm_status_alarm_fields set_ylim_alarm_fields
  update_statistics_alarm_fields window_activate_alarm_alarm_fields
  mainloop_alarm_check_alarm_fields mainloop_iteration_alarm_fields
  calibrate_air_pressure_alarm_fields calibrate_swh_alarm_fields
  set_alarm_threshold_alarm_fields data_period_change_alarm_fields : frames.

(** ** The alarm latch *)

Section Latch.

Local Open Scope Q_scope.

(** One reading on a calibrated dashboard with a threshold: it fires
    exactly when it breaches and the latch is open. *)
Lemma new_pressure_data_step (t p : Q) (d : Dashboard) (a s th : Q) :
  calibrated_air_pressure d = Some a ->
  standing_water_level d = Some s ->
  alarm_threshold d = Some th ->
  let fires := breaches a s th (t, p) && negb (alarm_sent d) in
  exists d',
    new_pressure_data t p d = (Ok tt, d', if fires then [SendAlarmThread] else []) /\
    calibration_fields d' = calibration_fields d /\
    alarm_cooldown d' = alarm_cooldown d /\
    alarm_fields d' =
      if fires then (true, Some p, Some (height_cm a p - s)) else alarm_fields d.
Proof.
  intros Hcal Hst Hth fires. unfold new_pressure_data. run_method.
  rewrite Hcal. cbn.
  erewrite calculate_water_height_calibrated by (cbn; exact Hcal). cbn.
  rewrite Hst, Hth. cbn.
  unfold fires, breaches, calibration_fields, alarm_fields. cbn [snd].
  destruct (ltb th (height_cm a p - s)); cbn.
  - destruct (alarm_sent d) eqn:Hsent; cbn;
      eexists; (split; [reflexivity |]); cbn; rewrite ?Hcal, ?Hst, ?Hth, ?Hsent; done.
  - eexists; (split; [reflexivity |]); cbn; rewrite ?Hcal, ?Hst, ?Hth; done.
Qed.

(** A sequence of readings: at most one alarm thread, started by the
    first breaching reading when the latch is open. *)
Lemma feed_latch (rs : list (Q * Q)) :
  forall (d : Dashboard) (a s th : Q),
    calibrated_air_pressure d = Some a ->
    standing_water_level d = Some s ->
    alarm_threshold d = Some th ->
    exists d' ev,
      feed rs d = (Ok tt, d', ev) /\
      calibration_fields d' = calibration_fields d /\
      alarm_cooldown d' = alarm_cooldown d /\
      (alarm_sent d = true -> ev = [] /\ alarm_fields d' = alarm_fields d) /\
      (alarm_sent d = false ->
         ev = (if existsb (breaches a s th) rs then [SendAlarmThread] else []) /\
         alarm_fields d' =
           match List.find (breaches a s th) rs with
           | Some r => (true, Some r.2, Some (height_cm a r.2 - s))
           | None => alarm_fields d
           end).
Proof.
  induction rs as [| [t p] rs IH]; intros d a s th Hcal Hst Hth.
  - exists d, []. cbn. repeat split; done.
  - destruct (new_pressure_data_step t p d a s th Hcal Hst Hth)
      as (d1 & Hrun & Hcalib & Hcool & Halarm).
    assert (Hcalib' := Hcalib). unfold calibration_fields in Hcalib'.
    rewrite Hcal, Hst, Hth in Hcalib'. injection Hcalib' as Hcal1 Hst1 Hsp1 Hth1.
    destruct (IH d1 a s th Hcal1 Hst1 Hth1) as (d2 & ev & Hfeed & Hcalib2 & Hcool2 & Hon & Hoff).
    cbn [feed fst snd]. unfold mbind, M_bind. rewrite Hrun, Hfeed.
    eexists _, _. split; [reflexivity |].
    split; [congruence |]. split; [congruence |].
    cbn [existsb List.find].
    destruct (alarm_sent d) eqn:Hsent.
    + rewrite andb_false_r in Halarm. split; [| done]. intros _.
      rewrite andb_false_r. cbn.
      destruct Hon as [-> ->]; [rewrite <- Hsent; unfold alarm_fields in Halarm; congruence |].
      split; [done | congruence].
    + rewrite andb_true_r in Halarm. split; [done |]. intros _.
      rewrite andb_true_r.
      destruct (breaches a s th (t, p)) eqn:Hb; cbn [orb].
      * destruct Hon as [-> ->]; [unfold alarm_fields in Halarm; congruence |].
        cbn. split; [done | congruence].
      * destruct Hoff as [-> ->]; [unfold alarm_fields in Halarm; congruence |].
        cbn. split; [done |].
        destruct (List.find (breaches a s th) rs); [done | congruence].
Qed.

(** [reset_alarm] opens the latch, clears the snapshot and keeps the
    calibration. *)
Lemma reset_alarm_run (d : Dashboard) :
  exists d',
    reset_alarm d = (Ok tt, d', []) /\
    alarm_fields d' = (false, None, None) /\
    alarm_cooldown d' = false /\
    calibration_fields d' = calibration_fields d /\
    point_fields d' = point_fields d /\
    alarm_status_label d' = "Alarm: Ready"%string.
Proof. eexists. split; [reflexivity |]. done. Qed.

(** The main loop surfaces a latched alarm once: the first test after
    the latch opens the pop-up with the snapshot and sets the cooldown. *)
Lemma mainloop_alarm_check_fires (dt : string) (d : Dashboard) (p w : Q) :
  alarm_sent d = true ->
  alarm_cooldown d = false ->
  pressure_on_alarm_activate d = Some p ->
  wave_height_on_alarm_activate d = Some w ->
  exists d',
    mainloop_alarm_check dt d = (Ok tt, d', [AlarmPopUp dt p w]) /\
    alarm_cooldown d' = true /\
    alarm_fields d' = alarm_fields d /\
    calibration_fields d' = calibration_fields d /\
    alarm_status_label d' = "Alarm: ACTIVATED"%string.
Proof.
  intros Hsent Hcool Hp Hw.
  unfold mainloop_alarm_check, window_activate_alarm. run_method.
  rewrite Hsent, Hcool. cbn. rewrite Hp, Hw. cbn.
  eexists. split; [reflexivity |]. done.
Qed.

(** Without a latched alarm, or after it was surfaced, the test does
    nothing. *)
Lemma mainloop_alarm_check_idle (dt : string) (d : Dashboard) :
  alarm_sent d = false \/ alarm_cooldown d = true ->
  mainloop_alarm_check dt d = (Ok tt, d, []).
Proof.
  intros Hidle. unfold mainloop_alarm_check. run_method.
  destruct Hidle as [-> | ->]; [by destruct (alarm_cooldown d) | done].
Qed.

Lemma existsb_find {A : Type} (f : A -> bool) (l : list A) :
  existsb f l = match List.find f l with Some _ => true | None => false end.
Proof.
  induction l as [| x l IH]; [done |]. cbn. by destruct (f x).
Qed.

(** After a sequence of readings fed with the latch open, the main loop
    surfaces the alarm once if a reading breached, and never otherwise. *)
Lemma alarm_surfaced_once (dt : string) (d0 d1 : Dashboard) (a s : Q)
    (found : option (Q * Q)) :
  alarm_sent d0 = false ->
  alarm_cooldown d1 = false ->
  alarm_fields d1 =
    match found with
    | Some r => (true, Some r.2, Some (height_cm a r.2 - s))
    | None => alarm_fields d0
    end ->
  exists d1',
    mainloop_alarm_check dt d1 =
      (Ok tt, d1',
       match found with
       | Some r => [AlarmPopUp dt r.2 (height_cm a r.2 - s)]
       | None => []
       end) /\
    mainloop_alarm_check dt d1' = (Ok tt, d1', []) /\
    alarm_fields d1' = alarm_fields d1 /\
    calibration_fields d1' = calibration_fields d1.
Proof.
  intros Hsent Hcool Halarm. destruct found as [r |].
  - unfold alarm_fields in Halarm. injection Halarm as Hs1 Hp1 Hw1.
    destruct (mainloop_alarm_check_fires dt d1 _ _ Hs1 Hcool Hp1 Hw1)
      as (d1' & Hrun & Hcd & Hal & Hcf & _).
    exists d1'. repeat split; try done.
    apply mainloop_alarm_check_idle. by right.
  - exists d1. unfold alarm_fields in Halarm. rewrite Hsent in Halarm.
    injection Halarm as Hs1 _ _.
    rewrite !mainloop_alarm_check_idle by (by left). done.
Qed.

(** C2: the alarm is a one-shot latch.  From the ready state, a
    sequence of readings starts exactly one alarm thread if one of them
    breaches and none otherwise, and latches with the snapshot of the
    first breaching reading; the main loop then opens exactly one pop-up;
    further readings while latched start nothing; [reset_alarm] clears
    latch and snapshot and gives the ready state back, from which a
    sequence of readings again starts exactly one alarm thread, and the
    main loop opens exactly one pop-up, if one of them breaches. *)
Theorem alarm_one_shot_latch (d : Dashboard) (a s th : Q)
    (before more after : list (Q * Q)) (dt : string) :
  alarm_ready d a s th ->
  exists d1 d1' d1'' d2 d3 d3' ev,
    feed before d =
      (Ok tt, d1, if existsb (breaches a s th) before then [SendAlarmThread] else []) /\
    alarm_sent d1 = existsb (breaches a s th) before /\
    (forall r, List.find (breaches a s th) before = Some r ->
       pressure_on_alarm_activate d1 = Some r.2 /\
       wave_height_on_alarm_activate d1 = Some (height_cm a r.2 - s)) /\
    mainloop_alarm_check dt d1 =
      (Ok tt, d1',
       match List.find (breaches a s th) before with
       | Some r => [AlarmPopUp dt r.2 (height_cm a r.2 - s)]
       | None => []
       end) /\
    mainloop_alarm_check dt d1' = (Ok tt, d1', []) /\
    feed more d1' = (Ok tt, d1'', ev) /\
    (existsb (breaches a s th) before = true ->
       ev = [] /\ alarm_fields d1'' = alarm_fields d1) /\
    reset_alarm d1'' = (Ok tt, d2, []) /\
    alarm_ready d2 a s th /\
    pressure_on_alarm_activate d2 = None /\
    wave_height_on_alarm_activate d2 = None /\
    feed after d2 =
      (Ok tt, d3, if existsb (breaches a s th) after then [SendAlarmThread] else []) /\
    alarm_sent d3 = existsb (breaches a s th) after /\
    mainloop_alarm_check dt d3 =
      (Ok tt, d3',
       match List.find (breaches a s th) after with
       | Some r => [AlarmPopUp dt r.2 (height_cm a r.2 - s)]
       | None => []
       end) /\
    mainloop_alarm_check dt d3' = (Ok tt, d3', []).
Proof.
  intros (Hcal & Hst & Hth & Hsent & Hcool).
  (* readings before the reset *)
  destruct (feed_latch before d a s th Hcal Hst Hth)
    as (d1 & ev1 & Hfeed1 & Hcalib1 & Hcool1 & _ & Hoff1).
  destruct (Hoff1 Hsent) as [-> Halarm1]. clear Hoff1.
  assert (Hc1 := Hcalib1). unfold calibration_fields in Hc1.
  rewrite Hcal, Hst, Hth in Hc1. injection Hc1 as Hcal1 Hst1 _ Hth1.
  (* the main loop *)
  destruct (alarm_surfaced_once dt d d1 a s _ Hsent (eq_trans Hcool1 Hcool) Halarm1)
    as (d1' & Hchk1 & Hchk2 & Hal1' & Hcf1').
  assert (Hc1' := Hcf1'). unfold calibration_fields in Hc1'.
  rewrite Hcal1, Hst1, Hth1 in Hc1'. injection Hc1' as Hcal1' Hst1' _ Hth1'.
  (* more readings *)
  destruct (feed_latch more d1' a s th Hcal1' Hst1' Hth1')
    as (d1'' & ev & Hfeed2 & Hcalib2 & _ & Hon2 & _).
  assert (Hc2 := Hcalib2). unfold calibration_fields in Hc2.
  rewrite Hcal1', Hst1', Hth1' in Hc2. injection Hc2 as Hcal2 Hst2 _ Hth2.
  (* the reset *)
  destruct (reset_alarm_run d1'') as (d2 & Hreset & Hal2 & Hcool2 & Hcalib3 & _ & _).
  assert (Hc3 := Hcalib3). unfold calibration_fields in Hc3.
  rewrite Hcal2, Hst2, Hth2 in Hc3. injection Hc3 as Hcal3 Hst3 _ Hth3.
  assert (Hal2' := Hal2). unfold alarm_fields in Hal2'. injection Hal2' as Hsent2 Hp2 Hw2.
  (* readings after the reset, and the main loop again *)
  destruct (feed_latch after d2 a s th Hcal3 Hst3 Hth3)
    as (d3 & ev3 & Hfeed3 & _ & Hcool3 & _ & Hoff3).
  destruct (Hoff3 Hsent2) as [-> Halarm3]. clear Hoff3.
  destruct (alarm_surfaced_once dt d2 d3 a s _ Hsent2 (eq_trans Hcool3 Hcool2) Halarm3)
    as (d3' & Hchk3 & Hchk4 & _ & _).
  exists d1, d1', d1'', d2, d3, d3', ev.
  rewrite !existsb_find in *.
  split; [exact Hfeed1 |]. split.
  { unfold alarm_fields in Halarm1.
    destruct (List.find (breaches a s th) before); injection Halarm1; congruence. }
  split.
  { intros r Hr. rewrite Hr in Halarm1. unfold alarm_fields in Halarm1.
    by injection Halarm1. }
  split; [exact Hchk1 |]. split; [exact Hchk2 |]. split; [exact Hfeed2 |]. split.
  { intros Hlatched.
    assert (Hs1' : alarm_sent d1' = true).
    { unfold alarm_fields in Hal1', Halarm1.
      destruct (List.find (breaches a s th) before); [| discriminate Hlatched].
      injection Halarm1 as Hs _ _. injection Hal1' as Hs' _ _. congruence. }
    destruct (Hon2 Hs1') as [-> Hsame]. split; [done | congruence]. }
  split; [exact Hreset |]. split; [done |].
  split; [done |]. split; [done |].
  split; [done |]. split; [| done].
  unfold alarm_fields in Halarm3.
  destruct (List.find (breaches a s th) after); injection Halarm3; congruence.
Qed.

Lemma alarm_one_shot_latch_witness :
  alarm_ready armed_dashboard 1013.25 5 20 /\
  exists d1 w,
    feed [(1, 1013.25); (2, 1038.679482); (3, 1040)] armed_dashboard =
      (Ok tt, d1, [SendAlarmThread]) /\
    alarm_sent d1 = true /\
    pressure_on_alarm_activate d1 = Some 1038.679482 /\
    wave_height_on_alarm_activate d1 = Some w /\ w == 21.
Proof.
  assert (Hready : alarm_ready armed_dashboard 1013.25 5 20) by (by repeat split).
  split; [exact Hready |].
  destruct (alarm_one_shot_latch armed_dashboard 1013.25 5 20
              [(1, 1013.25); (2, 1038.679482); (3, 1040)] [] [] "" Hready)
    as (d1 & _ & _ & _ & _ & _ & _ & Hfeed & Hsent & Hsnap & _).
  destruct (Hsnap (2, 1038.679482) eq_refl) as [Hp Hw].
  exists d1, (height_cm 1013.25 1038.679482 - 5).
  split; [exact Hfeed |]. split; [exact Hsent |]. split; [exact Hp |].
  split; [exact Hw | reflexivity].
Defined.

End Latch.

(** ** The latch invariant *)

Section LatchInvariant.

Local Open Scope Q_scope.

Variable float_ : text -> res Q.

(** A reading either leaves latch and snapshot as they are, or sets the
    latch together with both readings of the snapshot. *)
Lemma new_pressure_data_alarm_fields (t p : Q) (d : Dashboard) :
  alarm_fields (new_pressure_data t p d).1.2 = alarm_fields d \/
  exists w, alarm_fields (new_pressure_data t p d).1.2 = (true, Some p, Some w).
Proof.
  unfold new_pressure_data. run_method.
  destruct (calibrated_air_pressure d) as [a |] eqn:Hcal; cbn; [| by left].
  erewrite calculate_water_height_calibrated by (cbn; exact Hcal). cbn.
  destruct (standing_water_level d) as [s |]; cbn; [| by left].
  destruct (alarm_threshold d) as [th |]; cbn; [| by left].
  destruct (ltb th (height_cm a p - s) && Bool.eqb (alarm_sent d) false); cbn;
    [right; by eexists | by left].
Qed.

(** Every call keeps the invariant, whatever its outcome. *)
Lemma perform_latch_has_snapshot (a : action) (d : Dashboard) :
  latch_has_snapshot d -> latch_has_snapshot (perform float_ a d).1.2.
Proof.
  intros Hinv.
  assert (Hframe : forall m : M unit,
            preserves alarm_fields m -> latch_has_snapshot (m d).1.2).
  { intros m Hm. specialize (Hm d). unfold alarm_fields, latch_has_snapshot in *.
    injection Hm as -> -> ->. exact Hinv. }
  destruct a as [t p | | t l | t l | entry | period | c t dt]; cbn [perform].
  - destruct (new_pressure_data_alarm_fields t p d) as [Hsame | [w Hset]].
    + unfold alarm_fields, latch_has_snapshot in *. injection Hsame as -> -> ->. exact Hinv.
    + unfold alarm_fields, latch_has_snapshot in *. injection Hset as -> -> ->. eauto.
  - destruct (reset_alarm_run d) as (d' & -> & Hal & _).
    unfold alarm_fields, latch_has_snapshot in *. cbn. injection Hal as -> _ _. done.
  - apply Hframe; auto with frames.
  - apply Hframe; auto with frames.
  - apply Hframe. apply preserves_bind; [preserves_auto | intros; auto with frames].
  - apply Hframe; auto with frames.
  - apply Hframe; auto with frames.
Qed.

Lemma run_latch_has_snapshot (acts : list action) :
  forall d, latch_has_snapshot d -> latch_has_snapshot (run float_ acts d).1.
Proof.
  induction acts as [| a acts IH]; intros d Hinv; [done |].
  cbn [run].
  pose proof (perform_latch_has_snapshot a d Hinv) as Hstep.
  destruct (perform float_ a d) as [[r d'] ev]. cbn in Hstep.
  specialize (IH d' Hstep). destruct (run float_ acts d') as [d'' ev']. exact IH.
Qed.

End LatchInvariant.

(** ** Calibration without data *)

Section Calibration.

Local Open Scope Q_scope.

(** The query on any subplot that exists, sorted or not. *)
Lemma get_data_within_last_x_take_recent (g : UpdatingGraphFigure) (k : Z) (m : Q)
    (xs ys : list Q) :
  is_Some (get_subplot g k) ->
  index (x_points g) k = Ok xs ->
  index (y_points g) k = Ok ys ->
  get_data_within_last_x g k m = Ok (Some (take_recent m (reverse xs) (reverse ys))).
Proof.
  intros [a Ha] Hx Hy. unfold get_data_within_last_x.
  rewrite Ha, Hx, Hy. cbn [bind].
  change 1%Z with (Z.of_nat 0 + 1)%Z.
  rewrite within_loop_take_recent by lia.
  rewrite !drop_0. by destruct (take_recent m (reverse xs) (reverse ys)).
Qed.

(** An empty air-pressure window: the loop collects nothing. *)
Lemma calibrate_loop_empty (d : Dashboard) (now l : Q) (fuel : nat) :
  air_window_empty d now l ->
  calibrate_loop (S fuel) (graph d) now l 1 [] = Ok [].
Proof.
  unfold air_window_empty. cbn [calibrate_loop].
  change (- (1))%Z with (-1)%Z.
  destruct (get_data_point (graph d) 0 (-1)) as [[t |] [p |]]; try done.
  intros Hold.
  assert (Hno : Qle_bool (now - t) l = false).
  { apply not_true_iff_false. rewrite Qle_bool_iff. lra. }
  by rewrite Hno.
Qed.

Lemma calibrate_air_pressure_empty (d : Dashboard) (now l : Q) :
  air_window_empty d now l ->
  calibrate_air_pressure now l d =
  (Ok tt, assign_status_var (Lit "Could not calibrate air pressure, lack of data") d, []).
Proof.
  intros Hempty. unfold calibrate_air_pressure. unfold_method.
  by rewrite (calibrate_loop_empty d now l _ Hempty).
Qed.

Lemma calibrate_swh_empty (d : Dashboard) (now l : Q) (w0 : list Q * list Q) (xs1 : list Q) :
  get_data_within_last_x (graph d) 0 (now - l) = Ok (Some w0) ->
  get_data_within_last_x (graph d) 1 (now - l) = Ok (Some (xs1, [])) ->
  calibrate_swh now l d =
  (Ok tt,
   assign_status_var (Lit "Could not calibrate standing water height, lack of data") d, []).
Proof.
  intros H0 H1. unfold calibrate_swh. run_method.
  rewrite H0. cbn. destruct w0 as [xs0 ys0]. cbn. by rewrite H1.
Qed.

(** When only the pressure window is empty, the first assignment of the
    [try] has been made before the division by zero is caught. *)
Lemma calibrate_swh_pressure_window_empty (d : Dashboard) (now l : Q)
    (xs0 xs1 : list Q) (y : Q) (ys1 : list Q) :
  get_data_within_last_x (graph d) 0 (now - l) = Ok (Some (xs0, [])) ->
  get_data_within_last_x (graph d) 1 (now - l) = Ok (Some (xs1, y :: ys1)) ->
  exists level,
    Py.div (Py.sum (y :: ys1)) (Py.len (y :: ys1)) = Ok level /\
    calibrate_swh now l d =
    (Ok tt,
     assign_status_var (Lit "Could not calibrate standing water height, lack of data")
       (assign_standing_water_level (Some level) d), []).
Proof.
  intros H0 H1. unfold calibrate_swh. run_method.
  rewrite H0. cbn. rewrite H1. cbn.
  assert (Hlen : Py.eqb (Py.len (y :: ys1)) 0 = false).
  { unfold Py.eqb, Py.len. apply not_true_iff_false. rewrite Qeq_bool_iff.
    unfold Qeq. cbn. lia. }
  unfold try_except, Py.div. rewrite Hlen. cbn.
  eexists. split; reflexivity.
Qed.

End Calibration.

(** ** The figure of a running dashboard *)

Section Figure.

Local Open Scope Q_scope.

Variable float_ : text -> res Q.

Lemma change_alarm_status_figure (s : string) :
  preserves figure_fields (change_alarm_status s).
Proof. unfold change_alarm_status. preserves_auto. Qed.

Lemma set_ylim_figure (k : Z) (lo hi : Q) : preserves figure_fields (set_ylim k lo hi).
Proof.
  intros d. unfold set_ylim, set_item. run_method.
  destruct (index (axes_list (graph d)) k) as [a | |]; cbn; try done.
  destruct (position (length (axes_list (graph d))) k) as [j |]; cbn; try done.
  unfold figure_fields, point_fields. cbn. by rewrite length_insert.
Qed.

Lemma update_statistics_figure (t : Q) : preserves figure_fields (update_statistics t).
Proof. unfold update_statistics. preserves_auto; auto using set_ylim_figure. Qed.

Lemma window_activate_alarm_figure (dt : string) :
  preserves figure_fields (window_activate_alarm dt).
Proof.
  unfold window_activate_alarm, alarm_pop_up.
  preserves_auto; auto using change_alarm_status_figure.
Qed.

Lemma mainloop_alarm_check_figure (dt : string) :
  preserves figure_fields (mainloop_alarm_check dt).
Proof.
  unfold mainloop_alarm_check. preserves_auto; auto using window_activate_alarm_figure.
Qed.

Lemma mainloop_iteration_figure (c t : Q) (dt : string) :
  preserves figure_fields (mainloop_iteration c t dt).
Proof.
  unfold mainloop_iteration.
  preserves_auto; auto using update_statistics_figure, mainloop_alarm_check_figure.
  apply preserves_assign. intros d.
  unfold figure_fields, point_fields, update_subplots. cbn -[map]. by rewrite length_map.
Qed.

Lemma calibrate_swh_figure (t l : Q) : preserves figure_fields (calibrate_swh t l).
Proof. unfold calibrate_swh. preserves_auto. Qed.

Lemma set_alarm_threshold_figure : preserves figure_fields (set_alarm_threshold float_).
Proof.
  unfold set_alarm_threshold. preserves_auto; auto using change_alarm_status_figure.
Qed.

Lemma data_period_change_figure (period : Z) :
  preserves figure_fields (data_period_change period).
Proof. unfold data_period_change. preserves_auto. Qed.

Lemma reset_alarm_figure : preserves figure_fields reset_alarm.
Proof. unfold reset_alarm. preserves_auto; auto using change_alarm_status_figure. Qed.

Lemma calibrate_air_pressure_points (t l : Q) :
  preserves point_fields (calibrate_air_pressure t l).
Proof. unfold calibrate_air_pressure. preserves_auto. Qed.

(** A calibration keeps the baseline or sets it; it never removes it. *)
Lemma calibrate_air_pressure_baseline (t l : Q) (d : Dashboard) :
  baseline_kept (calibrated_air_pressure d)
    (calibrated_air_pressure (calibrate_air_pressure t l d).1.2).
Proof.
  unfold baseline_kept, calibrate_air_pressure, try_except, Py.div. unfold_method.
  destruct (calibrate_loop _ _ _ _ _ _) as [pts | |]; cbn;
    [| destruct (calibrated_air_pressure d); eauto ..].
  destruct (Py.eqb (Py.len pts) 0); cbn;
    [destruct (calibrated_air_pressure d); eauto | eauto].
Qed.

(** The invariant only depends on the coordinate lists, the number of
    subplots and the presence of a baseline. *)
Lemma coherent_frame (d d' : Dashboard) :
  point_fields d' = point_fields d ->
  baseline_kept (calibrated_air_pressure d) (calibrated_air_pressure d') ->
  coherent d -> coherent d'.
Proof.
  unfold point_fields, coherent. intros [= Hx Hy Hax] Hbase.
  intros (xs0 & ys0 & xs1 & ys1 & Hxs & Hys & Hn & Hl0 & Hl1 & Hsuf & Hnone).
  exists xs0, ys0, xs1, ys1. rewrite Hx, Hy, Hax.
  repeat split; try done.
  intros Hnone'. destruct Hbase as [Hb | [v Hv]]; [auto | congruence].
Qed.

Lemma new_pressure_data_coherent (t p : Q) (d : Dashboard) :
  coherent d -> coherent (new_pressure_data t p d).1.2.
Proof.
  intros (xs0 & ys0 & xs1 & ys1 & Hxs & Hys & Hn & Hl0 & Hl1 & Hsuf & Hnone).
  unfold new_pressure_data. unfold_method. cbn -[add_data_point].
  assert (Hadd0 : add_data_point (graph d) 0 t p =
            set_y_points (set_x_points (graph d) [xs0 ++ [t]; xs1]) [ys0 ++ [p]; ys1]).
  { unfold add_data_point. by rewrite Hxs, Hys. }
  rewrite Hadd0.
  destruct (calibrated_air_pressure d) as [a |] eqn:Hcal; cbn.
  - erewrite calculate_water_height_calibrated by (cbn; exact Hcal). cbn.
    match goal with
    | |- context [assign_graph (add_data_point ?g 1 t ?h) ?d0] =>
        set (d2 := assign_graph (add_data_point g 1 t h) d0)
    end.
    assert (Hshape : coherent d2).
    { exists (xs0 ++ [t]), (ys0 ++ [p]), (xs1 ++ [t]), (ys1 ++ [height_cm a p]).
      unfold add_data_point. cbn. rewrite !length_app, Hl0, Hl1.
      repeat split; try done.
      - by apply suffix_app.
      - by rewrite Hcal. }
    clearbody d2.
    destruct (standing_water_level d) as [s |]; cbn; [| exact Hshape].
    destruct (alarm_threshold d) as [th |]; cbn; [| exact Hshape].
    destruct (ltb th (height_cm a p - s) && Bool.eqb (alarm_sent d) false); cbn;
      [| exact Hshape].
    revert Hshape. apply coherent_frame; [done |].
    unfold baseline_kept. cbn. destruct (calibrated_air_pressure d2); eauto.
  - exists (xs0 ++ [t]), (ys0 ++ [p]), xs1, ys1.
    cbn. rewrite !length_app, Hl0. repeat split; try done; [| auto].
    rewrite (Hnone eq_refl). apply suffix_nil.
Qed.

Lemma preserved_coherent (m : M unit) (d : Dashboard) :
  preserves figure_fields m -> coherent d -> coherent (m d).1.2.
Proof.
  intros Hm. specialize (Hm d). unfold figure_fields in Hm.
  pose proof (f_equal fst Hm) as Hpoints. pose proof (f_equal snd Hm) as Hbase.
  cbn [fst snd] in Hpoints, Hbase. apply coherent_frame; [done |].
  unfold baseline_kept. rewrite Hbase. destruct (calibrated_air_pressure d); eauto.
Qed.

Lemma perform_coherent (a : action) (d : Dashboard) :
  coherent d -> coherent (perform float_ a d).1.2.
Proof.
  destruct a as [t p | | t l | t l | entry | period | c t dt]; cbn [perform].
  - apply new_pressure_data_coherent.
  - apply preserved_coherent, reset_alarm_figure.
  - apply coherent_frame;
      [apply calibrate_air_pressure_points | apply calibrate_air_pressure_baseline].
  - apply preserved_coherent, calibrate_swh_figure.
  - apply preserved_coherent.
    apply preserves_bind; [preserves_auto | intros; apply set_alarm_threshold_figure].
  - apply preserved_coherent, data_period_change_figure.
  - apply preserved_coherent, mainloop_iteration_figure.
Qed.

Lemma run_coherent (acts : list action) :
  forall d, coherent d -> coherent (run float_ acts d).1.
Proof.
  induction acts as [| a acts IH]; intros d Hinv; [done |].
  cbn [run].
  pose proof (perform_coherent a d Hinv) as Hstep.
  destruct (perform float_ a d) as [[r d'] ev]. cbn in Hstep.
  specialize (IH d' Hstep). destruct (run float_ acts d') as [d'' ev']. exact IH.
Qed.

Lemma initial_dashboard_coherent : coherent initial_dashboard.
Proof.
  exists [], [], [], []. repeat split; try done.
Qed.

(** Scanning a suffix of the times: when the scan of the longer list
    collects nothing, so does the scan of the suffix. *)
Lemma take_recent_suffix (m : Q) (xs0 ys0 xs1 ys1 : list Q) :
  xs1 `suffix_of` xs0 ->
  length xs0 = length ys0 ->
  (take_recent m (reverse xs0) (reverse ys0)).2 = [] ->
  (take_recent m (reverse xs1) (reverse ys1)).2 = [].
Proof.
  intros [pre ->] Hlen. rewrite reverse_app.
  destruct (reverse xs1) as [| x r1] eqn:Hr1; [done |].
  assert (Hys0 : exists y r0, reverse ys0 = y :: r0).
  { destruct (reverse ys0) as [| y r0] eqn:Hr0; [| by eauto].
    apply (f_equal length) in Hr0, Hr1.
    rewrite length_reverse in Hr0, Hr1. rewrite length_app in Hlen. cbn in *. lia. }
  destruct Hys0 as (y & r0 & ->). cbn.
  destruct (ltb x m).
  - intros _. by destruct (reverse ys1).
  - by destruct (take_recent m (r1 ++ reverse pre) r0).
Qed.

(** On a running dashboard both windows exist, and the water-height
    window is empty whenever the pressure window is. *)
Lemma coherent_windows (d : Dashboard) (m : Q) :
  coherent d ->
  exists w0 w1,
    get_data_within_last_x (graph d) 0 m = Ok (Some w0) /\
    get_data_within_last_x (graph d) 1 m = Ok (Some w1) /\
    (w0.2 = [] -> w1.2 = []).
Proof.
  intros (xs0 & ys0 & xs1 & ys1 & Hxs & Hys & Hn & Hl0 & Hl1 & Hsuf & _).
  assert (Hsub : is_Some (get_subplot (graph d) 0) /\ is_Some (get_subplot (graph d) 1)).
  { unfold get_subplot. destruct (axes_list (graph d)) as [| a0 [| a1 [| a2 l]]];
      try discriminate Hn. cbn. eauto. }
  destruct Hsub as [Hs0 Hs1].
  exists (take_recent m (reverse xs0) (reverse ys0)),
         (take_recent m (reverse xs1) (reverse ys1)).
  split; [| split].
  - apply get_data_within_last_x_take_recent; [done | by rewrite Hxs | by rewrite Hys].
  - apply get_data_within_last_x_take_recent; [done | by rewrite Hxs | by rewrite Hys].
  - by apply take_recent_suffix.
Qed.

End Figure.

(** Every state a running dashboard reaches is coherent. *)
Lemma running_dashboard_coherent (float_ : text -> res Q) (acts : list action) :
  coherent (run float_ acts initial_dashboard).1.
Proof. apply run_coherent, initial_dashboard_coherent. Qed.

(** ** Methods that return *)

Section Returns.

Lemma returns_ret {A : Type} (a : A) (Q : A -> Dashboard -> list event -> Prop)
    (d : Dashboard) :
  Q a d [] -> returns (mret a) Q d.
Proof. done. Qed.

Lemma returns_self (Q : Dashboard -> Dashboard -> list event -> Prop) (d : Dashboard) :
  Q d d [] -> returns self_ Q d.
Proof. done. Qed.

Lemma returns_assign (f : Dashboard -> Dashboard)
    (Q : unit -> Dashboard -> list event -> Prop) (d : Dashboard) :
  Q tt (f d) [] -> returns (assign f) Q d.
Proof. done. Qed.

Lemma returns_call {A : Type} (r : res A) (a : A)
    (Q : A -> Dashboard -> list event -> Prop) (d : Dashboard) :
  r = Ok a -> Q a d [] -> returns (call r) Q d.
Proof. by intros ->. Qed.

Lemma returns_bind {A B : Type} (m : M A) (k : A -> M B)
    (Q : B -> Dashboard -> list event -> Prop) (d : Dashboard) :
  returns m (fun a d' ev => returns (k a) (fun b d'' ev' => Q b d'' (ev ++ ev')) d') d ->
  returns (m ≫= k) Q d.
Proof.
  unfold returns, mbind, M_bind.
  destruct (m d) as [[[a | e |] d'] ev]; try done.
  by destruct (k a d') as [[[b | e |] d''] ev'].
Qed.

Lemma returns_mono {A : Type} (m : M A) (Q Q' : A -> Dashboard -> list event -> Prop)
    (d : Dashboard) :
  returns m Q d -> (forall a d' ev, Q a d' ev -> Q' a d' ev) -> returns m Q' d.
Proof.
  unfold returns. destruct (m d) as [[[a | e |] d'] ev]; try done. auto.
Qed.

Lemma returns_elim {A : Type} (m : M A) (Q : A -> Dashboard -> list event -> Prop)
    (d : Dashboard) :
  returns m Q d -> exists a d' ev, m d = (Ok a, d', ev) /\ Q a d' ev.
Proof.
  unfold returns. destruct (m d) as [[[a | e |] d'] ev]; try done. eauto.
Qed.

(** A subscript that is in range for a list is in range for every list
    of the same length. *)
Lemma index_same_length {A B : Type} (l : list A) (l' : list B) (k : Z) (a : A) :
  index l k = Ok a -> length l' = length l -> exists b, index l' k = Ok b.
Proof.
  intros (j & Hpos & Hj)%index_Ok_position Hlen.
  apply lookup_lt_Some in Hj. rewrite <- Hlen in Hj.
  destruct (lookup_lt_is_Some_2 l' j Hj) as [b Hb].
  exists b. apply index_Ok_position. exists j. by rewrite Hlen.
Qed.

(** [set_ylim] on a subplot that exists returns, and only replaces the
    list of axes by one of the same length. *)
Lemma returns_set_ylim (k : Z) (lo hi : Q) (a : Axes)
    (Q : unit -> Dashboard -> list event -> Prop) (d : Dashboard) :
  index (axes_list (graph d)) k = Ok a ->
  (forall axes, length axes = length (axes_list (graph d)) ->
     Q tt (assign_graph (set_axes_list (graph d) axes) d) []) ->
  returns (set_ylim k lo hi) Q d.
Proof.
  intros Hk HQ. unfold returns, set_ylim, set_item. run_method. rewrite Hk. cbn.
  apply index_Ok_position in Hk as (j & -> & _). cbn.
  apply HQ. apply length_insert.
Qed.

End Returns.

(** ** The wave-height statistics *)

Section StatisticsClaim.

Local Open Scope Q_scope.

(** [max] returns an item of the list that no item exceeds. *)
Lemma max_from_spec (l : list Q) :
  forall cur,
    cur <= Py.max_from cur l /\
    (forall y, In y l -> y <= Py.max_from cur l) /\
    In (Py.max_from cur l) (cur :: l).
Proof.
  unfold Py.max_from.
  induction l as [| x l IH]; intros cur; cbn [fold_left].
  - repeat split; [lra | done | by left].
  - destruct (IH (if ltb cur x then x else cur)) as (Hcur & Hall & Hin).
    destruct (ltb cur x) eqn:Hlt; rewrite ?ltb_lt, ?ltb_ge in Hlt.
    + repeat split.
      * lra.
      * intros y [<- | Hy]; [done | by apply Hall].
      * right. exact Hin.
    + repeat split.
      * done.
      * intros y [<- | Hy]; [lra | by apply Hall].
      * destruct Hin as [Heq | Hin]; [by left | right; by right].
Qed.

Lemma clamp0_nonneg (v : Q) : 0 <= clamp0 v.
Proof.
  unfold clamp0. destruct (ltb v 0) eqn:Hv; [lra |]. by apply ltb_ge in Hv.
Qed.

Lemma clamp0_positive (v : Q) : 0 < v -> clamp0 v = v.
Proof.
  intros Hv. unfold clamp0.
  destruct (ltb v 0) eqn:Hlt; [| done]. apply ltb_lt in Hlt. lra.
Qed.

Lemma clamp0_otherwise (v : Q) : ~ 0 < v -> clamp0 v == 0.
Proof.
  intros Hv. unfold clamp0.
  destruct (ltb v 0) eqn:Hlt; [reflexivity |]. apply ltb_ge in Hlt. lra.
Qed.

(** A query that returns a window was made on a subplot that exists. *)
Lemma get_data_within_last_x_subplot (g : UpdatingGraphFigure) (k : Z) (m : Q)
    (w : list Q * list Q) :
  get_data_within_last_x g k m = Ok (Some w) -> exists a, index (axes_list g) k = Ok a.
Proof.
  unfold get_data_within_last_x, get_subplot.
  destruct (index (axes_list g) k) as [a | |]; [eauto | done | done].
Qed.

Lemma update_statistics_returns (d : Dashboard) (now standing : Q)
    (pxs pys wxs : list Q) (w0 : Q) (wys : list Q) :
  get_data_within_last_x (graph d) 0 (now - inject_Z (data_period_var d)) =
    Ok (Some (pxs, pys)) ->
  get_data_within_last_x (graph d) 1 (now - inject_Z (data_period_var d)) =
    Ok (Some (wxs, w0 :: wys)) ->
  standing_water_level d = Some standing ->
  returns (update_statistics now)
    (fun _ d' ev =>
       ev = [] /\
       var (max_wave_height_stat (statistics d')) =
         Format "{:.2f}" (clamp0 (Py.max_from w0 wys - standing)) /\
       var (current_wave_height_stat (statistics d')) =
         Format "{:.2f}" (clamp0 (w0 - standing))) d.
Proof.
  intros H0 H1 Hst.
  destruct (get_data_within_last_x_subplot _ _ _ _ H0) as [a0 Hax0].
  destruct (get_data_within_last_x_subplot _ _ _ _ H1) as [a1 Hax1].
  unfold update_statistics.
  apply returns_bind, returns_self. cbv beta.
  apply returns_bind. eapply returns_call; [exact H0 |].
  apply returns_bind. cbn [unpack]. apply returns_ret. cbv beta iota.
  apply returns_bind. eapply returns_call; [exact H1 |].
  apply returns_bind. cbn [unpack]. apply returns_ret. cbv beta iota.
  (* the pressure statistics: the limits of subplot 0 may change *)
  apply returns_bind.
  apply (returns_mono _ (fun _ d1 ev =>
           ev = [] /\
           standing_water_level d1 = Some standing /\
           alarm_threshold d1 = alarm_threshold d /\
           length (axes_list (graph d1)) = length (axes_list (graph d)))).
  { destruct pys as [| p0 pys].
    - by apply returns_ret.
    - apply returns_bind. eapply returns_call; [reflexivity |].
      apply returns_bind. eapply returns_call; [reflexivity |].
      apply returns_bind. eapply returns_set_ylim; [exact Hax0 |].
      intros axes Hlen. by apply returns_ret. }
  intros max_pressure d1 ev (-> & Hst1 & Hth1 & Hlen1). cbv beta.
  apply returns_bind, returns_self. cbv beta.
  apply returns_bind, returns_assign.
  (* the water-height statistics *)
  apply returns_bind.
  apply returns_bind. eapply returns_call; [reflexivity |].
  apply returns_bind. eapply returns_call; [reflexivity |].
  rewrite Hst1.
  destruct (index_same_length _ (axes_list (graph d1)) _ _ Hax1 Hlen1) as [a1' Hax1'].
  destruct (alarm_threshold d1) as [threshold |].
  - destruct (get_number_color_returns
                (if ltb (Py.max_from w0 wys - standing) 0 then 0
                 else Py.max_from w0 wys - standing) threshold) as (c1 & Hc1 & _).
    destruct (get_number_color_returns
                (if ltb (w0 - standing) 0 then 0 else w0 - standing) threshold)
      as (c2 & Hc2 & _).
    apply returns_bind.
    apply returns_bind. eapply returns_call; [exact Hc1 |].
    apply returns_bind. eapply returns_call; [exact Hc2 |].
    apply returns_ret. cbv beta iota.
    apply returns_bind. eapply returns_set_ylim; [exact Hax1' |].
    intros axes Hlen. apply returns_ret. cbv beta iota.
    apply returns_bind, returns_self. by apply returns_assign.
  - apply returns_bind. apply returns_ret. cbv beta iota.
    apply returns_bind. eapply returns_set_ylim; [exact Hax1' |].
    intros axes Hlen. apply returns_ret. cbv beta iota.
    apply returns_bind, returns_self. by apply returns_assign.
Qed.

(** C10: for a non-empty water-height window and a calibrated standing
    water level, [update_statistics] returns and shows as peak wave
    height the maximum of the window minus the standing level, and as
    current wave height the first item of the window minus the standing
    level, each replaced by 0 when negative: each shown value is the
    difference when that is positive and 0 otherwise, never negative. *)
Theorem update_statistics_wave_heights_clamped (d : Dashboard) (now standing : Q)
    (pxs pys wxs : list Q) (w0 : Q) (wys : list Q) :
  get_data_within_last_x (graph d) 0 (now - inject_Z (data_period_var d)) =
    Ok (Some (pxs, pys)) ->
  get_data_within_last_x (graph d) 1 (now - inject_Z (data_period_var d)) =
    Ok (Some (wxs, w0 :: wys)) ->
  standing_water_level d = Some standing ->
  exists d' peak,
    update_statistics now d = (Ok tt, d', []) /\
    Py.max (w0 :: wys) = Ok peak /\
    In peak (w0 :: wys) /\
    (forall y, In y (w0 :: wys) -> y <= peak) /\
    var (max_wave_height_stat (statistics d')) =
      Format "{:.2f}" (clamp0 (peak - standing)) /\
    var (current_wave_height_stat (statistics d')) =
      Format "{:.2f}" (clamp0 (w0 - standing)) /\
    (forall v, 0 <= clamp0 v /\ (0 < v -> clamp0 v = v) /\ (~ 0 < v -> clamp0 v == 0)).
Proof.
  intros H0 H1 Hst.
  destruct (returns_elim _ _ _ (update_statistics_returns d now standing _ _ _ _ _ H0 H1 Hst))
    as ([] & d' & ev & Hrun & -> & Hmax & Hcur).
  destruct (max_from_spec wys w0) as (Hfirst & Hall & Hin).
  exists d', (Py.max_from w0 wys).
  split; [exact Hrun |]. split; [reflexivity |]. split; [exact Hin |].
  split; [intros y [<- | Hy]; auto |].
  split; [exact Hmax |]. split; [exact Hcur |].
  intros v. auto using clamp0_nonneg, clamp0_positive, clamp0_otherwise.
Qed.

Lemma update_statistics_wave_heights_clamped_witness :
  standing_water_level calm_session = Some 20 /\
  get_data_within_last_x (graph calm_session) 1 (4 - inject_Z (data_period_var calm_session)) =
    Ok (Some ([3], [height_cm (1000 / 1) 1001])) /\
  exists d',
    update_statistics 4 calm_session = (Ok tt, d', []) /\
    var (max_wave_height_stat (statistics d')) = Format "{:.2f}" 0 /\
    var (current_wave_height_stat (statistics d')) = Format "{:.2f}" 0.
Proof.
  split; [reflexivity |]. split; [reflexivity |].
  destruct (update_statistics_wave_heights_clamped calm_session 4 20
              [3; 1] [1001; 1000] [3] (height_cm (1000 / 1) 1001) []
              eq_refl eq_refl eq_refl)
    as (d' & peak & Hrun & Hpeak & _ & _ & Hmax & Hcur & _).
  injection Hpeak as <-.
  exists d'. split; [exact Hrun |]. split; [exact Hmax | exact Hcur].
Defined.

End StatisticsClaim.

(** ** The threshold entry *)

Section Threshold.

Local Open Scope Q_scope.

Variable float_ : text -> res Q.

(** An entry that reads as a number that is not below 0 is stored. *)
Lemma set_alarm_threshold_accepts (d : Dashboard) (s v : Q) :
  standing_water_level d = Some s ->
  float_ (alarm_threshold_var d) = Ok v ->
  0 <= v ->
  exists d',
    set_alarm_threshold float_ d = (Ok tt, d', []) /\
    alarm_threshold d' = Some v /\
    alarm_threshold_var d' = Format "{:.2f}" v /\
    status_var d' = Format "Alarm threshold set to {:.2f}" v /\
    alarm_status_label d' = "Alarm: Ready"%string.
Proof.
  intros Hst Hparse Hv. unfold set_alarm_threshold, try_except. run_method.
  rewrite Hst, Hparse. cbn.
  assert (Hneg : ltb v 0 = false) by by apply ltb_ge.
  rewrite Hneg. cbn. eexists. split; [reflexivity |]. done.
Qed.

(** Without a standing water level, with an entry that is no number, or
    with a number below 0, the threshold stays and the entry is emptied. *)
Lemma set_alarm_threshold_rejects (d : Dashboard) :
  standing_water_level d = None \/
  float_ (alarm_threshold_var d) = Raise ValueError \/
  (exists v, float_ (alarm_threshold_var d) = Ok v /\ v < 0) ->
  exists d',
    set_alarm_threshold float_ d = (Ok tt, d', []) /\
    alarm_threshold d' = alarm_threshold d /\
    calibration_fields d' = calibration_fields d /\
    alarm_threshold_var d' = Lit "".
Proof.
  intros Hcase. unfold set_alarm_threshold, try_except. run_method.
  destruct (standing_water_level d) as [s |] eqn:Hst; cbn.
  - destruct Hcase as [Hno | [Hraise | (v & Hparse & Hv)]]; [done | |].
    + rewrite Hraise. cbn. eexists. split; [reflexivity |].
      unfold calibration_fields. cbn. by rewrite Hst.
    + rewrite Hparse. cbn.
      assert (Hneg : ltb v 0 = true) by by apply ltb_lt.
      rewrite Hneg. cbn. eexists. split; [reflexivity |].
      unfold calibration_fields. cbn. by rewrite Hst.
  - eexists. split; [reflexivity |]. unfold calibration_fields. cbn. by rewrite Hst.
Qed.

End Threshold.

(** C4 fails on the code at the entry 0: with the standing water level
    calibrated and an entry that reads as 0, [set_alarm_threshold] stores
    the threshold 0 and reports it as set, although its own message asks
    for a threshold greater than 0; the guard only refuses numbers below
    0. *)
Theorem set_alarm_threshold_accepts_zero (float_ : text -> res Q) (d : Dashboard) (s v : Q) :
  standing_water_level d = Some s ->
  float_ (alarm_threshold_var d) = Ok v ->
  (v == 0)%Q ->
  exists d',
    set_alarm_threshold float_ d = (Ok tt, d', []) /\
    alarm_threshold d' = Some v /\
    status_var d' = Format "Alarm threshold set to {:.2f}" v /\
    alarm_status_label d' = "Alarm: Ready"%string.
Proof.
  intros Hst Hparse Hz.
  destruct (set_alarm_threshold_accepts float_ d s v Hst Hparse) as (d' & Hrun & Hth & _ & Hs & Hl).
  { rewrite Hz. apply Qle_refl. }
  exists d'. done.
Qed.

Lemma set_alarm_threshold_accepts_zero_witness :
  standing_water_level armed_dashboard = Some 5%Q /\
  zero_entry (alarm_threshold_var armed_dashboard) = Ok 0%Q /\
  exists d',
    set_alarm_threshold zero_entry armed_dashboard = (Ok tt, d', []) /\
    alarm_threshold d' = Some 0%Q /\
    status_var d' = Format "Alarm threshold set to {:.2f}" 0%Q /\
    alarm_status_label d' = "Alarm: Ready"%string.
Proof.
  split; [reflexivity |]. split; [reflexivity |].
  exact (set_alarm_threshold_accepts_zero zero_entry armed_dashboard 5 0
           eq_refl eq_refl (Qeq_refl 0)).
Defined.

(** * Further properties of the figure *)

Section FigureBuffers.

Local Open Scope Q_scope.

(** An in-range subscript addresses the position [i mod n]. *)
Lemma position_in_range (n : nat) (i : Z) :
  (- Z.of_nat n <= i < Z.of_nat n)%Z ->
  position n i = Some (Z.to_nat (i mod Z.of_nat n)).
Proof.
  intros Hi. unfold position.
  destruct (Z.leb_spec 0 i).
  - destruct (Z.ltb_spec i (Z.of_nat n)); [| lia].
    by rewrite Z.mod_small by lia.
  - destruct (Z.leb_spec (- Z.of_nat n) i); [| lia].
    f_equal. f_equal.
    rewrite <- (Z.mod_add i 1 (Z.of_nat n)) by lia.
    rewrite Z.mod_small by lia. lia.
Qed.

Lemma position_out_of_range (n : nat) (i : Z) :
  ~ (- Z.of_nat n <= i < Z.of_nat n)%Z -> position n i = None.
Proof.
  intros Hi. unfold position.
  destruct (Z.leb_spec 0 i).
  - destruct (Z.ltb_spec i (Z.of_nat n)); [lia | done].
  - destruct (Z.leb_spec (- Z.of_nat n) i); [lia | done].
Qed.

(** [get_data_point] reads a point exactly when the subscript is in
    range for the subplot, with Python's meaning of a negative subscript;
    it never returns one coordinate without the other. *)
Theorem get_data_point_in_range (g : UpdatingGraphFigure) (k i : Z) (xs ys : list Q) :
  index (x_points g) k = Ok xs ->
  index (y_points g) k = Ok ys ->
  length xs = length ys ->
  ((- Z.of_nat (length xs) <= i < Z.of_nat (length xs))%Z ->
   exists x y,
     get_data_point g k i = (Some x, Some y) /\
     xs !! Z.to_nat (i mod Z.of_nat (length xs)) = Some x /\
     ys !! Z.to_nat (i mod Z.of_nat (length xs)) = Some y) /\
  (~ (- Z.of_nat (length xs) <= i < Z.of_nat (length xs))%Z ->
   get_data_point g k i = (None, None)).
Proof.
  intros Hx Hy Hlen. unfold get_data_point. rewrite Hx, Hy. cbn [bind].
  unfold index. rewrite <- Hlen. split; intros Hi.
  - rewrite (position_in_range _ _ Hi).
    assert (Hj : (Z.to_nat (i mod Z.of_nat (length xs)) < length xs)%nat).
    { pose proof (Z.mod_pos_bound i (Z.of_nat (length xs))). lia. }
    destruct (lookup_lt_is_Some_2 xs _ Hj) as [x Hxj].
    assert (Hj' : (Z.to_nat (i mod Z.of_nat (length xs)) < length ys)%nat) by lia.
    destruct (lookup_lt_is_Some_2 ys _ Hj') as [y Hyj].
    rewrite Hxj, Hyj. eauto.
  - by rewrite (position_out_of_range _ _ Hi).
Qed.

Lemma get_data_point_in_range_witness :
  index (x_points one_sample_graph) 0 = Ok [5] /\
  index (y_points one_sample_graph) 0 = Ok [1] /\
  get_data_point one_sample_graph 0 1 = (None, None) /\
  get_data_point one_sample_graph 0 (-2) = (None, None).
Proof.
  destruct (get_data_point_in_range one_sample_graph 0 1 [5] [1] eq_refl eq_refl eq_refl)
    as [_ Hout1].
  destruct (get_data_point_in_range one_sample_graph 0 (-2) [5] [1] eq_refl eq_refl eq_refl)
    as [_ Hout2].
  split; [reflexivity |]. split; [reflexivity |].
  split; [apply Hout1 | apply Hout2]; cbn; lia.
Defined.

(** The point read at subscript -1 is the one appended last. *)
Theorem get_data_point_latest (g : UpdatingGraphFigure) (k : Z) (x y : Q)
    (xs ys : list Q) :
  index (x_points g) k = Ok xs ->
  index (y_points g) k = Ok ys ->
  get_data_point (add_data_point g k x y) k (-1) = (Some x, Some y).
Proof.
  intros Hx Hy.
  destruct (add_data_point_at g k x y xs ys Hx Hy) as (Hx' & Hy' & _).
  unfold get_data_point. rewrite Hx', Hy'. cbn [bind].
  change (-1)%Z with (- (Z.of_nat 0 + 1))%Z.
  by rewrite !index_from_end, !reverse_snoc.
Qed.

Lemma get_data_point_latest_witness :
  index (x_points one_sample_graph) 0 = Ok [5] /\
  index (y_points one_sample_graph) 0 = Ok [1] /\
  get_data_point (add_data_point one_sample_graph 0 3 2) 0 (-1) = (Some 3, Some 2).
Proof.
  split; [reflexivity |]. split; [reflexivity |].
  exact (get_data_point_latest one_sample_graph 0 3 2 [5] [1] eq_refl eq_refl).
Defined.

(** Storing at one position leaves the other subscripts as they were. *)
Lemma index_insert_other {A : Type} (l : list A) (pk : nat) (v : A) (j : Z) :
  position (length l) j <> Some pk ->
  index (<[pk := v]> l) j = index l j.
Proof.
  intros Hne. unfold index. rewrite length_insert.
  destruct (position (length l) j) as [pj |]; [| done].
  rewrite list_lookup_insert_ne; [done | congruence].
Qed.

Lemma add_data_point_other (g : UpdatingGraphFigure) (k j : Z) (x y : Q) :
  length (x_points g) = length (y_points g) ->
  position (length (x_points g)) j <> position (length (x_points g)) k ->
  index (x_points (add_data_point g k x y)) j = index (x_points g) j /\
  index (y_points (add_data_point g k x y)) j = index (y_points g) j /\
  axes_list (add_data_point g k x y) = axes_list g.
Proof.
  intros Hlen Hne. unfold add_data_point, set_item.
  destruct (index (x_points g) k) as [xs | |]; [| done | done].
  destruct (index (y_points g) k) as [ys | |]; [| done | done].
  rewrite <- Hlen.
  destruct (position (length (x_points g)) k) as [pk |] eqn:Hk; [| done].
  cbn. split; [by apply index_insert_other |].
  split; [| done]. apply index_insert_other. by rewrite <- Hlen.
Qed.

(** Appending to one subplot does not show on another: every point and
    every window read from a different subplot is as before. *)
Theorem add_data_point_other_subplot (g : UpdatingGraphFigure) (k j : Z) (x y : Q) :
  length (x_points g) = length (y_points g) ->
  position (length (x_points g)) j <> position (length (x_points g)) k ->
  (forall i, get_data_point (add_data_point g k x y) j i = get_data_point g j i) /\
  (forall m, get_data_within_last_x (add_data_point g k x y) j m =
             get_data_within_last_x g j m) /\
  get_subplot (add_data_point g k x y) j = get_subplot g j.
Proof.
  intros Hlen Hne.
  destruct (add_data_point_other g k j x y Hlen Hne) as (Hx & Hy & Hax).
  unfold get_data_point, get_data_within_last_x, get_subplot.
  by rewrite Hx, Hy, Hax.
Qed.

Lemma add_data_point_other_subplot_witness :
  length (x_points one_sample_graph) = length (y_points one_sample_graph) /\
  position (length (x_points one_sample_graph)) 0 <>
    position (length (x_points one_sample_graph)) 1 /\
  get_data_point (add_data_point one_sample_graph 1 7 9) 0 (-1) = (Some 5, Some 1).
Proof.
  assert (Hne : position (length (x_points one_sample_graph)) 0 <>
                position (length (x_points one_sample_graph)) 1) by discriminate.
  split; [reflexivity |]. split; [exact Hne |].
  rewrite (proj1 (add_data_point_other_subplot one_sample_graph 1 0 7 9 eq_refl Hne)).
  reflexivity.
Defined.

(** The leading run taken from the reversed lists: equally many x and
    y values, a prefix of each reversed list, no x below the cutoff, and
    it stops only where a list ends or the next x is below the cutoff. *)
Lemma take_recent_shape (m : Q) (rxs rys : list Q) :
  exists n : nat,
    (take_recent m rxs rys).1 = take n rxs /\
    (take_recent m rxs rys).2 = take n rys /\
    (n <= length rxs)%nat /\ (n <= length rys)%nat /\
    Forall (fun x => m <= x) (take n rxs) /\
    (forall x, rxs !! n = Some x -> is_Some (rys !! n) -> x < m).
Proof.
  revert rys. induction rxs as [| x rxs IH]; intros rys.
  - exists 0%nat. cbn. repeat split; try done; lia.
  - destruct rys as [| y rys].
    + exists 0%nat. cbn. repeat split; try done; try lia.
      all: intros ? _ [? ?]; done.
    + cbn [take_recent]. destruct (ltb x m) eqn:Hlt.
      * exists 0%nat. cbn. repeat split; try done; try lia.
        all: intros ? [= <-] _; by apply ltb_lt.
      * destruct (IH rys) as (n & H1 & H2 & Hn1 & Hn2 & Hall & Hstop).
        destruct (take_recent m rxs rys) as [a b]. cbn in H1, H2.
        exists (S n). cbn. rewrite H1, H2. repeat split; try done; try lia.
        constructor; [by apply ltb_ge | done].
Qed.

(** A query that returns a window found the subplot and its two
    coordinate lists. *)
Lemma get_data_within_last_x_lists (g : UpdatingGraphFigure) (k : Z) (m : Q)
    (w : list Q * list Q) :
  get_data_within_last_x g k m = Ok (Some w) ->
  is_Some (get_subplot g k) /\
  exists xs ys, index (x_points g) k = Ok xs /\ index (y_points g) k = Ok ys.
Proof.
  intros Hq. unfold get_data_within_last_x in Hq.
  destruct (get_subplot g k); [| done]. split; [done |].
  destruct (index (x_points g) k) as [xs | |]; [| done | done].
  destruct (index (y_points g) k) as [ys | |]; [| done | done]. eauto.
Qed.

(** Whatever the buffer holds, sorted or not, a window consists of the
    most recent points, newest first, down to the first one below the
    cutoff: as many x as y values, none below the cutoff. *)
Theorem get_data_within_last_x_shape (g : UpdatingGraphFigure) (k : Z) (m : Q)
    (wx wy : list Q) :
  get_data_within_last_x g k m = Ok (Some (wx, wy)) ->
  exists xs ys (n : nat),
    index (x_points g) k = Ok xs /\
    index (y_points g) k = Ok ys /\
    wx = take n (reverse xs) /\
    wy = take n (reverse ys) /\
    length wx = length wy /\
    Forall (fun x => m <= x) wx /\
    (forall x, reverse xs !! n = Some x -> is_Some (reverse ys !! n) -> x < m).
Proof.
  intros Hq.
  destruct (get_data_within_last_x_lists _ _ _ _ Hq) as (Hsub & xs & ys & Hx & Hy).
  rewrite (get_data_within_last_x_take_recent g k m xs ys Hsub Hx Hy) in Hq.
  destruct (take_recent_shape m (reverse xs) (reverse ys))
    as (n & H1 & H2 & Hn1 & Hn2 & Hall & Hstop).
  injection Hq as Hq. rewrite Hq in H1, H2. cbn in H1, H2. subst wx wy.
  exists xs, ys, n. repeat split; try done.
  rewrite !length_take. lia.
Qed.

Lemma get_data_within_last_x_shape_witness :
  get_data_within_last_x (add_all fresh_graph 0 [(4, 1); (1, 2); (3, 3)]) 0 2 =
    Ok (Some ([3], [3])) /\
  exists (xs ys : list Q) (n : nat),
    index (x_points (add_all fresh_graph 0 [(4, 1); (1, 2); (3, 3)])) 0 = Ok xs /\
    [3] = take n (reverse xs) /\
    (forall x, reverse xs !! n = Some x -> is_Some (reverse ys !! n) -> x < 2).
Proof.
  split; [reflexivity |].
  destruct (get_data_within_last_x_shape
              (add_all fresh_graph 0 [(4, 1); (1, 2); (3, 3)]) 0 2 [3] [3] eq_refl)
    as (xs & ys & n & Hx & _ & Hwx & _ & _ & _ & Hstop).
  exists xs, ys, n. done.
Defined.

(** [update_subplots] gives every subplot the window
    [x_center - period, x_center + period / 2], which puts the centre two
    thirds of the way from the left to the right limit, and changes
    neither the y limits nor the points. *)
Theorem update_subplots_window (g : UpdatingGraphFigure) (period : Q) :
  Forall (fun a => xlim a = (x_center g - period, x_center g + period / 2))
    (axes_list (update_subplots g period)) /\
  x_center g - (x_center g - period) ==
    (2 # 3) * ((x_center g + period / 2) - (x_center g - period)) /\
  ylim <$> axes_list (update_subplots g period) = ylim <$> axes_list g /\
  x_points (update_subplots g period) = x_points g /\
  y_points (update_subplots g period) = y_points g /\
  x_center (update_subplots g period) = x_center g.
Proof.
  unfold update_subplots. cbn. repeat split.
  - apply Forall_forall. intros a Ha. apply list_elem_of_In, in_map_iff in Ha.
    by destruct Ha as (b & <- & _).
  - field.
  - induction (axes_list g) as [| a l IH]; [done |]. cbn. by rewrite IH.
Qed.

End FigureBuffers.

(** * Further properties of the dashboard *)

Section Display.

Local Open Scope Q_scope.

(** A fifth of an integer rounds to the quotient of the integer plus 2
    by 5: no tie occurs. *)
Lemma py_round_fifth (p : Z) : py_round (inject_Z p / 5) = ((p + 2) / 5)%Z.
Proof.
  unfold py_round.
  change 5 with (inject_Z 5). rewrite <- Zdiv_Qdiv.
  set (q := (p / 5)%Z). set (m := (p mod 5)%Z).
  assert (Hp : p = (5 * q + m)%Z) by (apply Z.div_mod; lia).
  assert (Hm : (0 <= m < 5)%Z) by (apply Z.mod_pos_bound; lia).
  assert (Hr : (inject_Z p / inject_Z 5 - inject_Z q) * 5 == inject_Z m).
  { rewrite Hp, inject_Z_plus, inject_Z_mult. change (inject_Z 5) with 5. field. }
  set (r := inject_Z p / inject_Z 5 - inject_Z q) in *.
  assert (Hcases : m = 0%Z \/ m = 1%Z \/ m = 2%Z \/ m = 3%Z \/ m = 4%Z) by lia.
  clearbody r q m.
  assert (Hq : forall q' k, (0 <= k < 5)%Z -> ((5 * q' + k) / 5)%Z = q').
  { intros q' k Hk. rewrite Z.mul_comm, Z.div_add_l by lia.
    rewrite Z.div_small by lia. lia. }
  assert (Hq1 : forall k, (5 <= k < 10)%Z -> ((5 * q + k) / 5)%Z = (q + 1)%Z).
  { intros k Hk. replace (5 * q + k)%Z with (5 * (q + 1) + (k - 5))%Z by lia.
    apply Hq. lia. }
  rewrite Hp. replace (5 * q + m + 2)%Z with (5 * q + (m + 2))%Z by lia.
  destruct Hcases as [Hm0 | [Hm0 | [Hm0 | [Hm0 | Hm0]]]];
    rewrite Hm0 in *; unfold inject_Z in Hr.
  1-3: assert (Hlt : ltb r (1 # 2) = true) by (apply ltb_lt; lra);
       rewrite Hlt; symmetry; apply Hq; lia.
  all: assert (Hlt : ltb r (1 # 2) = false) by (apply ltb_ge; lra);
       assert (Hgt : ltb (1 # 2) r = true) by (apply ltb_lt; lra);
       rewrite Hlt, Hgt; symmetry; apply Hq1; lia.
Qed.

(** [data_period_change] stores the value of the source expression
    [round(float(int(period) / 5)) * 5]: the multiple of 5 nearest to
    the slider position, at most 2 away from it, a multiple of 5 being
    kept; a position within the slider's range 5..60 stays within it.
    Nothing else of the dashboard changes. *)
Theorem data_period_change_snaps (period : Z) (d : Dashboard) :
  exists d',
    data_period_change period d = (Ok tt, d', []) /\
    d' = assign_data_period_var (snapped_period period) d /\
    (data_period_var d' mod 5 = 0)%Z /\
    (Z.abs (data_period_var d' - period) <= 2)%Z /\
    ((period mod 5 = 0)%Z -> data_period_var d' = period) /\
    ((5 <= period <= 60)%Z -> (5 <= data_period_var d' <= 60)%Z).
Proof.
  unfold snapped_period. rewrite py_round_fifth.
  eexists. split; [reflexivity |]. split; [reflexivity |]. cbn.
  pose proof (Z.div_mod (period + 2) 5 ltac:(lia)) as Hdiv.
  pose proof (Z.mod_pos_bound (period + 2) 5 ltac:(lia)) as Hmod.
  repeat split.
  - apply Z.mod_mul. lia.
  - lia.
  - intros Hp. apply Z.mod_divide in Hp; [| lia]. destruct Hp as [k ->].
    replace (k * 5 + 2)%Z with (2 + k * 5)%Z by lia.
    rewrite Z.div_add by lia. rewrite (Z.div_small 2 5) by lia. lia.
  - lia.
  - lia.
Qed.

(** The bands of a ratio are bands of the number. *)
Lemma ltb_ratio (c number max : Q) :
  0 < max -> ltb c (number / max) = ltb (c * max) number.
Proof.
  intros Hmax.
  assert (Hn : number == number / max * max) by (field; lra).
  destruct (ltb (c * max) number) eqn:Hb.
  - apply ltb_lt in Hb. apply ltb_lt. apply Qlt_shift_div_l; lra.
  - apply ltb_ge in Hb. apply ltb_ge. apply Qle_shift_div_r; lra.
Qed.

(** For a positive threshold the colour depends on where the number
    lies: red exactly above the threshold, orange above three quarters
    of it, yellow above half of it, turquoise otherwise. *)
Theorem get_number_color_bands (number max : Q) :
  0 < max ->
  get_number_color number max =
    Ok (if ltb max number then "#FB363A"
        else if ltb (0.75 * max) number then "#F97E36"
        else if ltb (0.5 * max) number then "#E8E055"
        else "#41D3BD")%string /\
  (get_number_color number max = Ok "#FB363A"%string <-> max < number) /\
  (get_number_color number max = Ok "#41D3BD"%string <-> number <= 0.5 * max).
Proof.
  intros Hmax.
  assert (Hne : eqb max 0 = false).
  { unfold eqb. apply not_true_iff_false. rewrite Qeq_bool_iff. lra. }
  assert (Hcol : get_number_color number max =
    Ok (if ltb max number then "#FB363A"
        else if ltb (0.75 * max) number then "#F97E36"
        else if ltb (0.5 * max) number then "#E8E055"
        else "#41D3BD")%string).
  { unfold get_number_color, Py.div. rewrite Hne. cbn [mbind res_bind Py.bind].
    rewrite !ltb_ratio by done.
    assert (H1 : ltb (1 * max) number = ltb max number).
    { destruct (ltb max number) eqn:Hb; [apply ltb_lt in Hb; apply ltb_lt
                                        | apply ltb_ge in Hb; apply ltb_ge]; lra. }
    rewrite H1.
    by destruct (ltb max number), (ltb (0.75 * max) number), (ltb (0.5 * max) number). }
  split; [exact Hcol |]. rewrite Hcol.
  destruct (ltb max number) eqn:H1; rewrite ?ltb_lt, ?ltb_ge in H1.
  - split; split; try done; intros; lra.
  - destruct (ltb (0.75 * max) number) eqn:H2; rewrite ?ltb_lt, ?ltb_ge in H2.
    + split; split; try done; intros; lra.
    + destruct (ltb (0.5 * max) number) eqn:H3; rewrite ?ltb_lt, ?ltb_ge in H3;
        split; split; try done; intros; lra.
Qed.

Lemma get_number_color_bands_witness :
  0 < 20 /\
  get_number_color 21 20 = Ok "#FB363A"%string /\
  get_number_color 20 20 = Ok "#F97E36"%string /\
  get_number_color 10 20 = Ok "#41D3BD"%string.
Proof.
  assert (Hpos : 0 < 20) by reflexivity.
  split; [exact Hpos |].
  split; [exact (proj1 (get_number_color_bands 21 20 Hpos)) |].
  split; [exact (proj1 (get_number_color_bands 20 20 Hpos)) |].
  exact (proj1 (get_number_color_bands 10 20 Hpos)).
Defined.

End Display.

(** * Properties of whole sessions *)

Section Silence.

Lemma silent_ret {A : Type} (a : A) : silent (mret a).
Proof. by intros d. Qed.

Lemma silent_self : silent self_.
Proof. by intros d. Qed.

Lemma silent_assign (f : Dashboard -> Dashboard) : silent (assign f).
Proof. by intros d. Qed.

Lemma silent_on_graph (f : UpdatingGraphFigure -> UpdatingGraphFigure) :
  silent (on_graph f).
Proof. by intros d. Qed.

Lemma silent_call {A : Type} (r : res A) : silent (call r).
Proof. by intros d. Qed.

Lemma silent_raise {A : Type} (e : exn) : silent (raise (A:=A) e).
Proof. by intros d. Qed.

Lemma silent_bind {A B : Type} (m : M A) (k : A -> M B) :
  silent m -> (forall a, silent (k a)) -> silent (m ≫= k).
Proof.
  intros Hm Hk d. unfold mbind, M_bind. specialize (Hm d).
  destruct (m d) as [[[a | e |] d'] ev]; cbn in *; try done.
  specialize (Hk a d'). destruct (k a d') as [[r d''] ev']. cbn in *. by subst.
Qed.

Lemma silent_try_except {A : Type} (body handler : M A) (e : exn) :
  silent body -> silent handler -> silent (try_except body e handler).
Proof.
  intros Hb Hh d. unfold try_except. specialize (Hb d).
  destruct (body d) as [[[a | e' |] d'] ev]; cbn in *; try done.
  destruct (exn_eqb e e'); [| done].
  specialize (Hh d'). destruct (handler d') as [[r d''] ev']. cbn in *. by subst.
Qed.

Lemma preserves_compose {A X Y : Type} (f : Dashboard -> X) (h : X -> Y) (m : M A) :
  preserves f m -> preserves (fun d => h (f d)) m.
Proof. intros Hm d. by rewrite (Hm d). Qed.

End Silence.

Ltac silent_step :=
  match goal with
  | |- silent (mbind _ _) => apply silent_bind; [| intros]
  | |- silent (mret _) => apply silent_ret
  | |- silent self_ => apply silent_self
  | |- silent (assign _) => apply silent_assign
  | |- silent (on_graph _) => apply silent_on_graph
  | |- silent (call _) => apply silent_call
  | |- silent (raise _) => apply silent_raise
  | |- silent (try_except _ _ _) => apply silent_try_except
  | |- silent (unpack ?v) => destruct v; cbn [unpack]
  | |- silent (match ?x with _ => _ end) => destruct x
  end.

Ltac silent_auto := repeat silent_step.

(** Unfolds the methods down to the monad operations. *)
Ltac unfold_methods :=
  unfold perform, mainloop_iteration, update_statistics, mainloop_alarm_check,
    window_activate_alarm, alarm_pop_up, calibrate_air_pressure, calibrate_swh,
    set_alarm_threshold, data_period_change, reset_alarm, change_alarm_status, set_ylim.

Section Sessions.

Local Open Scope Q_scope.

Variable float_ : text -> res Q.

(** A call is a reading or it is not. *)
Lemma classic_reading (a : action) :
  (exists t p, a = NewPressureData t p) \/ (forall t p, a <> NewPressureData t p).
Proof. destruct a; eauto; right; intros; discriminate. Qed.

(** Only the data thread writes the data attributes. *)
Lemma perform_data_fields (a : action) :
  (forall t p, a <> NewPressureData t p) -> preserves data_fields (perform float_ a).
Proof.
  intros Hno. destruct a as [t p | | t l | t l | entry | period | c t dt];
    [by destruct (Hno t p) | ..]; unfold_methods; preserves_auto.
Qed.

(** Only the data thread writes the coordinate lists. *)
Lemma perform_point_fields (a : action) :
  (forall t p, a <> NewPressureData t p) -> preserves point_fields (perform float_ a).
Proof.
  intros Hno. destruct a as [t p | | t l | t l | entry | period | c t dt]; cbn [perform].
  - by destruct (Hno t p).
  - apply (preserves_compose figure_fields fst), reset_alarm_figure.
  - apply calibrate_air_pressure_points.
  - apply (preserves_compose figure_fields fst), calibrate_swh_figure.
  - apply (preserves_compose figure_fields fst).
    apply preserves_bind; [preserves_auto | intros; apply set_alarm_threshold_figure].
  - apply (preserves_compose figure_fields fst), data_period_change_figure.
  - apply (preserves_compose figure_fields fst), mainloop_iteration_figure.
Qed.

(** A reading always returns.  It is recorded in the data attribute, and
    it either leaves latch and snapshot alone or, with the latch open,
    sets it and starts the one alarm thread. *)
Lemma new_pressure_data_total (t p : Q) (d : Dashboard) :
  exists d' ev,
    new_pressure_data t p d = (Ok tt, d', ev) /\
    (ev = [] /\ alarm_fields d' = alarm_fields d \/
     ev = [SendAlarmThread] /\ alarm_sent d = false /\ alarm_sent d' = true) /\
    alarm_cooldown d' = alarm_cooldown d /\
    calibration_fields d' = calibration_fields d /\
    data_fields d' =
      (((pressure_data d).1 ++ [t], (pressure_data d).2 ++ [p]), water_height_data d) /\
    data_period_var d' = data_period_var d.
Proof.
  unfold new_pressure_data. run_method.
  destruct (calibrated_air_pressure d) as [a |] eqn:Hcal; cbn.
  - erewrite calculate_water_height_calibrated by (cbn; exact Hcal). cbn.
    unfold calibration_fields, data_fields.
    destruct (standing_water_level d) as [s |] eqn:Hst; cbn;
      [| eexists _, _; split; [reflexivity |]; cbn; rewrite ?Hcal, ?Hst; auto 10].
    destruct (alarm_threshold d) as [th |] eqn:Hth; cbn;
      [| eexists _, _; split; [reflexivity |]; cbn; rewrite ?Hcal, ?Hst, ?Hth; auto 10].
    destruct (ltb th (height_cm a p - s)); cbn;
      [| eexists _, _; split; [reflexivity |]; cbn; rewrite ?Hcal, ?Hst, ?Hth; auto 10].
    destruct (alarm_sent d) eqn:Hsent; cbn;
      eexists _, _; (split; [reflexivity |]); cbn; rewrite ?Hcal, ?Hst, ?Hth; auto 10.
  - eexists _, _. split; [reflexivity |]. unfold calibration_fields, data_fields. cbn.
    rewrite Hcal. auto 10.
Qed.

(** What a reading does to the two subplots: the pressure point is
    appended to subplot 0, and with a calibrated baseline the water height
    at the same time to subplot 1. *)
Lemma new_pressure_data_points (t p : Q) (d : Dashboard) (xs ys xs1 ys1 : list Q) :
  x_points (graph d) = [xs; xs1] ->
  y_points (graph d) = [ys; ys1] ->
  exists xs1' ys1',
    x_points (graph (new_pressure_data t p d).1.2) = [xs ++ [t]; xs1'] /\
    y_points (graph (new_pressure_data t p d).1.2) = [ys ++ [p]; ys1'] /\
    axes_list (graph (new_pressure_data t p d).1.2) = axes_list (graph d) /\
    (calibrated_air_pressure d = None /\ xs1' = xs1 /\ ys1' = ys1 \/
     exists a, calibrated_air_pressure d = Some a /\
               xs1' = xs1 ++ [t] /\ ys1' = ys1 ++ [height_cm a p]).
Proof.
  intros Hxs Hys.
  unfold new_pressure_data. unfold_method. cbn -[add_data_point].
  assert (Hadd0 : add_data_point (graph d) 0 t p =
            set_y_points (set_x_points (graph d) [xs ++ [t]; xs1]) [ys ++ [p]; ys1]).
  { unfold add_data_point. by rewrite Hxs, Hys. }
  rewrite Hadd0.
  destruct (calibrated_air_pressure d) as [a |] eqn:Hcal; cbn.
  - erewrite calculate_water_height_calibrated by (cbn; exact Hcal). cbn.
    exists (xs1 ++ [t]), (ys1 ++ [height_cm a p]).
    destruct (standing_water_level d) as [s |]; cbn; [| by eauto 10].
    destruct (alarm_threshold d) as [th |]; cbn; [| by eauto 10].
    destruct (ltb th (height_cm a p - s) && Bool.eqb (alarm_sent d) false); cbn;
      by eauto 10.
  - exists xs1, ys1. by eauto 10.
Qed.

(** The records keep every reading, in order. *)
Lemma run_records (acts : list action) :
  forall (d : Dashboard) (xs ys xs1 ys1 : list Q),
    x_points (graph d) = [xs; xs1] ->
    y_points (graph d) = [ys; ys1] ->
    exists xs1' ys1',
      x_points (graph (run float_ acts d).1) = [xs ++ (readings_of acts).1; xs1'] /\
      y_points (graph (run float_ acts d).1) = [ys ++ (readings_of acts).2; ys1'] /\
      data_fields (run float_ acts d).1 =
        (((pressure_data d).1 ++ (readings_of acts).1,
          (pressure_data d).2 ++ (readings_of acts).2), water_height_data d).
Proof.
  induction acts as [| a acts IH]; intros d xs ys xs1 ys1 Hxs Hys.
  - exists xs1, ys1. cbn. rewrite !app_nil_r. unfold data_fields.
    by destruct (pressure_data d).
  - cbn [run].
    assert (Hstep : exists xs1' ys1' tp,
      x_points (graph (perform float_ a d).1.2) = [xs ++ tp.1; xs1'] /\
      y_points (graph (perform float_ a d).1.2) = [ys ++ tp.2; ys1'] /\
      data_fields (perform float_ a d).1.2 =
        (((pressure_data d).1 ++ tp.1, (pressure_data d).2 ++ tp.2),
         water_height_data d) /\
      readings_of (a :: acts) = (tp.1 ++ (readings_of acts).1, tp.2 ++ (readings_of acts).2)).
    { destruct (classic_reading a) as [(t & p & ->) | Hno].
      - destruct (new_pressure_data_points t p d xs ys xs1 ys1 Hxs Hys)
          as (xs1' & ys1' & Hx' & Hy' & _).
        destruct (new_pressure_data_total t p d) as (d' & ev & Hrun & _ & _ & _ & Hdata & _).
        exists xs1', ys1', ([t], [p]). cbn [perform fst snd].
        rewrite Hx', Hy'. rewrite Hrun. cbn [fst snd]. by rewrite Hdata.
      - pose proof (perform_point_fields a Hno d) as Hpts.
        pose proof (perform_data_fields a Hno d) as Hdat.
        unfold point_fields in Hpts. injection Hpts as Hx' Hy' _.
        exists xs1, ys1, ([], []). rewrite Hx', Hy', Hdat, Hxs, Hys. cbn [fst snd].
        rewrite !app_nil_r. unfold data_fields.
        split; [done |]. split; [done |]. split; [by destruct (pressure_data d) |].
        destruct a as [t p | | | | | |]; [by destruct (Hno t p) | ..];
          cbn; by destruct (readings_of acts). }
    destruct Hstep as (xs1' & ys1' & tp & Hx' & Hy' & Hdata & Hread).
    destruct (perform float_ a d) as [[r d'] ev]. cbn [fst snd] in *.
    destruct (IH d' _ _ _ _ Hx' Hy') as (xs1'' & ys1'' & Hx'' & Hy'' & Hdata'').
    destruct (run float_ acts d') as [d'' ev'] eqn:Hrun. cbn [fst snd] in *.
    exists xs1'', ys1''. rewrite Hx'', Hy'', Hdata'', Hread. cbn [fst snd].
    unfold data_fields in Hdata. injection Hdata as -> ->. cbn [fst snd].
    by rewrite <- !app_assoc.
Qed.

End Sessions.

(** Whatever the buttons and the main loop do in between, every reading
    the data thread delivers is kept, in order and unchanged, both in
    [pressure_data] and on subplot 0 of the figure; [water_height_data]
    is never written. *)
Theorem run_records_readings (float_ : text -> res Q) (acts : list action) :
  pressure_data (run float_ acts initial_dashboard).1 = readings_of acts /\
  index (x_points (graph (run float_ acts initial_dashboard).1)) 0 =
    Ok (readings_of acts).1 /\
  index (y_points (graph (run float_ acts initial_dashboard).1)) 0 =
    Ok (readings_of acts).2 /\
  water_height_data (run float_ acts initial_dashboard).1 = ([], []).
Proof.
  destruct (run_records float_ acts initial_dashboard [] [] [] [] eq_refl eq_refl)
    as (xs1 & ys1 & Hx & Hy & Hdata).
  unfold data_fields in Hdata. cbn in Hdata. injection Hdata as Hp Hw.
  rewrite Hx, Hy, Hp, Hw. cbn. by destruct (readings_of acts).
Qed.

Section AlarmCounts.

Local Open Scope Q_scope.

Variable float_ : text -> res Q.

Lemma update_statistics_silent (t : Q) : silent (update_statistics t).
Proof. unfold update_statistics, set_ylim. silent_auto. Qed.

Lemma update_statistics_flag_fields (t : Q) : preserves flag_fields (update_statistics t).
Proof. unfold update_statistics, set_ylim. preserves_auto. Qed.

(** The calibrations, the threshold entry and the slider start nothing
    and touch neither the latch nor the cooldown. *)
Lemma perform_quiet (a : action) :
  (forall t p, a <> NewPressureData t p) ->
  a <> ResetAlarm ->
  (forall c t dt, a <> MainloopIteration c t dt) ->
  silent (perform float_ a) /\ preserves flag_fields (perform float_ a).
Proof.
  intros Hno Hnr Hnm. destruct a as [t p | | t l | t l | entry | period | c t dt];
    [by destruct (Hno t p) | done | .. | by destruct (Hnm c t dt)];
    (split; unfold_methods; [silent_auto | preserves_auto]).
Qed.

(** One iteration of the main loop starts no alarm thread and keeps the
    latch; it opens at most one pop-up, and only to surface a latched
    alarm for the first time, setting the cooldown. *)
Lemma mainloop_iteration_flags (c t : Q) (dt : string) (d : Dashboard) :
  alarm_sent (mainloop_iteration c t dt d).1.2 = alarm_sent d /\
  alarms_sent (mainloop_iteration c t dt d).2 = 0%nat /\
  ((mainloop_iteration c t dt d).2 = [] /\
   alarm_cooldown (mainloop_iteration c t dt d).1.2 = alarm_cooldown d \/
   alarm_sent d = true /\ alarm_cooldown d = false /\
   alarm_cooldown (mainloop_iteration c t dt d).1.2 = true /\
   (pop_ups (mainloop_iteration c t dt d).2 <= 1)%nat).
Proof.
  unfold mainloop_iteration. unfold_method.
  cbn -[update_statistics mainloop_alarm_check update_subplots set_center].
  match goal with
  | |- context [update_statistics t ?d0] => set (d2 := d0)
  end.
  assert (Hflags : flag_fields d2 = flag_fields d) by reflexivity.
  pose proof (update_statistics_silent t d2) as Hsil.
  pose proof (update_statistics_flag_fields t d2) as Hkeep.
  rewrite Hflags in Hkeep. clearbody d2.
  destruct (update_statistics t d2) as [[[[] | e |] d3] ev3];
    cbn [fst snd] in Hsil, Hkeep; subst ev3;
    unfold flag_fields in Hkeep; injection Hkeep as Hs3 Hc3;
    [| cbn; auto | cbn; auto].
  unfold mainloop_alarm_check, window_activate_alarm, alarm_pop_up. run_method.
  rewrite Hs3, Hc3.
  destruct (alarm_cooldown d) eqn:Hcool; cbn; [auto |].
  destruct (alarm_sent d) eqn:Hsent; cbn; [| auto].
  destruct (pressure_on_alarm_activate d3) as [p |]; cbn;
    [destruct (wave_height_on_alarm_activate d3) as [w |]; cbn |];
    (split; [done |]); (split; [done |]); right; unfold pop_ups; cbn; auto.
Qed.

Lemma quiet_counts (a : action) (d : Dashboard) :
  (alarm_cooldown d = true -> alarm_sent d = true) ->
  silent (perform float_ a) /\ preserves flag_fields (perform float_ a) ->
  let d' := (perform float_ a d).1.2 in
  let ev := (perform float_ a d).2 in
  (alarm_cooldown d' = true -> alarm_sent d' = true) /\
  (alarms_sent ev + (if alarm_sent d' then 0 else 1) <=
   resets [a] + (if alarm_sent d then 0 else 1))%nat /\
  (pop_ups ev + (if alarm_sent d' && negb (alarm_cooldown d') then 1 else 0) <=
   alarms_sent ev + (if alarm_sent d && negb (alarm_cooldown d) then 1 else 0))%nat.
Proof.
  intros Hinv [Hsil Hkeep]. cbn zeta.
  rewrite (Hsil d). specialize (Hkeep d). unfold flag_fields in Hkeep.
  injection Hkeep as Hs Hc. rewrite Hs, Hc. cbn. split; [done |]. lia.
Qed.

(** One call against the two counters: an alarm thread needs an open
    latch, which only a reset reopens; a pop-up needs a latched alarm
    that was not yet surfaced. *)
Lemma perform_counts (a : action) (d : Dashboard) :
  (alarm_cooldown d = true -> alarm_sent d = true) ->
  let d' := (perform float_ a d).1.2 in
  let ev := (perform float_ a d).2 in
  (alarm_cooldown d' = true -> alarm_sent d' = true) /\
  (alarms_sent ev + (if alarm_sent d' then 0 else 1) <=
   resets [a] + (if alarm_sent d then 0 else 1))%nat /\
  (pop_ups ev + (if alarm_sent d' && negb (alarm_cooldown d') then 1 else 0) <=
   alarms_sent ev + (if alarm_sent d && negb (alarm_cooldown d) then 1 else 0))%nat.
Proof.
  intros Hinv d' ev. subst d' ev.
  destruct a as [t p | | t l | t l | entry | period | c t dt].
  - cbn [perform resets].
    destruct (new_pressure_data_total t p d)
      as (d' & ev & -> & [[-> Hal] | (-> & Hs & Hs')] & Hcool & _).
    + cbn [fst snd]. unfold alarm_fields in Hal. injection Hal as -> _ _.
      rewrite Hcool. cbn. split; [done |]. lia.
    + cbn [fst snd]. rewrite Hs', Hcool, Hs.
      destruct (alarm_cooldown d) eqn:Hc; [specialize (Hinv eq_refl); congruence |].
      cbn. split; [done |]. lia.
  - cbn [perform resets].
    destruct (reset_alarm_run d) as (d' & -> & Hal & Hcool & _).
    cbn [fst snd]. unfold alarm_fields in Hal. injection Hal as -> _ _.
    rewrite Hcool. cbn. split; [done |].
    destruct (alarm_sent d), (alarm_cooldown d); cbn; lia.
  - apply quiet_counts; [done | by apply perform_quiet].
  - apply quiet_counts; [done | by apply perform_quiet].
  - apply quiet_counts; [done | by apply perform_quiet].
  - apply quiet_counts; [done | by apply perform_quiet].
  - cbn [perform resets].
    destruct (mainloop_iteration_flags c t dt d) as (Hs & Ha & Hcase).
    rewrite Hs, Ha.
    destruct Hcase as [[-> ->] | (Hsent & Hcool & -> & Hpop)].
    + cbn. split; [done |]. lia.
    + rewrite Hsent, Hcool. cbn. split; [done |]. lia.
Qed.

Lemma alarms_sent_app (ev ev' : list event) :
  alarms_sent (ev ++ ev') = (alarms_sent ev + alarms_sent ev')%nat.
Proof. unfold alarms_sent. by rewrite List.filter_app, length_app. Qed.

Lemma pop_ups_app (ev ev' : list event) :
  pop_ups (ev ++ ev') = (pop_ups ev + pop_ups ev')%nat.
Proof. unfold pop_ups. by rewrite List.filter_app, length_app. Qed.

Lemma run_counts (acts : list action) :
  forall d,
    (alarm_cooldown d = true -> alarm_sent d = true) ->
    let d' := (run float_ acts d).1 in
    let ev := (run float_ acts d).2 in
    (alarm_cooldown d' = true -> alarm_sent d' = true) /\
    (alarms_sent ev + (if alarm_sent d' then 0 else 1) <=
     resets acts + (if alarm_sent d then 0 else 1))%nat /\
    (pop_ups ev + (if alarm_sent d' && negb (alarm_cooldown d') then 1 else 0) <=
     alarms_sent ev + (if alarm_sent d && negb (alarm_cooldown d) then 1 else 0))%nat.
Proof.
  induction acts as [| a acts IH]; intros d Hinv; cbn zeta.
  - cbn. split; [done |]. lia.
  - pose proof (perform_counts a d Hinv) as (Hinv1 & Ha1 & Hp1).
    cbn [run]. destruct (perform float_ a d) as [[r d1] ev1]. cbn [fst snd] in *.
    pose proof (IH d1 Hinv1) as (Hinv2 & Ha2 & Hp2).
    destruct (run float_ acts d1) as [d2 ev2]. cbn [fst snd] in *.
    rewrite alarms_sent_app, pop_ups_app.
    split; [done |].
    assert (Hres : resets (a :: acts) = (resets [a] + resets acts)%nat)
      by (destruct a; reflexivity).
    rewrite Hres. lia.
Qed.

End AlarmCounts.

(** Over any sequence of calls the alarm threads started are at most
    one more than the resets (and at most as many while the latch is
    open), and the pop-ups never outnumber the alarm threads; the
    cooldown flag is only set while the latch is. *)
Theorem run_alarm_counts (float_ : text -> res Q) (acts : list action) :
  let d := (run float_ acts initial_dashboard).1 in
  let ev := (run float_ acts initial_dashboard).2 in
  (alarms_sent ev <= S (resets acts))%nat /\
  (alarm_sent d = false -> alarms_sent ev <= resets acts)%nat /\
  (pop_ups ev <= alarms_sent ev)%nat /\
  (alarm_sent d = true -> alarm_cooldown d = false -> pop_ups ev < alarms_sent ev)%nat /\
  (alarm_cooldown d = true -> alarm_sent d = true).
Proof.
  intros d ev. subst d ev.
  destruct (run_counts float_ acts initial_dashboard) as (Hinv & Ha & Hp); [done |].
  cbn [alarm_sent alarm_cooldown initial_dashboard andb] in Ha, Hp.
  destruct (alarm_sent (run float_ acts initial_dashboard).1),
    (alarm_cooldown (run float_ acts initial_dashboard).1); cbn in *;
    repeat split; intros; try done; lia.
Qed.

(** * Calibration over a window with data *)

Section Means.

Local Open Scope Q_scope.

(** The age test of [calibrate_air_pressure] is the cutoff test of the
    windowed query. *)
Lemma age_test_cutoff (now l t : Q) : Qle_bool (now - t) l = negb (ltb t (now - l)).
Proof.
  unfold ltb. rewrite negb_involutive.
  destruct (Qle_bool (now - l) t) eqn:Hb.
  - apply Qle_bool_iff in Hb. apply Qle_bool_iff. lra.
  - apply not_true_iff_false. apply not_true_iff_false in Hb.
    rewrite Qle_bool_iff in *. lra.
Qed.

(** The loop of [calibrate_air_pressure] collects the y values of the
    same leading run as the windowed query. *)
Lemma calibrate_loop_take_recent (fuel : nat) (g : UpdatingGraphFigure) (now l : Q)
    (xs ys : list Q) :
  index (x_points g) 0 = Ok xs ->
  index (y_points g) 0 = Ok ys ->
  forall (n : nat) (acc : list Q),
    (n <= length xs)%nat -> (length xs < fuel + n)%nat ->
    calibrate_loop fuel g now l (Z.of_nat n + 1) acc =
    Ok (acc ++ (take_recent (now - l) (drop n (reverse xs)) (drop n (reverse ys))).2).
Proof.
  intros Hx Hy.
  induction fuel as [| fuel IH]; intros n acc Hn Hfuel; [lia |].
  cbn [calibrate_loop]. unfold get_data_point. rewrite Hx, Hy. cbn [bind].
  rewrite !index_from_end.
  destruct (reverse xs !! n) as [x |] eqn:Hxn.
  - rewrite (drop_S _ _ _ Hxn).
    destruct (reverse ys !! n) as [y |] eqn:Hyn.
    + rewrite (drop_S _ _ _ Hyn). cbn [take_recent].
      rewrite age_test_cutoff.
      destruct (ltb x (now - l)); cbn [negb]; [cbn; by rewrite app_nil_r |].
      apply lookup_lt_Some in Hxn. rewrite length_reverse in Hxn.
      replace (Z.of_nat n + 1 + 1)%Z with (Z.of_nat (S n) + 1)%Z by lia.
      rewrite IH by lia.
      destruct (take_recent (now - l) (drop (S n) (reverse xs)) (drop (S n) (reverse ys)))
        as [a b].
      cbn. by rewrite <- app_assoc.
    + apply lookup_ge_None in Hyn. rewrite (drop_ge (reverse ys)) by done.
      cbn. by rewrite app_nil_r.
  - apply lookup_ge_None in Hxn. rewrite (drop_ge (reverse xs)) by done.
    cbn. by rewrite app_nil_r.
Qed.

Lemma sum_from_bounds (l : list Q) (lo hi : Q) :
  Forall (fun y => lo <= y <= hi) l ->
  forall acc,
    acc + Py.len l * lo <= fold_left Qplus l acc <= acc + Py.len l * hi.
Proof.
  unfold Py.len.
  induction 1 as [| y l Hy Hall IH]; intros acc.
  - cbn [fold_left length]. change (inject_Z (Z.of_nat 0)) with 0. lra.
  - cbn [fold_left length]. specialize (IH (acc + y)).
    rewrite Nat2Z.inj_succ, <- Z.add_1_r, inject_Z_plus.
    change (inject_Z 1) with 1.
    set (n := inject_Z (Z.of_nat (length l))) in *.
    destruct Hy. nra.
Qed.

(** The mean of a non-empty list exists and lies between any bounds of
    its items. *)
Lemma mean_bounds (l : list Q) (lo hi : Q) :
  l <> [] ->
  Forall (fun y => lo <= y <= hi) l ->
  exists mean,
    Py.div (Py.sum l) (Py.len l) = Ok mean /\
    mean == Py.sum l / Py.len l /\
    lo <= mean <= hi.
Proof.
  intros Hne Hall.
  assert (Hlen : 0 < Py.len l).
  { unfold Py.len. destruct l; [done |]. unfold Qlt. cbn. lia. }
  assert (Hnz : Py.eqb (Py.len l) 0 = false).
  { unfold Py.eqb. apply not_true_iff_false. rewrite Qeq_bool_iff. lra. }
  exists (Py.sum l / Py.len l). unfold Py.div. rewrite Hnz.
  split; [done |]. split; [reflexivity |].
  pose proof (sum_from_bounds l lo hi Hall 0) as Hsum. fold (Py.sum l) in Hsum.
  split.
  - apply Qle_shift_div_l; [done | lra].
  - apply Qle_shift_div_r; [done | lra].
Qed.

(** [calibrate_air_pressure] averages exactly the pressure window that
    [get_data_within_last_x (0, now - length)] returns; when that window
    has data, the baseline becomes its mean, which lies between any
    bounds of the window's pressures, the status reports it, and nothing
    else of the calibration or the alarm changes. *)
Theorem calibrate_air_pressure_mean (d : Dashboard) (now l : Q) (wx wy : list Q) :
  get_data_within_last_x (graph d) 0 (now - l) = Ok (Some (wx, wy)) ->
  wy <> [] ->
  exists mean,
    calibrate_air_pressure now l d =
      (Ok tt,
       assign_status_var (Format "Air pressure calibrated to be {:.2f} hPa" mean)
         (assign_calibrated_air_pressure (Some mean) d), []) /\
    mean == Py.sum wy / Py.len wy /\
    (forall lo hi, Forall (fun y => lo <= y <= hi) wy -> lo <= mean <= hi).
Proof.
  intros Hq Hne.
  destruct (get_data_within_last_x_lists _ _ _ _ Hq) as (Hsub & xs & ys & Hx & Hy).
  rewrite (get_data_within_last_x_take_recent _ _ _ xs ys Hsub Hx Hy) in Hq.
  injection Hq as Hq.
  assert (Hloop : calibrate_loop (S (points_count (graph d) 0)) (graph d) now l 1 [] = Ok wy).
  { unfold points_count. rewrite Hx.
    change 1%Z with (Z.of_nat 0 + 1)%Z.
    rewrite (calibrate_loop_take_recent _ _ _ _ xs ys Hx Hy) by lia.
    rewrite !drop_0, Hq. done. }
  assert (Hex : exists mean, Py.div (Py.sum wy) (Py.len wy) = Ok mean /\
                             mean == Py.sum wy / Py.len wy).
  { assert (Hnz : Py.eqb (Py.len wy) 0 = false).
    { unfold Py.eqb, Py.len. apply not_true_iff_false. rewrite Qeq_bool_iff.
      destruct wy; [done |]. unfold Qeq. cbn. lia. }
    unfold Py.div. rewrite Hnz. eexists. split; reflexivity. }
  destruct Hex as (mean & Hdiv & Hmean).
  exists mean. split; [| split; [exact Hmean |]].
  - unfold calibrate_air_pressure, try_except. unfold_method.
    rewrite Hloop. cbn. rewrite Hdiv. reflexivity.
  - intros lo hi Hall.
    destruct (mean_bounds wy lo hi Hne Hall) as (mean' & Hdiv' & _ & Hb).
    rewrite Hdiv in Hdiv'. by injection Hdiv' as ->.
Qed.

Lemma calibrate_air_pressure_mean_witness :
  get_data_within_last_x (graph two_readings) 0 (3 - 5) =
    Ok (Some ([2; 1], [1002; 1000])) /\
  [1002; 1000] <> [] /\
  exists mean,
    calibrated_air_pressure (calibrate_air_pressure 3 5 two_readings).1.2 = Some mean /\
    mean == 1001.
Proof.
  assert (Hne : [1002; 1000] <> []) by discriminate.
  split; [reflexivity |]. split; [exact Hne |].
  destruct (calibrate_air_pressure_mean two_readings 3 5 [2; 1] [1002; 1000] eq_refl Hne)
    as (mean & Hrun & Hmean & _).
  exists mean. rewrite Hrun. split; [reflexivity |]. rewrite Hmean. reflexivity.
Defined.

Lemma div_nonempty (l : list Q) :
  l <> [] -> Py.div (Py.sum l) (Py.len l) = Ok (Py.sum l / Py.len l).
Proof.
  intros Hne.
  assert (Hnz : Py.eqb (Py.len l) 0 = false).
  { unfold Py.eqb, Py.len. apply not_true_iff_false. rewrite Qeq_bool_iff.
    destruct l; [done |]. unfold Qeq. cbn. lia. }
  unfold Py.div. by rewrite Hnz.
Qed.

(** [calibrate_swh] over two windows with data sets the standing water
    level to the mean water height of its window and the standing-water
    pressure to the mean pressure of its window, each between any bounds
    of the window, reports the level, and changes nothing else. *)
Theorem calibrate_swh_means (d : Dashboard) (now l : Q) (px py wx wy : list Q) :
  get_data_within_last_x (graph d) 0 (now - l) = Ok (Some (px, py)) ->
  get_data_within_last_x (graph d) 1 (now - l) = Ok (Some (wx, wy)) ->
  py <> [] ->
  wy <> [] ->
  exists level pressure,
    calibrate_swh now l d =
      (Ok tt,
       assign_status_var (Format "Standing water height calibrated to be {:.2f} cm" level)
         (assign_standing_water_air_pressure (Some pressure)
            (assign_standing_water_level (Some level) d)), []) /\
    level == Py.sum wy / Py.len wy /\
    pressure == Py.sum py / Py.len py /\
    (forall lo hi, Forall (fun y => lo <= y <= hi) wy -> lo <= level <= hi) /\
    (forall lo hi, Forall (fun y => lo <= y <= hi) py -> lo <= pressure <= hi).
Proof.
  intros H0 H1 Hpy Hwy.
  exists (Py.sum wy / Py.len wy), (Py.sum py / Py.len py).
  split; [| split; [reflexivity | split; [reflexivity | split]]].
  - unfold calibrate_swh, try_except. unfold_method.
    rewrite H0. cbn -[Py.div]. rewrite H1. cbn -[Py.div].
    rewrite (div_nonempty wy Hwy). cbn -[Py.div].
    rewrite (div_nonempty py Hpy). reflexivity.
  - intros lo hi Hall.
    destruct (mean_bounds wy lo hi Hwy Hall) as (m & Hdiv & _ & Hb).
    rewrite (div_nonempty wy Hwy) in Hdiv. by injection Hdiv as <-.
  - intros lo hi Hall.
    destruct (mean_bounds py lo hi Hpy Hall) as (m & Hdiv & _ & Hb).
    rewrite (div_nonempty py Hpy) in Hdiv. by injection Hdiv as <-.
Qed.

Lemma calibrate_swh_means_witness :
  get_data_within_last_x (graph longer_session) 0 (5 - 5) =
    Ok (Some ([4; 3; 1], [1003; 1001; 1000])) /\
  (exists wy, get_data_within_last_x (graph longer_session) 1 (5 - 5) =
                Ok (Some ([4; 3], wy)) /\ wy <> []) /\
  exists level pressure,
    standing_water_level (calibrate_swh 5 5 longer_session).1.2 = Some level /\
    standing_water_air_pressure (calibrate_swh 5 5 longer_session).1.2 = Some pressure /\
    1001 <= pressure <= 1003.
Proof.
  assert (H1 : get_data_within_last_x (graph longer_session) 1 (5 - 5) =
               Ok (Some ([4; 3], [height_cm (1000 / 1) 1003; height_cm (1000 / 1) 1001])))
    by reflexivity.
  assert (Hwy : [height_cm (1000 / 1) 1003; height_cm (1000 / 1) 1001] <> [])
    by discriminate.
  assert (Hpy : [1003; 1001; 1000] <> []) by discriminate.
  split; [reflexivity |]. split; [eexists; split; [exact H1 | exact Hwy] |].
  destruct (calibrate_swh_means longer_session 5 5 _ _ _ _ eq_refl H1 Hpy Hwy)
    as (level & pressure & Hrun & _ & Hp & _ & _).
  exists level, pressure. rewrite Hrun. split; [reflexivity |]. split; [reflexivity |].
  rewrite Hp. split; [by vm_compute | by vm_compute].
Defined.

End Means.

(** * The threshold entry and the latch *)

Section ThresholdWhileLatched.

Local Open Scope Q_scope.

(** While the latch is set no reading starts an alarm thread. *)
Lemma feed_latched (rs : list (Q * Q)) :
  forall d,
    alarm_sent d = true ->
    exists d', feed rs d = (Ok tt, d', []) /\ alarm_fields d' = alarm_fields d.
Proof.
  induction rs as [| [t p] rs IH]; intros d Hsent; [by exists d |].
  destruct (new_pressure_data_total t p d)
    as (d1 & ev & Hrun & [[-> Hal] | (_ & Hopen & _)] & _); [| congruence].
  assert (Hsent1 : alarm_sent d1 = true).
  { unfold alarm_fields in Hal. injection Hal as -> _ _. exact Hsent. }
  destruct (IH d1 Hsent1) as (d2 & Hfeed & Hal2).
  exists d2. cbn [feed fst snd]. unfold mbind, M_bind. rewrite Hrun, Hfeed.
  split; [done | congruence].
Qed.

(** Setting a threshold while the alarm is latched shows the alarm as
    Ready but does not open the latch: the new threshold is stored, and
    whatever readings follow start no alarm thread until [reset_alarm]. *)
Theorem set_alarm_threshold_keeps_latch (float_ : text -> res Q) (d : Dashboard)
    (s v : Q) (rs : list (Q * Q)) :
  alarm_sent d = true ->
  standing_water_level d = Some s ->
  float_ (alarm_threshold_var d) = Ok v ->
  0 <= v ->
  exists d' d'',
    set_alarm_threshold float_ d = (Ok tt, d', []) /\
    alarm_status_label d' = "Alarm: Ready"%string /\
    alarm_threshold d' = Some v /\
    alarm_fields d' = alarm_fields d /\
    feed rs d' = (Ok tt, d'', []) /\
    alarm_sent d'' = true.
Proof.
  intros Hsent Hst Hparse Hv.
  destruct (set_alarm_threshold_accepts float_ d s v Hst Hparse Hv)
    as (d' & Hrun & Hth & _ & _ & Hlabel).
  pose proof (set_alarm_threshold_alarm_fields float_ d) as Hkeep.
  rewrite Hrun in Hkeep. cbn [fst snd] in Hkeep.
  assert (Hsent' : alarm_sent d' = true).
  { unfold alarm_fields in Hkeep. injection Hkeep as -> _ _. exact Hsent. }
  destruct (feed_latched rs d' Hsent') as (d'' & Hfeed & Hal).
  exists d', d''. repeat split; try done.
  unfold alarm_fields in Hal. injection Hal as -> _ _. exact Hsent'.
Qed.

Lemma set_alarm_threshold_keeps_latch_witness :
  alarm_sent latched_dashboard = true /\
  0 <= 30 /\
  exists d' d'',
    set_alarm_threshold (entry_value 30) latched_dashboard = (Ok tt, d', []) /\
    alarm_status_label d' = "Alarm: Ready"%string /\
    feed [(6, 1060); (7, 1070)] d' = (Ok tt, d'', []) /\
    alarm_sent d'' = true.
Proof.
  assert (Hv : 0 <= 30) by discriminate.
  split; [reflexivity |]. split; [exact Hv |].
  destruct (set_alarm_threshold_keeps_latch (entry_value 30) latched_dashboard _ 30
              [(6, 1060); (7, 1070)] eq_refl eq_refl eq_refl Hv)
    as (d' & d'' & Hrun & Hlabel & _ & _ & Hfeed & Hsent).
  by exists d', d''.
Defined.

End ThresholdWhileLatched.

(** * Levels on a running dashboard *)

Section Levels.

Local Open Scope Q_scope.

Variable float_ : text -> res Q.

Lemma level_fields_eq (d d' : Dashboard) :
  level_fields d' = level_fields d ->
  standing_water_level d' = standing_water_level d /\
  alarm_threshold d' = alarm_threshold d.
Proof.
  unfold level_fields. intros Heq.
  split; [exact (f_equal fst Heq) | exact (f_equal snd Heq)].
Qed.

(** Everything but the calibration of the standing water level and the
    threshold entry leaves the two levels alone. *)
Lemma perform_level_fields (a : action) :
  (forall t l, a <> CalibrateSwh t l) ->
  (forall entry, a <> SetAlarmThreshold entry) ->
  preserves level_fields (perform float_ a).
Proof.
  intros Hnc Hns. destruct a as [t p | | t l | t l | entry | period | c t dt];
    [| | | by destruct (Hnc t l) | by destruct (Hns entry) | |].
  - intros d. cbn [perform].
    destruct (new_pressure_data_total t p d) as (d' & ev & -> & _ & _ & Hcal & _).
    unfold calibration_fields in Hcal. injection Hcal as _ Hs _ Ht.
    unfold level_fields. cbn. by rewrite Hs, Ht.
  - unfold_methods. preserves_auto.
  - unfold_methods. preserves_auto.
  - unfold_methods. preserves_auto.
  - unfold_methods. preserves_auto.
Qed.

(** [calibrate_swh] keeps the threshold, and the standing water level
    either stays or becomes the mean of a non-empty water-height window. *)
Lemma calibrate_swh_level (now l : Q) (d : Dashboard) :
  alarm_threshold (calibrate_swh now l d).1.2 = alarm_threshold d /\
  (standing_water_level (calibrate_swh now l d).1.2 = standing_water_level d \/
   exists wx wy,
     get_data_within_last_x (graph d) 1 (now - l) = Ok (Some (wx, wy)) /\
     wy <> [] /\
     standing_water_level (calibrate_swh now l d).1.2 = Some (Py.sum wy / Py.len wy)).
Proof.
  split.
  { assert (Hkeep : preserves alarm_threshold (calibrate_swh now l))
      by (unfold calibrate_swh; preserves_auto).
    apply Hkeep. }
  unfold calibrate_swh, try_except. unfold_method.
  destruct (get_data_within_last_x (graph d) 0 (now - l)) as [[[px py] |] | e |];
    cbn -[get_data_within_last_x Py.div]; try (by left).
  destruct (get_data_within_last_x (graph d) 1 (now - l)) as [[[wx wy] |] | e |];
    cbn -[get_data_within_last_x Py.div]; try (by left).
  destruct wy as [| w wy]; [by left |].
  right. exists wx, (w :: wy). split; [done |]. split; [done |].
  rewrite (div_nonempty (w :: wy)) by done. cbn -[Py.div Py.sum Py.len].
  destruct py as [| p0 py]; [done |].
  rewrite (div_nonempty (p0 :: py)) by done. done.
Qed.

(** [set_alarm_threshold] keeps the standing water level, and the
    threshold either stays or becomes a number that is not negative,
    which needs a standing water level. *)
Lemma set_alarm_threshold_level (d : Dashboard) :
  standing_water_level (set_alarm_threshold float_ d).1.2 = standing_water_level d /\
  (alarm_threshold (set_alarm_threshold float_ d).1.2 = alarm_threshold d \/
   exists v, 0 <= v /\ is_Some (standing_water_level d) /\
             alarm_threshold (set_alarm_threshold float_ d).1.2 = Some v).
Proof.
  split.
  { assert (Hkeep : preserves standing_water_level (set_alarm_threshold float_))
      by (unfold set_alarm_threshold, change_alarm_status; preserves_auto).
    apply Hkeep. }
  unfold set_alarm_threshold, try_except. run_method.
  destruct (standing_water_level d) as [s |]; cbn; [| by left].
  destruct (float_ (alarm_threshold_var d)) as [v | e |]; cbn;
    [| destruct e; cbn; by left | by left].
  destruct (ltb v 0) eqn:Hneg; cbn; [by left |].
  right. exists v. apply ltb_ge in Hneg. eauto.
Qed.

Lemma perform_levels_sound (a : action) (d : Dashboard) :
  coherent d -> levels_sound d -> levels_sound (perform float_ a d).1.2.
Proof.
  intros (xs0 & ys0 & xs1 & ys1 & Hxs & Hys & Hn & _) (Hheights & Hstanding & Hthreshold).
  assert (Hxs1 : index (x_points (graph d)) 1 = Ok xs1) by (by rewrite Hxs).
  assert (Hys1 : index (y_points (graph d)) 1 = Ok ys1) by (by rewrite Hys).
  specialize (Hheights ys1 Hys1).
  destruct (classic_reading a) as [(t & p & ->) | Hno].
  - (* a reading: one more height, never negative *)
    pose proof (perform_level_fields (NewPressureData t p) ltac:(done) ltac:(done) d) as Hlev.
    destruct (level_fields_eq _ _ Hlev) as [Hs Ht].
    destruct (new_pressure_data_points t p d xs0 ys0 xs1 ys1 Hxs Hys)
      as (xs1' & ys1' & _ & Hy' & _ & Hcase).
    split; [| by rewrite Hs, Ht].
    cbn [perform]. intros ys. rewrite Hy'. intros [= <-].
    destruct Hcase as [(_ & _ & ->) | (b & _ & _ & ->)]; [done |].
    apply Forall_app. split; [done |]. constructor; [apply height_cm_nonneg | done].
  - pose proof (perform_point_fields float_ a Hno d) as Hpts.
    unfold point_fields in Hpts. injection Hpts as _ Hy' _.
    split; [intros ys; rewrite Hy', Hys1; by intros [= <-] |].
    destruct a as [t p | | t l | t l | entry | period | c t dt];
      try (match goal with
           | |- context [perform float_ ?a d] =>
               pose proof (perform_level_fields a ltac:(done) ltac:(done) d) as Hlev
           end;
           destruct (level_fields_eq _ _ Hlev) as [Hs Ht];
           by rewrite Hs, Ht).
    + (* the standing water level: a mean of recorded heights *)
      cbn [perform]. destruct (calibrate_swh_level t l d) as [Ht [Hs | Hs]].
      * by rewrite Hs, Ht.
      * destruct Hs as (wx & wy & Hq & Hne & Hs). rewrite Hs, Ht.
        assert (Hsub : is_Some (get_subplot (graph d) 1)).
        { unfold get_subplot. destruct (axes_list (graph d)) as [| a0 [| a1 [| a2 l']]];
            try discriminate Hn. cbn. eauto. }
        rewrite (get_data_within_last_x_take_recent _ _ _ _ _ Hsub Hxs1 Hys1) in Hq.
        destruct (take_recent_shape (t - l) (reverse xs1) (reverse ys1))
          as (n & _ & Hwy & _).
        injection Hq as Hq. rewrite Hq in Hwy. cbn [snd] in Hwy. subst wy.
        split.
        -- intros s [= <-].
           assert (Hnn : Forall (Qle 0) (take n (reverse ys1)))
             by (by apply Forall_take, Forall_reverse).
           assert (Hlen : 0 < Py.len (take n (reverse ys1))).
           { unfold Py.len. destruct (take n (reverse ys1)); [done |].
             unfold Qlt. cbn. lia. }
           assert (Hsum0 : 0 <= Py.sum (take n (reverse ys1))).
           { clear -Hnn. unfold Py.sum.
             assert (Hgen : forall l acc, Forall (Qle 0) l -> 0 <= acc ->
                                          0 <= fold_left Qplus l acc).
             { induction l as [| y l IH]; intros acc Hl Hacc; [done |].
               inversion Hl; subst. cbn. apply IH; [done | lra]. }
             by apply Hgen. }
           apply Qle_shift_div_l; [done | lra].
        -- intros th Hth. destruct (Hthreshold th Hth) as [Hpos _]. eauto.
    + (* the threshold: not negative, and only with a standing level *)
      cbn [perform].
      assert (Hbind : (assign (assign_alarm_threshold_var entry);; set_alarm_threshold float_) d
                      = set_alarm_threshold float_ (assign_alarm_threshold_var entry d)).
      { unfold mbind, M_bind, assign.
        by destruct (set_alarm_threshold float_ (assign_alarm_threshold_var entry d))
          as [[[[] | e |] d'] ev]. }
      rewrite Hbind.
      destruct (set_alarm_threshold_level (assign_alarm_threshold_var entry d))
        as [Hs [Ht | (v & Hv & Hsome & Ht)]]; cbn in Hs, Ht; rewrite Hs, Ht.
      * done.
      * split; [done |]. intros th [= <-]. done.
Qed.

Lemma run_levels (acts : list action) :
  forall d, coherent d -> levels_sound d -> levels_sound (run float_ acts d).1.
Proof.
  induction acts as [| a acts IH]; intros d Hco Hinv; [done |].
  cbn [run].
  pose proof (perform_coherent float_ a d Hco) as Hco1.
  pose proof (perform_levels_sound a d Hco Hinv) as Hinv1.
  destruct (perform float_ a d) as [[r d'] ev]. cbn [fst snd] in *.
  specialize (IH d' Hco1 Hinv1). by destruct (run float_ acts d').
Qed.

End Levels.

(** On a running dashboard no recorded water height is negative, a
    calibrated standing water level is not negative, and a threshold is
    not negative and never set without a standing water level, so that
    the breach level [alarm_threshold + standing_water_level] is always
    defined once a threshold is set. *)
Theorem run_levels_sound (float_ : text -> res Q) (acts : list action) :
  (forall ys1,
     index (y_points (graph (run float_ acts initial_dashboard).1)) 1 = Ok ys1 ->
     Forall (Qle 0) ys1) /\
  (forall s, standing_water_level (run float_ acts initial_dashboard).1 = Some s ->
     (0 <= s)%Q) /\
  (forall th, alarm_threshold (run float_ acts initial_dashboard).1 = Some th ->
     (0 <= th)%Q /\ is_Some (standing_water_level (run float_ acts initial_dashboard).1)).
Proof.
  apply run_levels; [apply initial_dashboard_coherent |].
  repeat split; try done. cbn. by intros ys1 [= <-].
Qed.

(** * No call raises on a running dashboard *)

Section NeverRaises.

Local Open Scope Q_scope.

Variable float_ : text -> res Q.

Hypothesis float_reads_numbers : reads_numbers float_.

Lemma returns_preserves {A X : Type} (f : Dashboard -> X) (m : M A)
    (Q : A -> Dashboard -> list event -> Prop) (d : Dashboard) :
  returns m Q d -> preserves f m ->
  returns m (fun a d' ev => Q a d' ev /\ f d' = f d) d.
Proof.
  unfold returns, preserves. intros Hret Hkeep. specialize (Hkeep d).
  by destruct (m d) as [[[a | e |] d'] ev].
Qed.

(** [update_statistics] returns whatever the two windows hold. *)
Lemma update_statistics_total (now : Q) (d : Dashboard) :
  coherent d -> returns (update_statistics now) (fun _ _ _ => True) d.
Proof.
  intros Hco.
  destruct (coherent_windows d (now - inject_Z (data_period_var d)) Hco)
    as ([pxs pys] & [wxs wys] & H0 & H1 & _).
  destruct (get_data_within_last_x_subplot _ _ _ _ H0) as [a0 Hax0].
  destruct (get_data_within_last_x_subplot _ _ _ _ H1) as [a1 Hax1].
  unfold update_statistics.
  apply returns_bind, returns_self. cbv beta.
  apply returns_bind. eapply returns_call; [exact H0 |].
  apply returns_bind. cbn [unpack]. apply returns_ret. cbv beta iota.
  apply returns_bind. eapply returns_call; [exact H1 |].
  apply returns_bind. cbn [unpack]. apply returns_ret. cbv beta iota.
  apply returns_bind.
  apply (returns_mono _ (fun _ d1 ev =>
           length (axes_list (graph d1)) = length (axes_list (graph d)))).
  { destruct pys as [| p0 pys].
    - by apply returns_ret.
    - apply returns_bind. eapply returns_call; [reflexivity |].
      apply returns_bind. eapply returns_call; [reflexivity |].
      apply returns_bind. eapply returns_set_ylim; [exact Hax0 |].
      intros axes Hlen. by apply returns_ret. }
  intros max_pressure d1 ev Hlen1. cbv beta.
  apply returns_bind, returns_self. cbv beta.
  apply returns_bind, returns_assign.
  destruct (index_same_length _ (axes_list (graph d1)) _ _ Hax1 Hlen1) as [a1' Hax1'].
  apply returns_bind.
  destruct wys as [| w0 wys].
  { apply returns_ret. cbv beta iota.
    apply returns_bind, returns_self. by apply returns_assign. }
  apply returns_bind. eapply returns_call; [reflexivity |].
  apply returns_bind. eapply returns_call; [reflexivity |].
  destruct (standing_water_level d1) as [standing |].
  - destruct (alarm_threshold d1) as [threshold |].
    + destruct (get_number_color_returns
                  (if ltb (Py.max_from w0 wys - standing) 0 then 0
                   else Py.max_from w0 wys - standing) threshold) as (c1 & Hc1 & _).
      destruct (get_number_color_returns
                  (if ltb (w0 - standing) 0 then 0 else w0 - standing) threshold)
        as (c2 & Hc2 & _).
      apply returns_bind.
      apply returns_bind. eapply returns_call; [exact Hc1 |].
      apply returns_bind. eapply returns_call; [exact Hc2 |].
      apply returns_ret. cbv beta iota.
      apply returns_bind. eapply returns_set_ylim; [exact Hax1' |].
      intros axes Hlen. apply returns_ret. cbv beta iota.
      apply returns_bind, returns_self. by apply returns_assign.
    + apply returns_bind. apply returns_ret. cbv beta iota.
      apply returns_bind. eapply returns_set_ylim; [exact Hax1' |].
      intros axes Hlen. apply returns_ret. cbv beta iota.
      apply returns_bind, returns_self. by apply returns_assign.
  - apply returns_bind. apply returns_ret. cbv beta iota.
    apply returns_bind. eapply returns_set_ylim; [exact Hax1' |].
    intros axes Hlen. apply returns_ret. cbv beta iota.
    apply returns_bind, returns_self. by apply returns_assign.
Qed.

(** The alarm test of the main loop returns when a latched alarm has its
    snapshot. *)
Lemma mainloop_alarm_check_total (dt : string) (d : Dashboard) :
  latch_has_snapshot d -> returns (mainloop_alarm_check dt) (fun _ _ _ => True) d.
Proof.
  intros Hsnap. unfold returns.
  destruct (alarm_sent d) eqn:Hsent.
  - destruct (alarm_cooldown d) eqn:Hcool.
    + by rewrite mainloop_alarm_check_idle by (by right).
    + destruct (Hsnap Hsent) as [[p Hp] [w Hw]].
      by destruct (mainloop_alarm_check_fires dt d p w Hsent Hcool Hp Hw) as (d' & -> & _).
  - by rewrite mainloop_alarm_check_idle by (by left).
Qed.

Lemma mainloop_iteration_total (c t : Q) (dt : string) (d : Dashboard) :
  coherent d -> latch_has_snapshot d ->
  returns (mainloop_iteration c t dt) (fun _ _ _ => True) d.
Proof.
  intros Hco Hsnap. unfold mainloop_iteration, on_graph.
  apply returns_bind, returns_self. cbv beta.
  apply returns_bind, returns_assign.
  apply returns_bind, returns_assign.
  set (d2 := assign_graph _ (assign_graph _ d)).
  assert (Hco2 : coherent d2).
  { destruct Hco as (xs0 & ys0 & xs1 & ys1 & Hxs & Hys & Hn & Hrest).
    exists xs0, ys0, xs1, ys1. subst d2. unfold update_subplots.
    cbn -[map]. by rewrite length_map. }
  apply returns_bind.
  eapply returns_mono.
  { apply (returns_preserves alarm_fields), update_statistics_alarm_fields.
    by apply update_statistics_total. }
  intros [] d3 ev [_ Hal]. cbv beta.
  eapply returns_mono; [apply mainloop_alarm_check_total | done].
  unfold alarm_fields, latch_has_snapshot in *. injection Hal as -> -> ->. exact Hsnap.
Qed.

Lemma calibrate_air_pressure_total (now l : Q) (d : Dashboard) :
  coherent d -> returns (calibrate_air_pressure now l) (fun _ _ _ => True) d.
Proof.
  intros (xs0 & ys0 & xs1 & ys1 & Hxs & Hys & _).
  assert (Hx0 : index (x_points (graph d)) 0 = Ok xs0) by (by rewrite Hxs).
  assert (Hy0 : index (y_points (graph d)) 0 = Ok ys0) by (by rewrite Hys).
  unfold returns, calibrate_air_pressure, try_except. unfold_method.
  unfold points_count. rewrite Hx0.
  rewrite (calibrate_loop_take_recent _ _ now l xs0 ys0 Hx0 Hy0 0 []) by lia.
  rewrite !drop_0. cbn [app bind].
  destruct (take_recent (now - l) (reverse xs0) (reverse ys0)).2 as [| p0 ps]; [done |].
  rewrite (div_nonempty (p0 :: ps)) by done. done.
Qed.

Lemma calibrate_swh_total (now l : Q) (d : Dashboard) :
  coherent d -> returns (calibrate_swh now l) (fun _ _ _ => True) d.
Proof.
  intros Hco.
  destruct (coherent_windows d (now - l) Hco) as ([pxs pys] & [wxs wys] & H0 & H1 & _).
  unfold returns, calibrate_swh, try_except. unfold_method.
  rewrite H0, H1. cbn -[Py.div Py.sum Py.len].
  destruct wys as [| w0 wys]; [done |].
  rewrite (div_nonempty (w0 :: wys)) by done. cbn -[Py.div Py.sum Py.len].
  destruct pys as [| p0 pys]; [done |].
  rewrite (div_nonempty (p0 :: pys)) by done. done.
Qed.

Lemma set_alarm_threshold_total (d : Dashboard) :
  returns (set_alarm_threshold float_) (fun _ _ _ => True) d.
Proof using float_reads_numbers.
  unfold returns.
  destruct (standing_water_level d) as [s |] eqn:Hst.
  - destruct (float_reads_numbers (alarm_threshold_var d)) as [[v Hv] | Hraise].
    + destruct (Qlt_le_dec v 0) as [Hneg | Hpos].
      * by destruct (set_alarm_threshold_rejects float_ d) as (d' & -> & _); eauto.
      * by destruct (set_alarm_threshold_accepts float_ d s v Hst Hv Hpos) as (d' & -> & _).
    + by destruct (set_alarm_threshold_rejects float_ d) as (d' & -> & _); eauto.
  - by destruct (set_alarm_threshold_rejects float_ d) as (d' & -> & _); eauto.
Qed.

Lemma perform_total (a : action) (d : Dashboard) :
  coherent d -> latch_has_snapshot d ->
  returns (perform float_ a) (fun _ _ _ => True) d.
Proof using float_reads_numbers.
  intros Hco Hsnap.
  destruct a as [t p | | t l | t l | entry | period | c t dt]; cbn [perform].
  - unfold returns. by destruct (new_pressure_data_total t p d) as (d' & ev & -> & _).
  - unfold returns. by destruct (reset_alarm_run d) as (d' & -> & _).
  - by apply calibrate_air_pressure_total.
  - by apply calibrate_swh_total.
  - apply returns_bind, returns_assign. eapply returns_mono;
      [apply set_alarm_threshold_total | done].
  - done.
  - by apply mainloop_iteration_total.
Qed.

End NeverRaises.

(** With a parser that answers with a number or with [ValueError], no
    call on a running dashboard raises or runs out of loop bound: after
    any sequence of calls, every further reading, button press, entry,
    slider move and main-loop iteration returns. *)
Theorem running_dashboard_never_raises (float_ : text -> res Q)
    (acts : list action) (a : action) :
  reads_numbers float_ ->
  exists d' ev, perform float_ a (run float_ acts initial_dashboard).1 = (Ok tt, d', ev).
Proof.
  intros Hparse.
  assert (Hco : coherent (run float_ acts initial_dashboard).1)
    by apply run_coherent, initial_dashboard_coherent.
  assert (Hsnap : latch_has_snapshot (run float_ acts initial_dashboard).1)
    by (apply run_latch_has_snapshot; intros Hsent; discriminate Hsent).
  pose proof (perform_total float_ Hparse a _ Hco Hsnap) as Hret.
  apply returns_elim in Hret as ([] & d' & ev & Hrun & _). eauto.
Qed.

Lemma running_dashboard_never_raises_witness :
  reads_numbers (entry_value 20%Q) /\
  exists d' ev,
    perform (entry_value 20%Q) (MainloopIteration 6 6 "12:00:00")
      (run (entry_value 20%Q) alarm_session initial_dashboard).1 = (Ok tt, d', ev).
Proof.
  assert (Hparse : reads_numbers (entry_value 20%Q)) by (intros t; left; by exists 20%Q).
  split; [exact Hparse |].
  exact (running_dashboard_never_raises (entry_value 20%Q) alarm_session
           (MainloopIteration 6 6 "12:00:00") Hparse).
Defined.

(** * The y-limits of the two graphs *)

Section YLimits.

Local Open Scope Q_scope.

(** [min] returns an item of the list that exceeds no item. *)
Lemma min_from_spec (l : list Q) :
  forall cur,
    Py.min_from cur l <= cur /\
    (forall y, In y l -> Py.min_from cur l <= y).
Proof.
  unfold Py.min_from.
  induction l as [| x l IH]; intros cur; cbn [fold_left].
  - split; [lra | done].
  - destruct (IH (if ltb x cur then x else cur)) as (Hcur & Hall).
    destruct (ltb x cur) eqn:Hlt; rewrite ?ltb_lt, ?ltb_ge in Hlt.
    + split; [lra |]. intros y [<- | Hy]; [done | by apply Hall].
    + split; [done |]. intros y [<- | Hy]; [lra | by apply Hall].
Qed.


(** Subscripts of a two-item list. *)
Lemma index_pair {A : Type} (a b : A) :
  index [a; b] 0 = Ok a /\ index [a; b] 1 = Ok b.
Proof. done. Qed.

Lemma set_item_pair {A : Type} (a b v : A) :
  set_item [a; b] 0 v = Ok [v; b] /\ set_item [a; b] 1 v = Ok [a; v].
Proof. done. Qed.

Local Ltac pair_step :=
  first
    [ rewrite (proj1 (index_pair _ _))
    | rewrite (proj2 (index_pair _ _))
    | rewrite (proj1 (set_item_pair _ _ _))
    | rewrite (proj2 (set_item_pair _ _ _))
    | progress cbn -[ltb Py.max_from Py.min_from Qplus Qminus get_number_color
                     index set_item] ].

(** [update_statistics] on a figure with its two subplots and a
    non-empty pressure window returns, and then the y-limits of the
    pressure graph contain the default range 995..1025 and leave 5 hPa
    between every pressure of the window and either limit; with a
    non-empty water-height window the y-limits of the water-height
    graph start at 0, reach at least 15, and leave 2.5 cm above every
    height of the window, and with an empty one they are left as they
    were.  The x-limits are not touched. *)
Theorem update_statistics_ylim (d : Dashboard) (now : Q) (a0 a1 : Axes)
    (pxs : list Q) (p0 : Q) (pys wxs wys : list Q) :
  axes_list (graph d) = [a0; a1] ->
  get_data_within_last_x (graph d) 0 (now - inject_Z (data_period_var d)) =
    Ok (Some (pxs, p0 :: pys)) ->
  get_data_within_last_x (graph d) 1 (now - inject_Z (data_period_var d)) =
    Ok (Some (wxs, wys)) ->
  exists d' lo hi top,
    update_statistics now d = (Ok tt, d', []) /\
    axes_list (graph d') =
      [ {| xlim := xlim a0; ylim := (lo, hi) |};
        match wys with [] => a1 | _ => {| xlim := xlim a1; ylim := (0%Q, top) |} end ] /\
    (lo <= 995 /\ 1025 <= hi)%Q /\
    Forall (fun y => lo + 5 <= y /\ y <= hi - 5)%Q (p0 :: pys) /\
    (15 <= top)%Q /\
    Forall (fun y => y + 2.5 <= top)%Q wys.
Proof.
  intros Hax H0 H1.
  destruct (max_from_spec pys p0) as (Hmax0 & Hmax & _).
  destruct (min_from_spec pys p0) as (Hmin0 & Hmin).
  set (lo := if ltb (Py.min_from p0 pys - 5) 995 then Py.min_from p0 pys - 5 else 995).
  set (hi := if ltb 1025 (Py.max_from p0 pys + 5) then Py.max_from p0 pys + 5 else 1025).
  assert (Hlo : lo <= 995 /\ lo + 5 <= Py.min_from p0 pys).
  { subst lo. destruct (ltb _ 995) eqn:Hc; rewrite ?ltb_lt, ?ltb_ge in Hc; lra. }
  assert (Hhi : 1025 <= hi /\ Py.max_from p0 pys <= hi - 5).
  { subst hi. destruct (ltb 1025 _) eqn:Hc; rewrite ?ltb_lt, ?ltb_ge in Hc; lra. }
  assert (Hwindow : Forall (fun y => lo + 5 <= y /\ y <= hi - 5) (p0 :: pys)).
  { apply Forall_forall. intros y [-> | Hy]%elem_of_cons.
    - lra.
    - apply list_elem_of_In in Hy. specialize (Hmax y Hy). specialize (Hmin y Hy). lra. }
  unfold update_statistics, set_ylim. unfold_method.
  rewrite H0, H1. pair_step. rewrite Hax. repeat pair_step.
  destruct wys as [| w0 wys].
  - repeat pair_step.
    eexists _, lo, hi, 15. split; [reflexivity |].
    split; [reflexivity |]. repeat split; try done; lra.
  - destruct (max_from_spec wys w0) as (Hw0 & Hw & _).
    set (top := if ltb 15 (Py.max_from w0 wys + 2.5) then Py.max_from w0 wys + 2.5 else 15).
    assert (Htop : 15 <= top /\ Py.max_from w0 wys + 2.5 <= top).
    { subst top. destruct (ltb 15 _) eqn:Hc; rewrite ?ltb_lt, ?ltb_ge in Hc; lra. }
    assert (Hheights : Forall (fun y => y + 2.5 <= top) (w0 :: wys)).
    { apply Forall_forall. intros y [-> | Hy]%elem_of_cons.
      - lra.
      - apply list_elem_of_In in Hy. specialize (Hw y Hy). lra. }
    repeat pair_step.
    destruct (standing_water_level d) as [standing |];
      [destruct (alarm_threshold d) as [threshold |] |].
    + destruct (get_number_color_returns
                  (if ltb (Py.max_from w0 wys - standing) 0 then 0
                   else Py.max_from w0 wys - standing) threshold) as (c1 & Hc1 & _).
      destruct (get_number_color_returns
                  (if ltb (w0 - standing) 0 then 0 else w0 - standing) threshold)
        as (c2 & Hc2 & _).
      rewrite Hc1. repeat pair_step.
      rewrite Hc2. repeat pair_step.
      eexists _, lo, hi, top. split; [reflexivity |].
      split; [reflexivity |]. repeat split; try done; lra.
    + repeat pair_step.
      eexists _, lo, hi, top. split; [reflexivity |].
      split; [reflexivity |]. repeat split; try done; lra.
    + repeat pair_step.
      eexists _, lo, hi, top. split; [reflexivity |].
      split; [reflexivity |]. repeat split; try done; lra.
Qed.

Lemma update_statistics_ylim_witness :
  axes_list (graph short_session) = [pressure_subplot; water_height_subplot] /\
  exists d' lo hi top,
    update_statistics 4 short_session = (Ok tt, d', []) /\
    axes_list (graph d') =
      [ {| xlim := (0, 1); ylim := (lo, hi) |}; {| xlim := (0, 1); ylim := (0, top) |} ] /\
    lo + 5 <= 1000 /\ 1001 <= hi - 5 /\ 15 <= top.
Proof.
  split; [reflexivity |].
  destruct (update_statistics_ylim short_session 4 pressure_subplot water_height_subplot
              [3; 1] 1001 [1000] [3] [height_cm (1000 / 1) 1001]
              eq_refl eq_refl eq_refl)
    as (d' & lo & hi & top & Hrun & Haxes & _ & Hwindow & Htop & _).
  exists d', lo, hi, top. split; [exact Hrun |]. split; [exact Haxes |].
  inversion Hwindow as [| y l [_ Hfirst] Hrest]; subst.
  inversion Hrest as [| y l [Hsecond _] _]; subst.
  split; [exact Hsecond |]. split; [exact Hfirst | exact Htop].
Defined.

End YLimits.

(** * The text on the graphs *)

Section GraphTexts.

Local Open Scope Q_scope.

(** The last point of a subplot whose two coordinate lists are equally
    long has both coordinates or none. *)
Lemma get_data_point_last (g : UpdatingGraphFigure) (k : Z) (xs ys : list Q) :
  index (x_points g) k = Ok xs ->
  index (y_points g) k = Ok ys ->
  length xs = length ys ->
  get_data_point g k (-1) = (None, None) \/
  exists x y, get_data_point g k (-1) = (Some x, Some y).
Proof.
  intros Hx Hy Hlen. unfold get_data_point. rewrite Hx, Hy. cbn [bind].
  change (-1)%Z with (- (Z.of_nat 0 + 1))%Z. rewrite !index_from_end.
  pose proof (length_reverse xs) as Hrx. pose proof (length_reverse ys) as Hry.
  destruct (reverse xs) as [| x rxs], (reverse ys) as [| y rys]; cbn in *;
    [by left | lia | lia | right; eauto].
Qed.

(** The y value [label_last_point] gives a text: the height of the
    point, or the line a twelfth above the lower limit when the point
    is not above that line. *)
Lemma label_last_point_height (template : string) (a : Axes) (last_y : Q) :
  exists t',
    (forall t, label_last_point template a (Some last_y) t = Ok t') /\
    text_content t' = Format template last_y /\
    last_y <= text_y t' /\
    (ylim a).1 + size (ylim a) / 12 <= text_y t' /\
    (text_y t' = last_y \/ text_y t' = (ylim a).1 + size (ylim a) / 12).
Proof.
  eexists. split; [intros t; reflexivity |]. split; [reflexivity |]. cbn [text_y].
  destruct (ltb _ _) eqn:Hc; rewrite ?ltb_lt, ?ltb_ge in Hc.
  - repeat split; [lra | lra | by left].
  - repeat split; [lra | lra | by right].
Qed.

End GraphTexts.

(** With a last point on both graphs, [update_graph_text] returns, each
    of the two labels shows the last reading of its graph, and sits at
    the height of the reading or, when the reading is not above it, on
    the line a twelfth of the y range above the lower limit: never below
    the reading and never below that line. *)
Theorem update_graph_text_labels (d : Dashboard) (texts : GraphText) (a0 a1 : Axes)
    (t p t' h : Q) :
  axes_list (graph d) = [a0; a1] ->
  get_data_point (graph d) 0 (-1) = (Some t, Some p) ->
  get_data_point (graph d) 1 (-1) = (Some t', Some h) ->
  alarm_threshold d = None \/ is_Some (standing_water_level d) ->
  exists texts',
    update_graph_text d texts = (Ok tt, texts') /\
    text_content (current_pressure_text texts') = Format "{:.2f} hPa" p /\
    text_content (current_water_height_text texts') = Format "{:.2f} cm" h /\
    (p <= text_y (current_pressure_text texts') /\
     (ylim a0).1 + size (ylim a0) / 12 <= text_y (current_pressure_text texts') /\
     (text_y (current_pressure_text texts') = p \/
      text_y (current_pressure_text texts') = (ylim a0).1 + size (ylim a0) / 12))%Q /\
    (h <= text_y (current_water_height_text texts') /\
     (ylim a1).1 + size (ylim a1) / 12 <= text_y (current_water_height_text texts') /\
     (text_y (current_water_height_text texts') = h \/
      text_y (current_water_height_text texts') = (ylim a1).1 + size (ylim a1) / 12))%Q.
Proof.
  intros Hax H0 H1 Hlevel.
  destruct (label_last_point_height "{:.2f} hPa" a0 p) as (tp & Hp & Hpc & Hph).
  destruct (label_last_point_height "{:.2f} cm" a1 h) as (tw & Hw & Hwc & Hwh).
  unfold update_graph_text, update_pressure_text, update_water_height_text,
    update_threshold_text, mbind, res_bind.
  rewrite Hax, (proj1 (index_pair a0 a1)), (proj2 (index_pair a0 a1)), H0, H1, Hp.
  cbn [bind]. rewrite Hw. cbn [bind].
  destruct Hlevel as [-> | [s ->]]; [| destruct (alarm_threshold d)];
    eexists; (split; [reflexivity |]); cbn; done.
Qed.

Lemma update_graph_text_labels_witness :
  get_data_point (graph longer_session) 0 (-1) = (Some 4, Some 1003)%Q /\
  exists texts',
    update_graph_text longer_session created_graph_text = (Ok tt, texts') /\
    text_content (current_pressure_text texts') = Format "{:.2f} hPa" 1003%Q /\
    (1003 <= text_y (current_pressure_text texts'))%Q.
Proof.
  split; [reflexivity |].
  destruct (update_graph_text_labels longer_session created_graph_text
              pressure_subplot water_height_subplot
              4%Q 1003%Q 4%Q (height_cm (1000 / 1) 1003)
              eq_refl eq_refl eq_refl (or_introl eq_refl))
    as (texts' & Hrun & Hp & _ & (Hpy & _) & _).
  exists texts'. split; [exact Hrun |]. split; [exact Hp | exact Hpy].
Defined.

(** With a pressure reading but no water height yet, as before the air
    pressure is calibrated, [update_graph_text] returns and the pressure
    label, showing the reading, is left at the middle of the x range and
    of the y range of the water-height graph, not at the reading; the
    water-height label is not touched. *)
Theorem update_graph_text_without_height (d : Dashboard) (texts : GraphText) (a0 a1 : Axes)
    (t p : Q) :
  axes_list (graph d) = [a0; a1] ->
  get_data_point (graph d) 0 (-1) = (Some t, Some p) ->
  get_data_point (graph d) 1 (-1) = (None, None) ->
  alarm_threshold d = None ->
  exists texts',
    update_graph_text d texts = (Ok tt, texts') /\
    current_pressure_text texts' =
      {| text_content := Format "{:.2f} hPa" p;
         text_x := middle (xlim a1);
         text_y := middle (ylim a1) |} /\
    current_water_height_text texts' = current_water_height_text texts /\
    alarm_threshold_text texts' = alarm_threshold_text texts.
Proof.
  intros Hax H0 H1 Hth.
  unfold update_graph_text, update_pressure_text, update_water_height_text,
    update_threshold_text, label_last_point, mbind, res_bind.
  rewrite Hax, (proj1 (index_pair a0 a1)), (proj2 (index_pair a0 a1)), H0, H1, Hth.
  cbn [bind]. eexists. split; [reflexivity |]. done.
Qed.

Lemma update_graph_text_without_height_witness :
  get_data_point (graph two_readings) 0 (-1) = (Some 2, Some 1002)%Q /\
  exists texts',
    update_graph_text two_readings created_graph_text = (Ok tt, texts') /\
    current_pressure_text texts' =
      {| text_content := Format "{:.2f} hPa" 1002%Q;
         text_x := middle (0, 1)%Q;
         text_y := middle (0, 15)%Q |}.
Proof.
  split; [reflexivity |].
  destruct (update_graph_text_without_height two_readings created_graph_text
              pressure_subplot water_height_subplot 2%Q 1002%Q
              eq_refl eq_refl eq_refl eq_refl)
    as (texts' & Hrun & Hp & _).
  exists texts'. split; [exact Hrun | exact Hp].
Defined.

(** On a running dashboard [update_graph_text] never raises, whatever
    the texts were; and once a threshold is set, the threshold label
    shows the threshold added to the standing water level, which is then
    calibrated. *)
Theorem update_graph_text_running (float_ : text -> res Q) (acts : list action)
    (texts : GraphText) :
  exists texts',
    update_graph_text (run float_ acts initial_dashboard).1 texts = (Ok tt, texts') /\
    forall th, alarm_threshold (run float_ acts initial_dashboard).1 = Some th ->
      exists s,
        standing_water_level (run float_ acts initial_dashboard).1 = Some s /\
        text_content (alarm_threshold_text texts') =
          Format "ALARM THRESHOLD: {:.2f} cm" (th + s).
Proof.
  pose proof (run_coherent float_ acts _ initial_dashboard_coherent) as Hco.
  assert (Hlev : levels_sound (run float_ acts initial_dashboard).1).
  { apply run_levels; [apply initial_dashboard_coherent |].
    repeat split; try done. cbn. by intros ys1 [= <-]. }
  set (d := (run float_ acts initial_dashboard).1) in *.
  destruct Hco as (xs0 & ys0 & xs1 & ys1 & Hxs & Hys & Hn & Hl0 & Hl1 & _).
  destruct Hlev as (_ & _ & Hth).
  destruct (axes_list (graph d)) as [| a0 [| a1 [| a2 rest]]] eqn:Hax; try discriminate Hn.
  assert (H0 : get_data_point (graph d) 0 (-1) = (None, None) \/
               exists x y, get_data_point (graph d) 0 (-1) = (Some x, Some y)).
  { apply (get_data_point_last _ _ xs0 ys0); [by rewrite Hxs | by rewrite Hys | done]. }
  assert (H1 : get_data_point (graph d) 1 (-1) = (None, None) \/
               exists x y, get_data_point (graph d) 1 (-1) = (Some x, Some y)).
  { apply (get_data_point_last _ _ xs1 ys1); [by rewrite Hxs | by rewrite Hys | done]. }
  unfold update_graph_text, update_pressure_text, update_water_height_text,
    update_threshold_text, label_last_point, mbind, res_bind.
  rewrite Hax, (proj1 (index_pair a0 a1)), (proj2 (index_pair a0 a1)).
  destruct H0 as [-> | (x0 & y0 & ->)], H1 as [-> | (x1 & y1 & ->)];
    cbn [bind];
    (destruct (alarm_threshold d) as [th |] eqn:Hthd;
     [destruct (Hth th eq_refl) as [_ [s Hs]]; rewrite Hs;
      eexists; split; [reflexivity |]; intros th' [= <-]; exists s; by split
     | eexists; split; [reflexivity |]; by intros th' Hth']).
Qed.

(** * The data thread *)

Section DataThread.

Local Open Scope Q_scope.

Variable float_ : text -> res Q.

Hypothesis float_reads_numbers : reads_numbers float_.

Local Ltac idle_pass :=
  match goal with
  | Hsame : pressure_data ?d = _ |- _ =>
      exists d, []; split; [reflexivity | cbn; exact Hsame]
  end.

(** One pass of the loop returns, and records at most the one reading
    it passes on. *)
Lemma data_loop_iteration_records (self : Transmitter.DataTransmitter) (now : Q)
    (read : read_result) (d : Dashboard) :
  exists d' ev,
    Transmitter.data_loop_iteration float_ self now read d = (Ok tt, d', ev) /\
    pressure_data d' =
      ((pressure_data d).1 ++ (passed_on float_ self [(now, read)]).*1,
       (pressure_data d).2 ++ (passed_on float_ self [(now, read)]).*2).
Proof using float_reads_numbers.
  assert (Hsame : pressure_data d = ((pressure_data d).1 ++ [], (pressure_data d).2 ++ []))
    by (rewrite !app_nil_r; by destruct (pressure_data d)).
  unfold Transmitter.data_loop_iteration, passed_on, Transmitter.get_pressure_data,
    Transmitter.is_serial_connected.
  destruct (Transmitter.dashboard self); cbn [negb andb]; [| idle_pass].
  destruct (Transmitter.serial_COM self) as [port |]; cbn [negb]; [| idle_pass].
  unfold_method.
  destruct read as [| data]; cbn [omap list_omap snd fst]; [idle_pass |].
  destruct (String.eqb data ""); [idle_pass |].
  destruct (float_reads_numbers (Lit data)) as [[v ->] | ->]; [| idle_pass].
  destruct (new_pressure_data_total now v d) as (d' & ev & -> & _ & _ & _ & Hdata & _).
  exists d', ev. split; [reflexivity |].
  unfold data_fields in Hdata. by injection Hdata as -> _.
Qed.

Lemma passed_on_cons (self : Transmitter.DataTransmitter) (pass : Q * read_result)
    (passes : list (Q * read_result)) :
  passed_on float_ self (pass :: passes) =
  passed_on float_ self [pass] ++ passed_on float_ self passes.
Proof.
  unfold passed_on.
  destruct (Transmitter.dashboard self && Transmitter.is_serial_connected self); [| done].
  destruct pass as [now [| data]]; cbn [omap list_omap fst snd]; [done |].
  destruct (String.eqb data ""); [done |]. by destruct (float_ (Lit data)).
Qed.

Lemma data_loop_total (self : Transmitter.DataTransmitter) (passes : list (Q * read_result)) :
  forall d,
  exists d' ev,
    Transmitter.data_loop float_ self passes d = (Ok tt, d', ev) /\
    pressure_data d' =
      ((pressure_data d).1 ++ (passed_on float_ self passes).*1,
       (pressure_data d).2 ++ (passed_on float_ self passes).*2).
Proof using float_reads_numbers.
  induction passes as [| [now read] passes IH]; intros d.
  - exists d, []. split; [done |].
    assert (Hnil : passed_on float_ self [] = []) by (unfold passed_on; by destruct (_ && _)).
    rewrite Hnil. cbn. rewrite !app_nil_r. by destruct (pressure_data d).
  - destruct (data_loop_iteration_records self now read d) as (d1 & ev1 & Hstep & Hd1).
    destruct (IH d1) as (d2 & ev2 & Hrest & Hd2).
    exists d2, (ev1 ++ ev2). cbn [Transmitter.data_loop].
    unfold mbind, M_bind. rewrite Hstep, Hrest. split; [done |].
    rewrite Hd2, Hd1, (passed_on_cons self (now, read) passes). cbn [fst snd].
    by rewrite !fmap_app, !app_assoc.
Qed.

(** Without a port, or without a dashboard, the loop does nothing. *)
Lemma data_loop_idle (self : Transmitter.DataTransmitter) (passes : list (Q * read_result)) :
  Transmitter.dashboard self = false \/ Transmitter.serial_COM self = None ->
  forall d, Transmitter.data_loop float_ self passes d = (Ok tt, d, []).
Proof.
  intros Hidle. induction passes as [| [now read] passes IH]; intros d; [done |].
  cbn [Transmitter.data_loop]. unfold mbind, M_bind.
  assert (Hstep : Transmitter.data_loop_iteration float_ self now read d = (Ok tt, d, [])).
  { unfold Transmitter.data_loop_iteration, Transmitter.is_serial_connected.
    destruct Hidle as [-> | ->]; [done |]. by destruct (Transmitter.dashboard self). }
  by rewrite Hstep, IH.
Qed.

End DataThread.

(** With a parser that answers with a number or with [ValueError], the
    passes of [data_loop] never raise, and they record, in order and
    each with the clock of its pass, exactly the lines that are not
    empty and read as a number, a reading of 0 included; a read that
    raises, an empty line and a line that is no number are skipped.
    Without a port or without a dashboard nothing is recorded. *)
Theorem data_loop_records (float_ : text -> res Q) (self : Transmitter.DataTransmitter)
    (passes : list (Q * read_result)) (d : Dashboard) :
  reads_numbers float_ ->
  exists d' ev,
    Transmitter.data_loop float_ self passes d = (Ok tt, d', ev) /\
    pressure_data d' =
      ((pressure_data d).1 ++ (passed_on float_ self passes).*1,
       (pressure_data d).2 ++ (passed_on float_ self passes).*2).
Proof. intros Hparse. by apply data_loop_total. Qed.

Lemma data_loop_records_witness :
  reads_numbers sample_float /\
  exists d' ev,
    Transmitter.data_loop sample_float sample_transmitter
      [(1, ReadLine "1000"); (2, ReadLine ""); (3, ReadRaises);
       (4, ReadLine "10x0"); (5, ReadLine "0")]%Q initial_dashboard = (Ok tt, d', ev) /\
    pressure_data d' = ([1; 5], [1000; 0])%Q.
Proof.
  assert (Hparse : reads_numbers sample_float).
  { intros [s | template arg]; cbn; [| by right].
    destruct (String.eqb s "1000"); [left; by eexists |].
    destruct (String.eqb s "0"); [left; by eexists | by right]. }
  split; [exact Hparse |].
  destruct (data_loop_records sample_float sample_transmitter
              [(1, ReadLine "1000"); (2, ReadLine ""); (3, ReadRaises);
               (4, ReadLine "10x0"); (5, ReadLine "0")]%Q initial_dashboard Hparse)
    as (d' & ev & Hrun & Hdata).
  exists d', ev. split; [exact Hrun | exact Hdata].
Defined.

(** A connection attempt that fails reports it in the status line and
    leaves the transmitter without a port, whatever port it had before:
    from then on the data loop records nothing and [send_alarm] writes
    nothing. *)
Theorem connect_serial_failure (float_ : text -> res Q)
    (self : Transmitter.DataTransmitter) (passes : list (Q * read_result)) (d : Dashboard) :
  exists self',
    connect_serial SerialException self d =
      (Ok self', assign_status_var (Lit "Failed to connect to Arduino") d, []) /\
    Transmitter.is_serial_connected self' = false /\
    Transmitter.send_alarm self' = [] /\
    forall d0, Transmitter.data_loop float_ self' passes d0 = (Ok tt, d0, []).
Proof.
  eexists. split; [reflexivity |]. split; [reflexivity |]. split; [reflexivity |].
  intros d0. apply data_loop_idle. by right.
Qed.

(** * Thread switches inside a method *)

Section ThreadSwitches.

Local Open Scope Q_scope.

(** Without a switch the statement-by-statement bodies are the methods. *)
Lemma reset_alarm_with_no_switch (d : Dashboard) :
  reset_alarm_with no_switch d = reset_alarm d.
Proof. reflexivity. Qed.

Lemma new_pressure_data_with_no_switch (t p : Q) (d : Dashboard) :
  new_pressure_data_with no_switch t p d = new_pressure_data t p d.
Proof.
  unfold new_pressure_data_with, new_pressure_data, no_switch. unfold_method.
  cbn -[add_data_point calculate_water_height ltb].
  destruct (calibrated_air_pressure d) as [a |]; [| reflexivity].
  destruct (calculate_water_height _ p) as [h | e |];
    cbn -[add_data_point ltb]; [| reflexivity | reflexivity].
  destruct (standing_water_level d) as [s |]; [| reflexivity].
  destruct (alarm_threshold d) as [th |] eqn:Hth; cbn -[add_data_point ltb];
    [| reflexivity].
  rewrite Hth. cbn -[add_data_point ltb].
  by destruct (ltb th (h - s) && Bool.eqb (alarm_sent d) false).
Qed.

Lemma calibrate_swh_between_no_switch (now l : Q) (d : Dashboard) :
  calibrate_swh_between (mret tt) now l d = calibrate_swh now l d.
Proof.
  unfold calibrate_swh_between, calibrate_swh. unfold_method.
  destruct (get_data_within_last_x (graph d) 0 (now - l)) as [[[px py] |] | e |];
    cbn -[get_data_within_last_x try_except]; try reflexivity.
  destruct (get_data_within_last_x (graph d) 1 (now - l)) as [[[wx wy] |] | e |];
    cbn -[get_data_within_last_x try_except]; try reflexivity.
  destruct (try_except _ _ _ d) as [[[[|] | e |] d'] ev]; try reflexivity.
  cbn. by destruct (standing_water_level d').
Qed.

(** A scan that collects no y value collects no x value. *)
Lemma take_recent_none (m : Q) (rxs rys : list Q) :
  (take_recent m rxs rys).2 = [] -> take_recent m rxs rys = ([], []).
Proof.
  destruct rxs as [| x rxs], rys as [| y rys]; try done.
  cbn [take_recent]. destruct (ltb x m); [done |].
  by destruct (take_recent m rxs rys).
Qed.

(** The water-height window right after a reading that falls in it,
    when the pressure window was empty before: the one new point. *)
Lemma window_after_reading (d : Dashboard) (m t p a : Q) :
  coherent d ->
  calibrated_air_pressure d = Some a ->
  get_data_within_last_x (graph d) 0 m = Ok (Some ([], [])) ->
  m <= t ->
  get_data_within_last_x (graph (new_pressure_data t p d).1.2) 1 m =
    Ok (Some ([t], [height_cm a p])).
Proof.
  intros Hco Hcal H0 Ht.
  destruct (coherent_windows d m Hco) as (w0 & w1 & H0' & H1 & Hempty).
  rewrite H0 in H0'. injection H0' as <-. specialize (Hempty eq_refl).
  destruct Hco as (xs0 & ys0 & xs1 & ys1 & Hxs & Hys & Hn & _).
  assert (Hsub : is_Some (get_subplot (graph d) 1)).
  { unfold get_subplot. destruct (axes_list (graph d)) as [| a0 [| a1 [| a2 rest]]];
      try discriminate Hn. cbn. eauto. }
  rewrite (get_data_within_last_x_take_recent _ 1 m xs1 ys1 Hsub) in H1
    by (by rewrite ?Hxs, ?Hys).
  injection H1 as H1. rewrite <- H1 in Hempty. apply take_recent_none in Hempty.
  destruct (new_pressure_data_points t p d xs0 ys0 xs1 ys1 Hxs Hys)
    as (xs1' & ys1' & Hx' & Hy' & Hax' & Hcase).
  destruct Hcase as [(Hnone & _) | (a' & Ha' & -> & ->)]; [congruence |].
  assert (a' = a) as -> by congruence.
  assert (Hsub' : is_Some (get_subplot (graph (new_pressure_data t p d).1.2) 1)).
  { unfold get_subplot. by rewrite Hax'. }
  rewrite (get_data_within_last_x_take_recent _ 1 m (xs1 ++ [t]) (ys1 ++ [height_cm a p])
             Hsub') by (by rewrite ?Hx', ?Hy').
  rewrite !reverse_snoc. cbn [take_recent].
  assert (Hin : ltb t m = false) by (by apply ltb_ge).
  by rewrite Hin, Hempty.
Qed.

(** C6: over an empty pressure window [calibrate_air_pressure] and an
    uninterrupted [calibrate_swh] end in the lack-of-data report and
    change nothing else.  But [calibrate_swh] makes its two queries one
    after the other and its two assignments in one [try]: when the data
    thread delivers a reading between the two queries, the water-height
    window has that reading and the pressure window has none, and the
    call overwrites the standing water level with the height of that
    reading before it fails on the pressure mean and reports a lack of
    data.  The standing-water pressure and the air-pressure baseline are
    left as they were. *)
Theorem calibrate_swh_partial_update (d : Dashboard) (now l t p a : Q) :
  coherent d ->
  calibrated_air_pressure d = Some a ->
  get_data_within_last_x (graph d) 0 (now - l) = Ok (Some ([], [])) ->
  now - l <= t ->
  (air_window_empty d now l ->
   calibrate_air_pressure now l d =
     (Ok tt, assign_status_var (Lit "Could not calibrate air pressure, lack of data") d, [])) /\
  calibrate_swh now l d =
    (Ok tt,
     assign_status_var (Lit "Could not calibrate standing water height, lack of data") d,
     []) /\
  exists d' ev,
    calibrate_swh_between (new_pressure_data t p) now l d = (Ok tt, d', ev) /\
    status_var d' = Lit "Could not calibrate standing water height, lack of data" /\
    standing_water_level d' = Some (Py.sum [height_cm a p] / Py.len [height_cm a p]) /\
    calibrated_air_pressure d' = calibrated_air_pressure d /\
    standing_water_air_pressure d' = standing_water_air_pressure d.
Proof.
  intros Hco Hcal H0 Ht.
  split; [apply calibrate_air_pressure_empty |]. split.
  - destruct (coherent_windows d (now - l) Hco) as (w0 & [wx wy] & H0' & H1 & Hempty).
    rewrite H0 in H0'. injection H0' as <-. specialize (Hempty eq_refl).
    cbn in Hempty. subst wy. exact (calibrate_swh_empty d now l _ wx H0 H1).
  - pose proof (window_after_reading d (now - l) t p a Hco Hcal H0 Ht) as H1.
    destruct (new_pressure_data_total t p d) as (d1 & ev & Hrun & _ & _ & Hfields & _).
    rewrite Hrun in H1. cbn [fst snd] in H1.
    unfold calibration_fields in Hfields.
    assert (Hbase : calibrated_air_pressure d1 = calibrated_air_pressure d)
      by (by injection Hfields).
    assert (Hswp : standing_water_air_pressure d1 = standing_water_air_pressure d)
      by (by injection Hfields).
    exists (assign_status_var
              (Lit "Could not calibrate standing water height, lack of data")
              (assign_standing_water_level
                 (Some (Py.sum [height_cm a p] / Py.len [height_cm a p])) d1)), (ev ++ []).
    split; [| by repeat split].
    unfold calibrate_swh_between, try_except. unfold_method.
    rewrite H0. cbn -[new_pressure_data get_data_within_last_x Py.div Py.sum Py.len].
    rewrite Hrun. cbn -[get_data_within_last_x Py.div Py.sum Py.len].
    rewrite H1. cbn -[Py.div Py.sum Py.len].
    rewrite (div_nonempty [height_cm a p]) by done.
    reflexivity.
Qed.

Lemma calibrate_swh_partial_update_witness :
  coherent calibrated_session /\
  get_data_within_last_x (graph calibrated_session) 0 (100 - 5) = Ok (Some ([], [])) /\
  standing_water_level calibrated_session = Some (1000000 # 978057) /\
  exists d' ev level,
    calibrate_swh_between (new_pressure_data 100 1050) 100 5 calibrated_session =
      (Ok tt, d', ev) /\
    status_var d' = Lit "Could not calibrate standing water height, lack of data" /\
    standing_water_level d' = Some level /\
    51 < level /\
    standing_water_air_pressure d' = standing_water_air_pressure calibrated_session.
Proof.
  assert (Hco : coherent calibrated_session)
    by apply run_coherent, initial_dashboard_coherent.
  assert (Hin : 100 - 5 <= 100) by (unfold Qle; cbn; lia).
  split; [exact Hco |]. split; [reflexivity |]. split; [reflexivity |].
  destruct (calibrate_swh_partial_update calibrated_session 100 5 100 1050 (1000 / 1)
              Hco eq_refl eq_refl Hin)
    as (_ & _ & d' & ev & Hrun & Hstatus & Hlevel & _ & Hpressure).
  exists d', ev, (Py.sum [height_cm (1000 / 1) 1050] / Py.len [height_cm (1000 / 1) 1050]).
  split; [exact Hrun |]. split; [exact Hstatus |]. split; [exact Hlevel |].
  split; [reflexivity | exact Hpressure].
Defined.

(** ** The alarm test of the main loop inside [new_pressure_data] *)






End ThreadSwitches.




